(** * Sentry issue search: [sentry.search.django.backend]

    A shallow embedding of the two search backends of
    [src/sentry/search/django/backend.py] ([DjangoSearchBackend] and
    [EnvironmentDjangoSearchBackend]) together with the small query
    builder they share, and the properties the specification states
    about them.

    Conventions of the embedding.
    - Python values that travel through keyword arguments are [pyval];
      keyword-argument dictionaries and the [tags] mapping are [gmap]s.
    - A Django [QuerySet] over a model is the list of rows it denotes
      against a fixed database snapshot, plus the [extra(select=...)]
      and [order_by] annotations it carries.  [filter] keeps the rows
      that satisfy the lookups, [exclude] the others, [none()] drops
      every row.
    - Effects are threaded by the monad [M]: exceptions, the caller's
      [tags] mapping (which [EnvironmentDjangoSearchBackend.query]
      mutates) and the log of calls made to the tag store adapter and of
      materialised event sub-queries.
    - Timestamps are integers (microseconds since the epoch).
    - The storage layer is read on values of the kind and the range of
      their column.  The errors the ORM and the database raise on other
      values (an integer past the range of a bounded column, the
      logarithm of a count of 0) are left out, and a floating point
      number is read as the real number it stands for.
    - A conditional statement [if c: queryset = f(queryset)] reads
      [(if c then f else id) queryset]. *)

From Stdlib Require Import Reals Lra.
From Stdlib Require Import ZArith List String Ascii Bool Lia Permutation Sorted.
From stdpp Require Import base gmap strings.
Import Datatypes ListNotations.

Local Open Scope string_scope.
Local Open Scope Z_scope.

(** ** Python values *)

Inductive pyval : Type :=
| VNone
| VBool (b : bool)
| VInt (n : Z)
| VStr (s : string)
| VDate (t : Z)          (* a datetime *)
| VUser (u : Z)          (* a User instance, by primary key *)
| VIds (l : list Z)      (* a tuple, list or values_list of integers *)
| VEmpty                 (* sentry.search.base.EMPTY *)
| VAny.                  (* sentry.search.base.ANY *)

(** Truth value of a Python object, as tested by [if x:]. *)
Definition truthy (v : pyval) : bool :=
  match v with
  | VNone => false
  | VBool b => b
  | VInt n => negb (n =? 0)
  | VStr s => negb (String.eqb s "")
  | VIds l => match l with [] => false | _ => true end
  | VDate _ | VUser _ | VEmpty | VAny => true
  end.

(** [x is None], [x is EMPTY], [x is ANY]. *)
Definition is_None (v : pyval) : bool :=
  match v with VNone => true | _ => false end.

Definition is_EMPTY (v : pyval) : bool :=
  match v with VEmpty => true | _ => false end.

Definition is_ANY (v : pyval) : bool :=
  match v with VAny => true | _ => false end.

(** [x in (True, False)]: membership uses [==], and [1 == True],
    [0 == False] in Python. *)
Definition in_True_False (v : pyval) : bool :=
  match v with
  | VBool _ => true
  | VInt n => (n =? 1) || (n =? 0)
  | _ => false
  end.

(** ** Strings: [icontains] and lookup names *)

Definition lower (c : ascii) : ascii :=
  let n := nat_of_ascii c in
  if ((65 <=? n) && (n <=? 90))%nat then ascii_of_nat (n + 32) else c.

Fixpoint lowercase (s : string) : string :=
  match s with
  | EmptyString => EmptyString
  | String c s' => String (lower c) (lowercase s')
  end.

Fixpoint contains (needle hay : string) : bool :=
  String.prefix needle hay ||
  match hay with
  | EmptyString => false
  | String _ hay' => contains needle hay'
  end.

Definition icontains (needle hay : string) : bool :=
  contains (lowercase needle) (lowercase hay).

Definition strip_suffix (sfx s : string) : option string :=
  let n := String.length s in
  let m := String.length sfx in
  if ((m <=? n)%nat && String.eqb (String.substring (n - m) m s) sfx)%bool
  then Some (String.substring 0 (n - m) s)
  else None.

(** ** Field lookups, as in [filter(first_seen__gte=value)] *)

Inductive lookup_type : Type :=
| LExact | LGt | LGte | LLt | LLte | LIn | LIContains.

Definition lookup_suffixes : list (string * lookup_type) :=
  [("__gte", LGte); ("__gt", LGt); ("__lte", LLte); ("__lt", LLt);
   ("__in", LIn); ("__icontains", LIContains)].

Fixpoint parse_lookup_with (sfxs : list (string * lookup_type)) (name : string)
  : string * lookup_type :=
  match sfxs with
  | [] => (name, LExact)
  | (sfx, lt) :: rest =>
      match strip_suffix sfx name with
      | Some field => (field, lt)
      | None => parse_lookup_with rest name
      end
  end.

Definition parse_lookup (name : string) : string * lookup_type :=
  parse_lookup_with lookup_suffixes name.

(** Comparison of a column value with a query parameter.  Values of
    different kinds do not compare (the row is not selected). *)
Definition sql_compare (field value : pyval) : option comparison :=
  match field, value with
  | VInt a, VInt b => Some (a ?= b)
  | VInt a, VBool b => Some (a ?= Z.b2z b)
  | VDate a, VDate b => Some (a ?= b)
  | VStr a, VStr b => Some (String.compare a b)
  | _, _ => None
  end.

Definition lookup_holds (lt : lookup_type) (field value : pyval) : bool :=
  match lt with
  | LExact =>
      match value with
      | VNone => is_None field            (* [field=None] is [IS NULL] *)
      | _ => match sql_compare field value with Some Eq => true | _ => false end
      end
  | LGt => match sql_compare field value with Some Gt => true | _ => false end
  | LGte =>
      match sql_compare field value with
      | Some Gt | Some Eq => true
      | _ => false
      end
  | LLt => match sql_compare field value with Some Lt => true | _ => false end
  | LLte =>
      match sql_compare field value with
      | Some Lt | Some Eq => true
      | _ => false
      end
  | LIn =>
      match field, value with
      | VInt a, VIds l => existsb (Z.eqb a) l
      | _, _ => false
      end
  | LIContains =>
      match field, value with
      | VStr hay, VStr needle => icontains needle hay
      | _, _ => false
      end
  end.

(** A model exposes its columns by name. *)
Class Model (A : Type) := column : A -> string -> option pyval.

Definition matches_lookup {A} `{Model A} (name : string) (value : pyval) (r : A)
  : bool :=
  let '(field, lt) := parse_lookup name in
  match column r field with
  | Some fv => lookup_holds lt fv value
  | None => false
  end.

Definition matches_all {A} `{Model A} (params : list (string * pyval)) (r : A)
  : bool :=
  forallb (fun kv => matches_lookup (fst kv) (snd kv) r) params.

(** ** Query sets *)

Record QuerySet (A : Type) : Type := mkQuerySet {
  rows : list A;                       (* the rows the query denotes *)
  select : list (string * string);     (* extra(select={name: sql}) *)
  ordering : list string               (* order_by(...) *)
}.
Arguments mkQuerySet {A} _ _ _.
Arguments rows {A} _.
Arguments select {A} _.
Arguments ordering {A} _.

Definition objects {A} (table : list A) : QuerySet A :=
  mkQuerySet table [] [].

Definition qs_where {A} (p : A -> bool) (qs : QuerySet A) : QuerySet A :=
  mkQuerySet (List.filter p (rows qs)) (select qs) (ordering qs).

(** [queryset.filter] with keyword lookups [params] *)
Definition qs_filter {A} `{Model A} (params : list (string * pyval))
  (qs : QuerySet A) : QuerySet A :=
  qs_where (matches_all params) qs.

(** [queryset.exclude] with keyword lookups [params] *)
Definition qs_exclude {A} `{Model A} (params : list (string * pyval))
  (qs : QuerySet A) : QuerySet A :=
  qs_where (fun r => negb (matches_all params r)) qs.

(** [queryset.none()] *)
Definition qs_none {A} (qs : QuerySet A) : QuerySet A :=
  mkQuerySet [] (select qs) (ordering qs).

(** [queryset.extra(select={name: sql})] *)
Definition qs_extra_select {A} (name sql : string) (qs : QuerySet A)
  : QuerySet A :=
  mkQuerySet (rows qs) (select qs ++ [(name, sql)]) (ordering qs).

(** [queryset.order_by(clause)] *)
Definition qs_order_by {A} (clause : string) (qs : QuerySet A) : QuerySet A :=
  mkQuerySet (rows qs) (select qs) [clause].

(** ** The data model

    The models of [sentry.models] and [sentry.tagstore.models] that the
    search reads, with the columns it reads. *)

Record Project : Type := {
  project_id : Z;
  organization_id : Z
}.

Record Group : Type := {
  g_id : Z;
  g_project : Z;
  g_status : Z;
  g_message : string;
  g_culprit : string;
  g_first_seen : Z;
  g_last_seen : Z;
  g_active_at : option Z;
  g_times_seen : Z;
  g_score : Z;
  g_first_release : option Z          (* foreign key to Release *)
}.

Record Event : Type := {
  e_group_id : Z;
  e_project_id : Z;
  e_datetime : Z;
  e_message : string
}.

Record Release : Type := {
  r_id : Z;
  r_organization : Z;
  r_version : string
}.

(** Rows of GroupBookmark and GroupAssignee: (group, project, user). *)
Record Membership : Type := {
  m_group : Z;
  m_project : Z;
  m_user : Z
}.

Record GroupSubscription : Type := {
  s_group : Z;
  s_project : Z;
  s_user : Z;
  s_is_active : bool
}.

Record Environment : Type := {
  env_id : Z;
  env_name : string;
  env_projects : list Z
}.

Record GroupEnvironment : Type := {
  ge_group_id : Z;
  ge_environment_id : Z;
  ge_first_release_id : option Z
}.

Record GroupTagValue : Type := {
  gtv_project_id : Z;
  gtv_group_id : Z;
  gtv_key : string;
  gtv_value : string;
  gtv_times_seen : Z;
  gtv_first_seen : option Z;
  gtv_last_seen : option Z
}.

Record GroupTagKey : Type := {
  gtk_project_id : Z;
  gtk_group_id : Z;
  gtk_key : string
}.

Record Database : Type := {
  groups : list Group;
  events : list Event;
  releases : list Release;
  bookmarks : list Membership;
  assignees : list Membership;
  subscriptions : list GroupSubscription;
  environments : list Environment;
  group_environments : list GroupEnvironment;
  group_tag_values : list GroupTagValue;
  group_tag_keys : list GroupTagKey
}.

(** The GroupStatus constants of [sentry.models]. *)
Module GroupStatus.
(** Modelled from the spec: the GroupStatus enumeration is declared in
    [sentry.models], outside the source at hand; the spec (section 3)
    lists its six members, numbered here in that order. *)
Definition UNRESOLVED : Z := 0.
Definition RESOLVED : Z := 1.
Definition IGNORED : Z := 2.
Definition PENDING_DELETION : Z := 3.
Definition DELETION_IN_PROGRESS : Z := 4.
Definition PENDING_MERGE : Z := 5.
End GroupStatus.

Definition nullable_date (t : option Z) : pyval :=
  match t with Some t => VDate t | None => VNone end.

#[export] Instance Group_Model : Model Group := fun g name =>
  if String.eqb name "id" then Some (VInt (g_id g))
  else if String.eqb name "status" then Some (VInt (g_status g))
  else if String.eqb name "message" then Some (VStr (g_message g))
  else if String.eqb name "culprit" then Some (VStr (g_culprit g))
  else if String.eqb name "first_seen" then Some (VDate (g_first_seen g))
  else if String.eqb name "last_seen" then Some (VDate (g_last_seen g))
  else if String.eqb name "active_at" then Some (nullable_date (g_active_at g))
  else if String.eqb name "times_seen" then Some (VInt (g_times_seen g))
  else if String.eqb name "score" then Some (VInt (g_score g))
  else None.

#[export] Instance Event_Model : Model Event := fun e name =>
  if String.eqb name "group_id" then Some (VInt (e_group_id e))
  else if String.eqb name "project_id" then Some (VInt (e_project_id e))
  else if String.eqb name "datetime" then Some (VDate (e_datetime e))
  else if String.eqb name "message" then Some (VStr (e_message e))
  else None.

#[export] Instance Release_Model : Model Release := fun r name =>
  if String.eqb name "id" then Some (VInt (r_id r))
  else if String.eqb name "organization" then Some (VInt (r_organization r))
  else if String.eqb name "version" then Some (VStr (r_version r))
  else None.

#[export] Instance Environment_Model : Model Environment := fun e name =>
  if String.eqb name "id" then Some (VInt (env_id e))
  else if String.eqb name "name" then Some (VStr (env_name e))
  else if String.eqb name "projects" then Some (VIds (env_projects e))
  else None.

#[export] Instance GroupTagValue_Model : Model GroupTagValue := fun r name =>
  if String.eqb name "project_id" then Some (VInt (gtv_project_id r))
  else if String.eqb name "group_id" then Some (VInt (gtv_group_id r))
  else if String.eqb name "key" then Some (VStr (gtv_key r))
  else if String.eqb name "value" then Some (VStr (gtv_value r))
  else if String.eqb name "times_seen" then Some (VInt (gtv_times_seen r))
  else if String.eqb name "first_seen" then Some (nullable_date (gtv_first_seen r))
  else if String.eqb name "last_seen" then Some (nullable_date (gtv_last_seen r))
  else None.

#[export] Instance GroupTagKey_Model : Model GroupTagKey := fun r name =>
  if String.eqb name "project_id" then Some (VInt (gtk_project_id r))
  else if String.eqb name "group_id" then Some (VInt (gtk_group_id r))
  else if String.eqb name "key" then Some (VStr (gtk_key r))
  else None.

(** A user given as a filter value: a User instance or its primary key. *)
Definition user_pk (v : pyval) : option Z :=
  match v with
  | VUser u => Some u
  | VInt u => Some u
  | _ => None
  end.

(** The membership joins [bookmark_set__project=p, bookmark_set__user=u]
    and [assignee_set__project=p, assignee_set__user=u]. *)
Definition has_membership (table : list Membership) (p : Project) (user : pyval)
  (g : Group) : bool :=
  match user_pk user with
  | Some u =>
      existsb (fun m => (m_group m =? g_id g) && (m_project m =? project_id p)
                        && (m_user m =? u)) table
  | None => false
  end.

(** [assignee_set__isnull=flag] *)
Definition assignee_isnull (table : list Membership) (flag : pyval) (g : Group)
  : bool :=
  let assigned := existsb (fun m => m_group m =? g_id g) table in
  if truthy flag then negb assigned else assigned.

(** [GroupSubscription.objects.filter(project=p, user=u, is_active=True)
    .values_list('group')] *)
Definition subscribed_groups (table : list GroupSubscription) (p : Project)
  (user : pyval) : list Z :=
  match user_pk user with
  | Some u =>
      map s_group
        (List.filter (fun s => (s_project s =? project_id p) && (s_user s =? u)
                               && s_is_active s) table)
  | None => []
  end.

(** [first_release__organization_id=org, first_release__version=version] *)
Definition first_release_is (table : list Release) (org : Z) (version : pyval)
  (g : Group) : bool :=
  match g_first_release g with
  | Some rid =>
      existsb (fun r => (r_id r =? rid)
                        && matches_all [("organization", VInt org);
                                        ("version", version)] r) table
  | None => false
  end.

(** ** Effects *)

Inductive exn : Type :=
| AssertionError
| KeyError (key : string)
| TypeError
| DoesNotExist
| MultipleObjectsReturned.

Inductive outcome (A : Type) : Type :=
| Ok (a : A)
| Raise (e : exn).
Arguments Ok {A} _.
Arguments Raise {A} _.

(** Calls that leave the process while the filters are being built. *)
Inductive call : Type :=
| TagstoreSearch (project : Z) (environment_id : option Z)
    (tags : gmap string pyval)
    (* tagstore.get_group_ids_for_search_filter(...) *)
| EventGroupIds (ids : list Z).
    (* list(group_ids): the event sub-query fetched eagerly *)

Record state : Type := mkState {
  caller_tags : option (gmap string pyval);   (* the object passed as [tags] *)
  calls : list call
}.

Definition M (A : Type) : Type := state -> outcome A * state.

Definition ret {A} (a : A) : M A := fun st => (Ok a, st).

Definition raise {A} (e : exn) : M A := fun st => (Raise e, st).

Definition bind {A B} (m : M A) (k : A -> M B) : M B := fun st =>
  match m st with
  | (Ok a, st') => k a st'
  | (Raise e, st') => (Raise e, st')
  end.

Definition lift {A} (r : outcome A) : M A := fun st => (r, st).

Definition get_tags : M (option (gmap string pyval)) :=
  fun st => (Ok (caller_tags st), st).

Definition put_tags (t : gmap string pyval) : M unit :=
  fun st => (Ok tt, mkState (Some t) (calls st)).

Definition record_call (c : call) : M unit :=
  fun st => (Ok tt, mkState (caller_tags st) (calls st ++ [c])).

Definition assert_ (b : bool) : M unit :=
  if b then ret tt else raise AssertionError.

Declare Scope py_scope.
Delimit Scope py_scope with py.
Notation "x <- m ;; k" := (bind m (fun x => k))
  (at level 100, m at next level, right associativity) : py_scope.
Notation "m ;;; k" := (bind m (fun _ => k))
  (at level 100, right associativity) : py_scope.
Local Open Scope py_scope.

Definition bind_outcome {A B} (r : outcome A) (k : A -> outcome B) : outcome B :=
  match r with
  | Ok a => k a
  | Raise e => Raise e
  end.

(** [d[key]] on a dictionary. *)
Definition getitem {V} (d : gmap string V) (key : string) : outcome V :=
  match d !! key with
  | Some v => Ok v
  | None => Raise (KeyError key)
  end.

(** A keyword argument with its default. *)
Definition arg (kw : gmap string pyval) (name : string) (default : pyval)
  : pyval :=
  match kw !! name with
  | Some v => v
  | None => default
  end.

(** Truth value of the [tags] argument: [None] and the empty mapping are
    false. *)
Definition tags_truthy (tags : option (gmap string pyval)) : bool :=
  match tags with
  | Some t => negb (bool_decide (t = ∅))
  | None => false
  end.

(** ** What the module imports

    Constants and collaborators that live outside the source at hand
    are parameters of the development. *)
Record Settings : Type := {
  engine : string;                        (* get_db_engine('default') *)
  db_for_read_Group : string;             (* router.db_for_read(Group) *)
  db_for_read_Event : string;             (* router.db_for_read(Event) *)
  SORT_CLAUSES : gmap string string;
  SQLITE_SORT_CLAUSES : gmap string string;
  MYSQL_SORT_CLAUSES : gmap string string;
  ORACLE_SORT_CLAUSES : gmap string string;
  MSSQL_SORT_CLAUSES : gmap string string;
  MSSQL_ENGINES : list string;
  (* tagstore.get_group_ids_for_search_filter *)
  get_group_ids_for_search_filter :
    Z -> option Z -> gmap string pyval -> list Z;
  (* sentry.utils.dates.to_timestamp: seconds since the epoch *)
  to_timestamp : Z -> R
}.

(** The arguments of a search call besides [project] and [tags]; the
    caller's [tags] object lives in the state. *)
Record SearchArgs : Type := {
  sort_by : option string;
  environment_id : option Z;
  cursor : option nat;
  limit : option nat;
  count_hits : bool;
  paginator_options : option (gmap string pyval);
  kwargs : gmap string pyval              (* every other keyword argument *)
}.

Inductive paginator_cls : Type := Paginator | DateTimePaginator.

(** What a search returns.  The storage-backed paginators are external:
    [Paginated] records the call
    [cls(queryset, sort_clause, opts).get_result(limit, cursor, count_hits)]. *)
Inductive SearchResult : Type :=
| Paginated (cls : paginator_cls) (queryset : QuerySet Group)
    (sort_clause : string) (options : gmap string pyval)
    (limit : option nat) (cursor : option nat) (count_hits : bool)
| BareQuerySet (queryset : QuerySet Group)
| SequencePage (results : list Group).

(** The issues a search result ranges over. *)
Definition result_set (r : SearchResult) : list Group :=
  match r with
  | Paginated _ queryset _ _ _ _ _ => rows queryset
  | BareQuerySet queryset => rows queryset
  | SequencePage results => results
  end.

(** The three statuses a default search leaves out. *)
Definition status_in : list Z :=
  [GroupStatus.PENDING_DELETION; GroupStatus.DELETION_IN_PROGRESS;
   GroupStatus.PENDING_MERGE].

(** The [params] dictionary of a range filter of [_build_queryset]: the
    lower bound under [field__gte] or [field__gt], the upper bound under
    [field__lte] or [field__lt], each only when [given]. *)
Definition range_params (field : string)
  (from_given : bool) (from_ from_inclusive : pyval)
  (to_given : bool) (to_ to_inclusive : pyval) : list (string * pyval) :=
  (if from_given
   then [(if truthy from_inclusive then field ++ "__gte" else field ++ "__gt",
          from_)]
   else [])
  ++
  (if to_given
   then [(if truthy to_inclusive then field ++ "__lte" else field ++ "__lt",
          to_)]
   else []).

(** The table of ranking clauses for the storage dialect in use. *)
Definition sort_clauses_for (cfg : Settings) : gmap string string :=
  if String.prefix "sqlite" (engine cfg) then SQLITE_SORT_CLAUSES cfg
  else if String.prefix "mysql" (engine cfg) then MYSQL_SORT_CLAUSES cfg
  else if String.prefix "oracle" (engine cfg) then ORACLE_SORT_CLAUSES cfg
  else if existsb (String.eqb (engine cfg)) (MSSQL_ENGINES cfg)
       then MSSQL_SORT_CLAUSES cfg
  else SORT_CLAUSES cfg.

(** The "HACK: don't sort by the same column twice" table of both
    [query] methods. *)
Definition paginator_for (sort_by : string) : paginator_cls * string :=
  if String.eqb sort_by "date" then (DateTimePaginator, "-last_seen")
  else if String.eqb sort_by "priority" then (Paginator, "-score")
  else if String.eqb sort_by "new" then (DateTimePaginator, "-first_seen")
  else if String.eqb sort_by "freq" then (Paginator, "-times_seen")
  else (Paginator, "-sort_value").

Module DjangoSearchBackend.
Section Backend.
Context (cfg : Settings) (db : Database).

(** The keyword parameters of [_build_queryset] that [SearchArgs]
    leaves in [kwargs]; any other keyword is a [TypeError]. *)
Definition parameters : list string :=
  ["query"; "status"; "bookmarked_by"; "assigned_to"; "first_release";
   "unassigned"; "subscribed_by";
   "age_from"; "age_from_inclusive"; "age_to"; "age_to_inclusive";
   "last_seen_from"; "last_seen_from_inclusive";
   "last_seen_to"; "last_seen_to_inclusive";
   "date_from"; "date_from_inclusive"; "date_to"; "date_to_inclusive";
   "active_at_from"; "active_at_from_inclusive";
   "active_at_to"; "active_at_to_inclusive";
   "times_seen"; "times_seen_lower"; "times_seen_lower_inclusive";
   "times_seen_upper"; "times_seen_upper_inclusive"].

(** Lines 129 to 239 of [_build_queryset]: the range filters, the
    event date range and the ranking clause. *)
Definition _build_queryset_ranges (project : Project) (sort_by : string)
  (kw : gmap string pyval) (queryset : QuerySet Group)
  : M (QuerySet Group) :=
  let query := arg kw "query" VNone in
  let age_from := arg kw "age_from" VNone in
  let age_from_inclusive := arg kw "age_from_inclusive" (VBool true) in
  let age_to := arg kw "age_to" VNone in
  let age_to_inclusive := arg kw "age_to_inclusive" (VBool true) in
  let last_seen_from := arg kw "last_seen_from" VNone in
  let last_seen_from_inclusive :=
    arg kw "last_seen_from_inclusive" (VBool true) in
  let last_seen_to := arg kw "last_seen_to" VNone in
  let last_seen_to_inclusive := arg kw "last_seen_to_inclusive" (VBool true) in
  let date_from := arg kw "date_from" VNone in
  let date_from_inclusive := arg kw "date_from_inclusive" (VBool true) in
  let date_to := arg kw "date_to" VNone in
  let date_to_inclusive := arg kw "date_to_inclusive" (VBool true) in
  let active_at_from := arg kw "active_at_from" VNone in
  let active_at_from_inclusive :=
    arg kw "active_at_from_inclusive" (VBool true) in
  let active_at_to := arg kw "active_at_to" VNone in
  let active_at_to_inclusive := arg kw "active_at_to_inclusive" (VBool true) in
  let times_seen := arg kw "times_seen" VNone in
  let times_seen_lower := arg kw "times_seen_lower" VNone in
  let times_seen_lower_inclusive :=
    arg kw "times_seen_lower_inclusive" (VBool true) in
  let times_seen_upper := arg kw "times_seen_upper" VNone in
  let times_seen_upper_inclusive :=
    arg kw "times_seen_upper_inclusive" (VBool true) in
  let queryset :=
    (if truthy age_from || truthy age_to then
       qs_filter (range_params "first_seen"
                    (truthy age_from) age_from age_from_inclusive
                    (truthy age_to) age_to age_to_inclusive)
     else id) queryset in
  let queryset :=
    (if truthy last_seen_from || truthy last_seen_to then
       qs_filter (range_params "last_seen"
                    (truthy last_seen_from) last_seen_from
                    last_seen_from_inclusive
                    (truthy last_seen_to) last_seen_to
                    last_seen_to_inclusive)
     else id) queryset in
  let queryset :=
    (if truthy active_at_from || truthy active_at_to then
       qs_filter (range_params "active_at"
                    (truthy active_at_from) active_at_from
                    active_at_from_inclusive
                    (truthy active_at_to) active_at_to
                    active_at_to_inclusive)
     else id) queryset in
  let queryset :=
    (if negb (is_None times_seen) then
       qs_filter [("times_seen", times_seen)]
     else id) queryset in
  let queryset :=
    (if negb (is_None times_seen_lower) || negb (is_None times_seen_upper)
     then
       qs_filter (range_params "times_seen"
                    (negb (is_None times_seen_lower)) times_seen_lower
                    times_seen_lower_inclusive
                    (negb (is_None times_seen_upper)) times_seen_upper
                    times_seen_upper_inclusive)
     else id) queryset in
  queryset <-
    (if truthy date_from || truthy date_to then
       let params :=
         ("project_id", VInt (project_id project))
         :: range_params "datetime"
              (truthy date_from) date_from date_from_inclusive
              (truthy date_to) date_to date_to_inclusive in
       let event_queryset := qs_filter params (objects (events db)) in
       let event_queryset :=
         if truthy query then
           qs_filter [("message__icontains", query)] event_queryset
         else event_queryset in
       (* limit to the first 1000 results *)
       let group_ids :=
         firstn 1000
           (nodup Z.eq_dec (map e_group_id (rows event_queryset))) in
       (if negb (String.eqb (db_for_read_Group cfg) (db_for_read_Event cfg))
           || String.prefix "mysql" (engine cfg)
        then record_call (EventGroupIds group_ids)
        else ret tt) ;;;
       ret (qs_filter [("id__in", VIds group_ids)] queryset)
     else ret queryset) ;;
  score_clause <- lift (getitem (sort_clauses_for cfg) sort_by) ;;
  ret (qs_extra_select "sort_value" score_clause queryset).

Definition _build_queryset (project : Project)
  (tags : option (gmap string pyval)) (sort_by : string)
  (environment_id : option Z) (kw : gmap string pyval)
  : M (QuerySet Group) :=
  let query := arg kw "query" VNone in
  let status := arg kw "status" VNone in
  let bookmarked_by := arg kw "bookmarked_by" VNone in
  let assigned_to := arg kw "assigned_to" VNone in
  let first_release := arg kw "first_release" VNone in
  let unassigned := arg kw "unassigned" VNone in
  let subscribed_by := arg kw "subscribed_by" VNone in
  let queryset :=
    qs_where (fun g => g_project g =? project_id project)
      (objects (groups db)) in
  let queryset :=
    (if truthy query then
       qs_where (fun g => matches_lookup "message__icontains" query g
                          || matches_lookup "culprit__icontains" query g)
     else id) queryset in
  let queryset :=
    (if is_None status then
       qs_exclude [("status__in", VIds status_in)]
     else
       qs_filter [("status", status)]) queryset in
  let queryset :=
    (if truthy bookmarked_by then
       qs_where (has_membership (bookmarks db) project bookmarked_by)
     else id) queryset in
  let queryset :=
    (if truthy assigned_to then
       qs_where (has_membership (assignees db) project assigned_to)
     else if in_True_False unassigned then
       qs_where (assignee_isnull (assignees db) unassigned)
     else id) queryset in
  let queryset :=
    (if negb (is_None subscribed_by) then
       qs_filter
         [("id__in", VIds (subscribed_groups (subscriptions db) project
                             subscribed_by))]
     else id) queryset in
  if truthy first_release && is_EMPTY first_release then
    ret (qs_none queryset)
  else
    let queryset :=
      (if truthy first_release then
         qs_where (first_release_is (releases db) (organization_id project)
                     first_release)
       else id) queryset in
    if tags_truthy tags then
      record_call (TagstoreSearch (project_id project) environment_id
                     (default ∅ tags)) ;;;
      let matches :=
        get_group_ids_for_search_filter cfg (project_id project)
          environment_id (default ∅ tags) in
      match matches with
      | [] => ret (qs_none queryset)
      | _ => _build_queryset_ranges project sort_by kw
               (qs_filter [("id__in", VIds matches)] queryset)
      end
    else _build_queryset_ranges project sort_by kw queryset.

(** Every keyword of the call is a parameter of [_build_queryset]. *)
Definition accepts (kw : gmap string pyval) : bool :=
  forallb (fun k => existsb (String.eqb k) parameters)
    (map fst (map_to_list kw)).

Definition query (project : Project) (a : SearchArgs) : M SearchResult :=
  if negb (accepts (kwargs a))
  then raise TypeError      (* unexpected keyword argument *)
  else
    let paginator_options := default ∅ (paginator_options a) in
    let sort_by := default "date" (sort_by a) in
    let limit := Some (default 100%nat (limit a)) in
    tags <- get_tags ;;
    queryset <- _build_queryset project tags sort_by (environment_id a)
                  (kwargs a) ;;
    let '(paginator_cls, sort_clause) := paginator_for sort_by in
    let queryset := qs_order_by sort_clause queryset in
    ret (Paginated paginator_cls queryset sort_clause paginator_options
           limit (cursor a) (count_hits a)).

End Backend.
End DjangoSearchBackend.

(** ** Ranking in memory: [sort_strategies] *)

(** A value the storage returns for a projected SQL expression. *)
Inductive sqlval : Type :=
| SqlNull
| SqlInt (n : Z)
| SqlTime (t : Z)
| SqlFloat (x : R).

(** SQL [log]: the base 10 logarithm.  A double precision value is read
    as the real number it stands for. *)
Definition log10 (x : R) : R := (ln x / ln 10)%R.

(** [t::abstime::int]: whole seconds since the epoch. *)
Definition abstime_int (t : Z) : Z := t / 1000000.

(** Python [int] on a float: truncation towards zero. *)
Definition trunc (x : R) : Z :=
  if Rle_dec 0 x then Int_part x else - Int_part (- x).

Definition int (v : sqlval) : outcome Z :=
  match v with
  | SqlInt n => Ok n
  | SqlFloat x => Ok (trunc x)
  | _ => Raise TypeError
  end.

(** [lambda score: int(to_timestamp(score) * 1000)] *)
Definition timestamp_ms (cfg : Settings) (v : sqlval) : outcome Z :=
  match v with
  | SqlTime t => Ok (trunc (to_timestamp cfg t * 1000))
  | _ => Raise TypeError
  end.

Definition priority_expression : string :=
  "log(times_seen) * 600 + last_seen::abstime::int".

Definition sort_strategies (cfg : Settings)
  : gmap string (string * (sqlval -> outcome Z)) :=
  list_to_map
    [("priority", (priority_expression, int));
     ("date", ("last_seen", timestamp_ms cfg));
     ("new", ("first_seen", timestamp_ms cfg));
     ("freq", ("times_seen", int))].

Definition sql_time (t : option Z) : sqlval :=
  match t with Some t => SqlTime t | None => SqlNull end.

(** The value of a sort expression of [sort_strategies] on a row of
    GroupTagValue.  The priority is meant for counts of at least 1,
    where the database has a logarithm. *)
Definition eval_sort_expression (expr : string) (r : GroupTagValue) : sqlval :=
  if String.eqb expr priority_expression then
    match gtv_last_seen r with
    | Some t =>
        SqlFloat (log10 (IZR (gtv_times_seen r)) * 600 + IZR (abstime_int t))
    | None => SqlNull
    end
  else if String.eqb expr "last_seen" then sql_time (gtv_last_seen r)
  else if String.eqb expr "first_seen" then sql_time (gtv_first_seen r)
  else if String.eqb expr "times_seen" then SqlInt (gtv_times_seen r)
  else SqlNull.

(** ** The query builder *)

(** A handler callback: [callback(queryset, value, *extra)]. *)
Definition callback (Q : Type) : Type := Q -> pyval -> list pyval -> outcome Q.

(** [lambda queryset, value: ...] and [lambda queryset, value, inclusive: ...];
    a call with the wrong number of arguments is a [TypeError]. *)
Definition lambda2 {Q} (f : Q -> pyval -> Q) : callback Q :=
  fun queryset value extra =>
    match extra with
    | [] => Ok (f queryset value)
    | _ => Raise TypeError
    end.

Definition lambda3 {Q} (f : Q -> pyval -> pyval -> Q) : callback Q :=
  fun queryset value extra =>
    match extra with
    | [inclusive] => Ok (f queryset value inclusive)
    | _ => Raise TypeError
    end.

Definition condition {Q} (callback_ : callback Q) (fields : option (list string))
  : callback Q * list string :=
  (callback_, default [] fields).

Definition scalar_condition {A} `{Model A} (parameter field operator : string)
  : callback (QuerySet A) * list string :=
  condition
    (lambda3 (fun queryset value inclusive =>
       qs_filter
         [(field ++ "__" ++ operator ++ (if truthy inclusive then "e" else ""),
           value)] queryset))
    (Some [parameter ++ "_inclusive"]).

Fixpoint getitems (parameters : gmap string pyval) (names : list string)
  : outcome (list pyval) :=
  match names with
  | [] => Ok []
  | name :: names' =>
      bind_outcome (getitem parameters name) (fun v =>
      bind_outcome (getitems parameters names') (fun vs =>
      Ok (v :: vs)))
  end.

Module QueryBuilder.

(** [handlers] is the dictionary the builder is created with, as the
    list of its items. *)
Fixpoint build {Q} (handlers : list (string * (callback Q * list string)))
  (queryset : Q) (parameters : gmap string pyval) : outcome Q :=
  match handlers with
  | [] => Ok queryset
  | (parameter, (handler, extra_parameters)) :: handlers' =>
      match parameters !! parameter with
      | None => build handlers' queryset parameters   (* value is undefined *)
      | Some value =>
          bind_outcome (getitems parameters extra_parameters) (fun extra =>
          bind_outcome (handler queryset value extra) (fun queryset =>
          build handlers' queryset parameters))
      end
  end.

End QueryBuilder.

(** ** Quoted column names: [Column] *)

(** What [model._meta] gives: the table of the model and, by field
    name, the column of the field. *)
Record Meta : Type := {
  db_table : string;
  meta_fields : list (string * string)
}.

(** [namedtuple('Column', 'model field')] *)
Record Column : Type := {
  column_model : Meta;
  column_field : string
}.

Definition double_quote : ascii := ascii_of_nat 34.

(** [model._meta.get_field_by_name(name)[0].column]; [None] stands for
    the exception raised on a name that is no field of the model. *)
Definition get_field_by_name (meta : Meta) (name : string) : option string :=
  option_map snd (List.find (fun f => String.eqb (fst f) name) (meta_fields meta)).

(** [Column.__str__]: the table and the column, each in double quotes,
    joined by a dot. *)
Definition Column_str (c : Column) : option string :=
  match get_field_by_name (column_model c) (column_field c) with
  | Some column =>
      Some (String double_quote
              (db_table (column_model c)
               ++ String double_quote
                    ("." ++ String double_quote
                              (column ++ String double_quote ""))))
  | None => None
  end.

(** ** Ranked-sequence pagination *)

Module SequencePaginator.

(** Modelled from the spec: the order of the ranked sequence (section
    4.4), descending by score, ties broken by id.  [precedes a b]: the
    pair [a] sorts at or before the pair [b]. *)
Definition precedes (a b : Z * Z) : bool :=
  (fst b <? fst a) || ((fst b =? fst a) && (snd b <=? snd a)).

(** Modelled from the spec: insertion into a ranked sequence. *)
Fixpoint insert (x : Z * Z) (l : list (Z * Z)) : list (Z * Z) :=
  match l with
  | [] => [x]
  | y :: l' => if precedes x y then x :: l else y :: insert x l'
  end.

(** Modelled from the spec: the class [SequencePaginator] lives in
    [sentry.api.paginator], outside the source at hand.  The spec
    (section 4.4, ranked-sequence pagination) has it take an unordered
    sequence of (score, id) pairs, sort it descending by score with
    ties broken by id, and apply the offset and limit of the cursor
    contract in memory. *)
Definition ranked (data : list (Z * Z)) : list (Z * Z) :=
  fold_right insert [] data.

(** Modelled from the spec: the most entries a page holds, whatever
    page size is asked for: [max_limit] of the class, 100 when the
    caller passes none, as [query] does. *)
Definition max_limit : nat := 100.

(** Modelled from the spec: [get_result(limit, cursor)] is given a page
    size and returns the ids of at most that many entries of the ranked
    sequence, and never more than [max_limit], starting at the offset
    the cursor encodes (section 4.4).  The page size is a number: with
    [limit=None], the default of [query], the arithmetic on the page
    bounds raises [TypeError]. *)
Definition get_result (data : list (Z * Z)) (limit cursor : option nat)
  : outcome (list Z) :=
  match limit with
  | None => Raise TypeError
  | Some n =>
      let after := skipn (default 0%nat cursor) (ranked data) in
      Ok (map snd (firstn (Nat.min n max_limit) after))
  end.

End SequencePaginator.

(** [dict(pairs)]: a later pair overrides an earlier one with its key. *)
Definition dict {V} (pairs : list (Z * V)) : gmap Z V :=
  fold_left (fun d kv => <[fst kv := snd kv]> d) pairs ∅.

Fixpoint map_outcome {A B} (f : A -> outcome B) (l : list A) : outcome (list B) :=
  match l with
  | [] => Ok []
  | x :: l' =>
      bind_outcome (f x) (fun y =>
      bind_outcome (map_outcome f l') (fun ys => Ok (y :: ys)))
  end.

Module EnvironmentDjangoSearchBackend.
Section Backend.
Context (cfg : Settings) (db : Database).

(** The handlers of the first builder of [query]. *)
Definition base_conditions (project : Project)
  : list (string * (callback (QuerySet Group) * list string)) :=
  [("query", condition (lambda2 (fun queryset query =>
      if truthy query then
        qs_where (fun g => matches_lookup "message__icontains" query g
                           || matches_lookup "culprit__icontains" query g)
          queryset
      else queryset)) None);
   ("status", condition (lambda2 (fun queryset status =>
      qs_filter [("status", status)] queryset)) None);
   ("bookmarked_by", condition (lambda2 (fun queryset user =>
      qs_where (has_membership (bookmarks db) project user) queryset)) None);
   ("assigned_to", condition (lambda2 (fun queryset user =>
      qs_where (has_membership (assignees db) project user) queryset)) None);
   ("unassigned", condition (lambda2 (fun queryset unassigned =>
      qs_where (assignee_isnull (assignees db) unassigned) queryset)) None);
   ("subscribed_by", condition (lambda2 (fun queryset user =>
      qs_filter
        [("id__in", VIds (subscribed_groups (subscriptions db) project user))]
        queryset)) None);
   ("active_at_from", scalar_condition "active_at_from" "active_at" "gt");
   ("active_at_to", scalar_condition "active_at_to" "active_at" "lt")].

(** The scalar handlers, shared by both branches of [query]. *)
Definition scalar_conditions {A} `{Model A}
  : list (string * (callback (QuerySet A) * list string)) :=
  [("age_from", scalar_condition "age_from" "first_seen" "gt");
   ("age_to", scalar_condition "age_to" "first_seen" "lt");
   ("last_seen_from", scalar_condition "last_seen_from" "last_seen" "gt");
   ("last_seen_to", scalar_condition "last_seen_to" "last_seen" "lt");
   ("times_seen", condition (lambda2 (fun queryset times_seen =>
      qs_filter [("times_seen", times_seen)] queryset)) None);
   ("times_seen_lower",
    scalar_condition "times_seen_lower" "times_seen" "gt");
   ("times_seen_upper",
    scalar_condition "times_seen_upper" "times_seen" "lt")].

(** The handlers of the builder of the branch without environment. *)
Definition plain_conditions (project : Project)
  : list (string * (callback (QuerySet Group) * list string)) :=
  ("first_release", condition (lambda2 (fun queryset version =>
      qs_where (first_release_is (releases db) (organization_id project)
                  version) queryset)) None)
  :: scalar_conditions.

(** The join of Group with GroupEnvironment on which the environment
    branch filters by release.  The Release table the handler joins
    in is read as a condition on the row: the result is only used
    through [set] of its ids. *)
Definition environment_conditions (project : Project)
  : list (string * (callback (QuerySet (Group * GroupEnvironment))
                    * list string)) :=
  [("first_release", condition (lambda2 (fun queryset version =>
      qs_where (fun row =>
        match ge_first_release_id (snd row) with
        | Some rid =>
            existsb (fun r =>
              (r_id r =? rid)
              && matches_all [("organization",
                               VInt (organization_id project));
                              ("version", version)] r) (releases db)
        | None => false
        end) queryset)) None)].

(** [queryset.extra(where=[Group.id = GroupEnvironment.group_id,
    GroupEnvironment.environment_id = %s], tables=[GroupEnvironment])] *)
Definition join_environment (environment_id : Z) (queryset : QuerySet Group)
  : QuerySet (Group * GroupEnvironment) :=
  mkQuerySet
    (flat_map (fun g =>
       map (pair g)
         (List.filter (fun ge => (g_id g =? ge_group_id ge)
                                 && (ge_environment_id ge =? environment_id))
            (group_environments db)))
       (rows queryset))
    (select queryset) (ordering queryset).

(** [Environment.objects.get(projects=project, name=name)] *)
Definition get_environment (project : Project) (name : pyval)
  : outcome Environment :=
  match List.filter (fun e => existsb (Z.eqb (project_id project))
                                (env_projects e)
                              && matches_all [("name", name)] e)
          (environments db) with
  | [e] => Ok e
  | [] => Raise DoesNotExist
  | _ => Raise MultipleObjectsReturned
  end.

(** One turn of the loop over [tags.items()]: the candidates that the
    tag query does not return are deleted. *)
Definition intersect_tag {V} (candidates : gmap Z V) (item : string * pyval)
  : gmap Z V :=
  let '(key, value) := item in
  let keys := VIds (map fst (map_to_list candidates)) in
  let group_ids :=
    if is_ANY value then
      map gtk_group_id
        (rows (qs_filter [("key", VStr key); ("group_id__in", keys)]
                 (objects (group_tag_keys db))))
    else
      map gtv_group_id
        (rows (qs_filter [("key", VStr key); ("value", value);
                          ("group_id__in", keys)]
                 (objects (group_tag_values db)))) in
  fold_left (fun c id => delete id c)
    (elements (dom candidates ∖ list_to_set group_ids)) candidates.

(** [filter(None, map(Group.objects.in_bulk(ids).get, ids))] *)
Definition hydrate (ids : list Z) : list Group :=
  omap (fun id => List.find (fun g => g_id g =? id) (groups db)) ids.

(** Lines 541 to 580 of [query]: the ranking clause of the dialect and
    the call of the storage-backed paginator. *)
Definition query_paginate (sort_by : string) (a : SearchArgs)
  (queryset : QuerySet Group) : M SearchResult :=
  score_clause <- lift (getitem (sort_clauses_for cfg) sort_by) ;;
  let queryset := qs_extra_select "sort_value" score_clause queryset in
  let '(paginator_cls, sort_clause) := paginator_for sort_by in
  let queryset := qs_order_by sort_clause queryset in
  ret (Paginated paginator_cls queryset sort_clause
         (default ∅ (paginator_options a)) (limit a) (cursor a)
         (count_hits a)).

(** Lines 533 to 580 of [query]: the [tags] filter of the branch
    without environment, then the ranking and the paginator. *)
Definition query_tags (project : Project) (sort_by : string) (a : SearchArgs)
  (queryset : QuerySet Group) : M SearchResult :=
  tags <- get_tags ;;
  if tags_truthy tags then
    record_call (TagstoreSearch (project_id project) None
                   (default ∅ tags)) ;;;
    let matches :=
      get_group_ids_for_search_filter cfg (project_id project) None
        (default ∅ tags) in
    match matches with
    | [] => ret (BareQuerySet (qs_none queryset))
    | _ => query_paginate sort_by a
             (qs_filter [("id__in", VIds matches)] queryset)
    end
  else query_paginate sort_by a queryset.

Definition query (project : Project) (a : SearchArgs) : M SearchResult :=
  let kwargs := kwargs a in
  let sort_by := default "date" (sort_by a) in
  assert_ (negb (bool_decide ("date_from" ∈ dom kwargs))
           && negb (bool_decide ("date_from" ∈ dom kwargs))) ;;;
  strategy <- lift (getitem (sort_strategies cfg) sort_by) ;;
  let '(sort_expression, value_to_cursor_score) := strategy in
  queryset <- lift (QueryBuilder.build (base_conditions project)
      (qs_exclude [("status__in", VIds status_in)]
         (qs_where (fun g => g_project g =? project_id project)
            (objects (groups db))))
      kwargs) ;;
  match environment_id a with
  | Some environment_id =>
      tags_ <- get_tags ;;
      tags <- match tags_ with
              | Some tags => ret tags
              | None => raise TypeError      (* 'environment' in None *)
              end ;;
      assert_ (bool_decide ("environment" ∈ dom tags)) ;;;
      name <- lift (getitem tags "environment") ;;
      environment <- lift (get_environment project name) ;;
      assert_ (env_id environment =? environment_id) ;;;
      queryset <- lift (QueryBuilder.build (environment_conditions project)
          (join_environment environment_id queryset) kwargs) ;;
      let queryset := map (fun row => g_id (fst row)) (rows queryset) in
      (* value=tags.pop('environment') *)
      value <- lift (getitem tags "environment") ;;
      let tags := delete "environment" tags in
      put_tags tags ;;;
      queryset <- lift (QueryBuilder.build scalar_conditions
          (qs_filter [("project_id", VInt (project_id project));
                      ("key", VStr "environment");
                      ("value", value);
                      ("group_id__in", VIds (nodup Z.eq_dec queryset))]
             (objects (group_tag_values db)))
          kwargs) ;;
      let queryset := qs_extra_select "sort_key" sort_expression queryset in
      let candidates :=
        dict (map (fun r => (gtv_group_id r,
                             eval_sort_expression sort_expression r))
                (rows queryset)) in
      let candidates :=
        fold_left intersect_tag (map_to_list tags) candidates in
      data <- lift (map_outcome (fun item =>
                bind_outcome (value_to_cursor_score (snd item)) (fun score =>
                Ok (score, fst item))) (map_to_list candidates)) ;;
      results <- lift (SequencePaginator.get_result data (limit a)
                         (cursor a)) ;;
      ret (SequencePage (hydrate results))
  | None =>
      queryset <- lift (QueryBuilder.build (plain_conditions project)
                          queryset kwargs) ;;
      query_tags project sort_by a queryset
  end.

End Backend.
End EnvironmentDjangoSearchBackend.

(** * Definitions for the properties *)

(** The effect of one handler does not depend on the query set it is
    applied to: it raises, or keeps the rows that satisfy a
    predicate. *)
Definition selective {A : Type} (parameters : gmap string pyval)
  (item : string * (callback (QuerySet A) * list string)) : Prop :=
  (exists e, forall qs, QueryBuilder.build [item] qs parameters = Raise e)
  \/ (exists p, forall qs,
        QueryBuilder.build [item] qs parameters = Ok (qs_where p qs)).

(** A row passes a handler when the handler, run on the query set
    that holds just this row, keeps it. *)
Definition passes {A : Type} (parameters : gmap string pyval)
  (item : string * (callback (QuerySet A) * list string)) (r : A) : Prop :=
  exists q, QueryBuilder.build [item] (objects [r]) parameters = Ok q
            /\ In r (rows q).

(** The order of the ranked sequence: [a] stands at or before [b]. *)
Definition before (a b : Z * Z) : Prop := SequencePaginator.precedes a b = true.

(** A step of the pipeline that only drops rows. *)
Definition narrowing {A} (f : QuerySet A -> QuerySet A) : Prop :=
  forall qs r, In r (rows (f qs)) -> In r (rows qs).

(** Two outcomes agree: the same query set, or an exception on both
    sides. *)
Definition same_outcome {A} (r r' : outcome A) : Prop :=
  match r, r' with
  | Ok a, Ok b => a = b
  | Raise _, Raise _ => True
  | _, _ => False
  end.

(** ** A small database to run the searches on *)

Module Example.

Definition settings : Settings := {|
  engine := "postgresql_psycopg2";
  db_for_read_Group := "default";
  db_for_read_Event := "default";
  SORT_CLAUSES :=
    list_to_map
      [("priority", "sentry_groupedmessage.score");
       ("date", "EXTRACT(EPOCH FROM sentry_groupedmessage.last_seen)::int");
       ("new", "EXTRACT(EPOCH FROM sentry_groupedmessage.first_seen)::int");
       ("freq", "sentry_groupedmessage.times_seen")];
  SQLITE_SORT_CLAUSES := ∅;
  MYSQL_SORT_CLAUSES := ∅;
  ORACLE_SORT_CLAUSES := ∅;
  MSSQL_SORT_CLAUSES := ∅;
  MSSQL_ENGINES := [];
  get_group_ids_for_search_filter := fun _ _ tags =>
    if bool_decide (is_Some (tags !! "browser")) then [3] else [];
  to_timestamp := fun t => (IZR t / 1000000)%R
|}.

Definition project : Project :=
  {| project_id := 1; organization_id := 1 |}.

Definition group (id status first_seen : Z) : Group := {|
  g_id := id; g_project := 1; g_status := status;
  g_message := "Hello world"; g_culprit := "views.index";
  g_first_seen := first_seen; g_last_seen := 500;
  g_active_at := None; g_times_seen := 5; g_score := 0;
  g_first_release := None
|}.

Definition tag_value (group : Z) (key value : string) (times_seen : Z)
  : GroupTagValue := {|
  gtv_project_id := 1; gtv_group_id := group; gtv_key := key;
  gtv_value := value; gtv_times_seen := times_seen;
  gtv_first_seen := Some 100; gtv_last_seen := Some 500
|}.

(** Issue 1 is unresolved and assigned to user 7, issue 2 is pending
    deletion, issue 3 is resolved; issues 1 and 3 are seen in the
    environment "prod" (id 9). *)
Definition db : Database := {|
  groups := [group 1 GroupStatus.UNRESOLVED 100;
             group 2 GroupStatus.PENDING_DELETION 100;
             group 3 GroupStatus.RESOLVED 101];
  events := [];
  releases := [];
  bookmarks := [];
  assignees := [ {| m_group := 1; m_project := 1; m_user := 7 |} ];
  subscriptions := [];
  environments :=
    [ {| env_id := 9; env_name := "prod"; env_projects := [1] |} ];
  group_environments :=
    [ {| ge_group_id := 1; ge_environment_id := 9;
         ge_first_release_id := None |};
      {| ge_group_id := 3; ge_environment_id := 9;
         ge_first_release_id := None |} ];
  group_tag_values :=
    [tag_value 1 "environment" "prod" 4;
     tag_value 3 "environment" "prod" 8;
     tag_value 3 "browser" "firefox" 8];
  group_tag_keys :=
    [ {| gtk_project_id := 1; gtk_group_id := 3; gtk_key := "browser" |} ]
|}.

Definition args (kwargs : gmap string pyval) : SearchArgs := {|
  sort_by := None; environment_id := None; cursor := None; limit := None;
  count_hits := false; paginator_options := None; kwargs := kwargs
|}.

Definition env_args (kwargs : gmap string pyval) : SearchArgs := {|
  sort_by := Some "freq"; environment_id := Some 9; cursor := None;
  limit := Some 100%nat; count_hits := false; paginator_options := None;
  kwargs := kwargs
|}.

Definition no_tags : state := mkState None [].

Definition with_tags (tags : gmap string pyval) : state :=
  mkState (Some tags) [].

(** What a run shows: the ids of the result set or the exception. *)
Definition ids (run : outcome SearchResult * state) : outcome (list Z) :=
  match fst run with
  | Ok r => Ok (map g_id (result_set r))
  | Raise e => Raise e
  end.

End Example.

(** Spec side: issue [id] matches the tag filter [(key, value)].  A
    wildcard only asks that the key exists for the issue. *)
Definition has_tag (db : Database) (key : string) (value : pyval) (id : Z)
  : Prop :=
  if is_ANY value then
    exists r, In r (group_tag_keys db) /\ gtk_key r = key /\ gtk_group_id r = id
  else
    exists r, In r (group_tag_values db) /\ gtv_key r = key
              /\ lookup_holds LExact (VStr (gtv_value r)) value = true
              /\ gtv_group_id r = id.

(** ** Tags to intersect *)

Module TagExample.

Definition tag_value (group : Z) (key value : string) : GroupTagValue := {|
  gtv_project_id := 1; gtv_group_id := group; gtv_key := key;
  gtv_value := value; gtv_times_seen := 1;
  gtv_first_seen := None; gtv_last_seen := None
|}.

Definition tag_key (group : Z) (key : string) : GroupTagKey :=
  {| gtk_project_id := 1; gtk_group_id := group; gtk_key := key |}.

(** "browser=firefox" is on issues 1 and 2, "os=linux" on issues 2 and
    3; the key "device" exists for issues 1 and 3. *)
Definition db : Database := {|
  groups := []; events := []; releases := []; bookmarks := [];
  assignees := []; subscriptions := []; environments := [];
  group_environments := [];
  group_tag_values :=
    [tag_value 1 "browser" "firefox"; tag_value 2 "browser" "firefox";
     tag_value 2 "os" "linux"; tag_value 3 "os" "linux";
     tag_value 1 "device" "phone"; tag_value 3 "device" "laptop"];
  group_tag_keys :=
    [tag_key 1 "browser"; tag_key 2 "browser"; tag_key 2 "os";
     tag_key 3 "os"; tag_key 1 "device"; tag_key 3 "device"]
|}.

Definition candidates : gmap Z Z := {[ 1 := 10; 2 := 20; 3 := 30 ]}.

End TagExample.

(** The base query set of [EnvironmentDjangoSearchBackend.query]. *)
Definition environment_base (db : Database) (project : Project)
  : QuerySet Group :=
  qs_exclude [("status__in", VIds status_in)]
    (qs_where (fun g => g_project g =? project_id project)
       (objects (groups db))).

(** What the plain backend returns for a search without filters on the
    example database. *)
Definition default_status_exclusion_result : SearchResult :=
  Eval vm_compute in
    match fst (DjangoSearchBackend.query Example.settings Example.db
                 Example.project (Example.args ∅) Example.no_tags) with
    | Ok r => r
    | Raise _ => SequencePage []
    end.

(** Apply [f] to the value a run returns. *)
Definition map_outcome_state {A B} (f : A -> B) (run : outcome A * state)
  : outcome B * state :=
  match run with
  | (Ok a, st) => (Ok (f a), st)
  | (Raise e, st) => (Raise e, st)
  end.

(** The lookup [age_from] is filed under. *)
Definition age_from_lookup (inclusive : pyval) : string :=
  if truthy inclusive then "first_seen" ++ "__gte" else "first_seen" ++ "__gt".

(** The same call with other keyword arguments. *)
Definition with_kwargs (a : SearchArgs) (kw : gmap string pyval) : SearchArgs :=
  {| sort_by := sort_by a; environment_id := environment_id a;
     cursor := cursor a; limit := limit a; count_hits := count_hits a;
     paginator_options := paginator_options a; kwargs := kw |}.

(** Two runs agree up to a filter on the result set: the same state,
    the same exception, or result sets of which the first is the second
    filtered. *)
Definition filtered_by (p : Group -> bool)
  (run run' : outcome SearchResult * state) : Prop :=
  snd run = snd run'
  /\ match fst run, fst run' with
     | Ok r, Ok r' => result_set r = List.filter p (result_set r')
     | Raise e, Raise e' => e = e'
     | _, _ => False
     end.

(** Spec side: [x] is within the bound; a lower bound compares with
    [>=] or [>], an upper bound with [<=] or [<]. *)
Definition compares (lower inclusive : bool) (bound x : Z) : bool :=
  match lower, inclusive with
  | true, true => bound <=? x       (* x >= bound *)
  | true, false => bound <? x       (* x > bound *)
  | false, true => x <=? bound      (* x <= bound *)
  | false, false => x <? bound      (* x < bound *)
  end.

(** The same on a nullable column. *)
Definition compares_column (lower inclusive : bool) (bound : Z)
  (x : option Z) : bool :=
  match x with
  | Some x => compares lower inclusive bound x
  | None => false                   (* NULL compares with nothing *)
  end.

(** A scalar filter as registered with [scalar_condition]: its
    parameter, field and operator, whether it is a lower bound, how its
    bound is given and how the column is read on a row. *)
Record scalar_filter (A : Type) : Type := {
  sf_parameter : string;
  sf_field : string;
  sf_operator : string;
  sf_lower : bool;
  sf_bound : Z -> pyval;
  sf_column : A -> option Z
}.
Arguments sf_parameter {A} _.
Arguments sf_field {A} _.
Arguments sf_operator {A} _.
Arguments sf_lower {A} _.
Arguments sf_bound {A} _ _.
Arguments sf_column {A} _ _.

(** A row of the tables below. *)
Definition mk_filter {A} parameter field operator lower bound
  (read : A -> option Z) : scalar_filter A :=
  {| sf_parameter := parameter; sf_field := field; sf_operator := operator;
     sf_lower := lower; sf_bound := bound; sf_column := read |}.

(** The scalar filters of the environment backend on Group rows. *)
Definition group_scalar_filters : list (scalar_filter Group) :=
  [mk_filter "age_from" "first_seen" "gt" true VDate
     (fun g => Some (g_first_seen g));
   mk_filter "age_to" "first_seen" "lt" false VDate
     (fun g => Some (g_first_seen g));
   mk_filter "last_seen_from" "last_seen" "gt" true VDate
     (fun g => Some (g_last_seen g));
   mk_filter "last_seen_to" "last_seen" "lt" false VDate
     (fun g => Some (g_last_seen g));
   mk_filter "times_seen_lower" "times_seen" "gt" true VInt
     (fun g => Some (g_times_seen g));
   mk_filter "times_seen_upper" "times_seen" "lt" false VInt
     (fun g => Some (g_times_seen g));
   mk_filter "active_at_from" "active_at" "gt" true VDate g_active_at;
   mk_filter "active_at_to" "active_at" "lt" false VDate g_active_at].

(** The scalar filters of the environment branch on GroupTagValue rows. *)
Definition tag_value_scalar_filters : list (scalar_filter GroupTagValue) :=
  [mk_filter "age_from" "first_seen" "gt" true VDate gtv_first_seen;
   mk_filter "age_to" "first_seen" "lt" false VDate gtv_first_seen;
   mk_filter "last_seen_from" "last_seen" "gt" true VDate gtv_last_seen;
   mk_filter "last_seen_to" "last_seen" "lt" false VDate gtv_last_seen;
   mk_filter "times_seen_lower" "times_seen" "gt" true VInt
     (fun r => Some (gtv_times_seen r));
   mk_filter "times_seen_upper" "times_seen" "lt" false VInt
     (fun r => Some (gtv_times_seen r))].

(** The filter is an entry of the registry. *)
Definition scalar_filter_registered {A} `{Model A}
  (registry : list (string * (callback (QuerySet A) * list string)))
  (f : scalar_filter A) : Prop :=
  In (sf_parameter f,
      scalar_condition (sf_parameter f) (sf_field f) (sf_operator f)) registry.

(** What a scalar filter keeps. *)
Definition scalar_filter_keeps {A} `{Model A} (f : scalar_filter A) : Prop :=
  forall (qs : QuerySet A) (kw : gmap string pyval) T inclusive,
    kw !! sf_parameter f = Some (sf_bound f T) ->
    kw !! (sf_parameter f ++ "_inclusive") = Some inclusive ->
    exists qs',
      QueryBuilder.build
        [(sf_parameter f,
          scalar_condition (sf_parameter f) (sf_field f) (sf_operator f))]
        qs kw = Ok qs'
      /\ rows qs'
         = List.filter
             (fun r => compares_column (sf_lower f) (truthy inclusive) T
                         (sf_column f r)) (rows qs).

(** The range blocks of the plain backend on Group rows: field, how
    the bounds are given, how the column is read. *)
Definition plain_ranges : list (string * (Z -> pyval) * (Group -> option Z)) :=
  [("first_seen", VDate, fun g => Some (g_first_seen g));
   ("last_seen", VDate, fun g => Some (g_last_seen g));
   ("active_at", VDate, g_active_at);
   ("times_seen", VInt, fun g => Some (g_times_seen g))].

(** What the [params] dictionary of a range block selects. *)
Definition range_params_select
  (range : string * (Z -> pyval) * (Group -> option Z)) : Prop :=
  let '(field, bound, read) := range in
  forall from_given F from_inclusive to_given T to_inclusive (g : Group),
    matches_all
      (range_params field from_given (bound F) from_inclusive
         to_given (bound T) to_inclusive) g
    = (if from_given
       then compares_column true (truthy from_inclusive) F (read g)
       else true)
      && (if to_given
          then compares_column false (truthy to_inclusive) T (read g)
          else true).

(** ** A database with a second project *)

Module Sample.

(** Issue 4 belongs to project 2; like the issues of project 1 it has
    an event and is seen in the environment "prod". *)
Definition foreign_group : Group := {|
  g_id := 4; g_project := 2; g_status := GroupStatus.UNRESOLVED;
  g_message := "Hello world"; g_culprit := "views.index";
  g_first_seen := 100; g_last_seen := 500;
  g_active_at := None; g_times_seen := 5; g_score := 0;
  g_first_release := None
|}.

Definition event (group project datetime : Z) : Event := {|
  e_group_id := group; e_project_id := project; e_datetime := datetime;
  e_message := "Hello world"
|}.

Definition db : Database := {|
  groups := groups Example.db ++ [foreign_group];
  events := [event 1 1 50; event 3 1 150; event 3 1 160; event 4 2 50];
  releases := releases Example.db;
  bookmarks := [ {| m_group := 3; m_project := 1; m_user := 7 |} ];
  assignees := assignees Example.db;
  subscriptions :=
    [ {| s_group := 1; s_project := 1; s_user := 7; s_is_active := true |};
      {| s_group := 3; s_project := 1; s_user := 7; s_is_active := false |} ];
  environments := environments Example.db;
  group_environments :=
    group_environments Example.db
    ++ [ {| ge_group_id := 4; ge_environment_id := 9;
            ge_first_release_id := None |} ];
  group_tag_values :=
    group_tag_values Example.db
    ++ [Example.tag_value 4 "environment" "prod" 2];
  group_tag_keys := group_tag_keys Example.db
|}.

End Sample.

(** The calls a run of [_build_queryset] can add to the log: at most
    one to the tag store, made with the caller's [tags], then at most one
    event sub-query fetched eagerly, of at most 1000 ids. *)
Definition plain_log (project : Project) (env : option Z)
  (tags : option (gmap string pyval)) (log : list call) : Prop :=
  exists tag_log event_log,
    log = (tag_log ++ event_log)%list
    /\ (tag_log = []
        \/ (tags_truthy tags = true
            /\ tag_log = [TagstoreSearch (project_id project) env
                            (default ∅ tags)]))
    /\ (event_log = []
        \/ exists ids, event_log = [EventGroupIds ids]
                       /\ (length ids <= 1000)%nat).

(** The parameters registered with [scalar_condition] in
    [EnvironmentDjangoSearchBackend.query]. *)
Definition scalar_parameters : list string :=
  ["active_at_from"; "active_at_to"; "age_from"; "age_to";
   "last_seen_from"; "last_seen_to"; "times_seen_lower"; "times_seen_upper"].

(** The keyword arguments [EnvironmentDjangoSearchBackend.query] reads
    from [kwargs]: the parameters of its handlers, the inclusive flags of
    the scalar ones, and [date_from], which it asserts absent. *)
Definition environment_keywords : list string :=
  (["date_from"; "query"; "status"; "bookmarked_by"; "assigned_to";
    "unassigned"; "subscribed_by"; "first_release"; "times_seen"]
   ++ scalar_parameters
   ++ map (fun p => String.append p "_inclusive") scalar_parameters)%list.

(** The test [_build_queryset] applies to the value of a filter
    parameter before it uses it: [is not None] for the status, the
    subscriber and the counts, [in (True, False)] for [unassigned], the
    truth value for the others. *)
Definition given (parameter : string) (value : pyval) : bool :=
  if existsb (String.eqb parameter)
       ["status"; "subscribed_by"; "times_seen"; "times_seen_lower";
        "times_seen_upper"]
  then negb (is_None value)
  else if String.eqb parameter "unassigned" then in_True_False value
  else truthy value.

(** The filter parameters of [_build_queryset]. *)
Definition filter_parameters : list string :=
  ["query"; "status"; "bookmarked_by"; "assigned_to"; "unassigned";
   "subscribed_by"; "first_release"; "age_from"; "age_to";
   "last_seen_from"; "last_seen_to"; "active_at_from"; "active_at_to";
   "times_seen"; "times_seen_lower"; "times_seen_upper";
   "date_from"; "date_to"].

(** Keyword arguments that mean the same to both backends: accepted by
    the plain one, no date range, a status that the default exclusion
    leaves in, every filter value one that the plain backend counts as
    given, no [EMPTY] release, [unassigned] only without [assigned_to],
    and every range bound with its inclusive flag. *)
Definition portable (kw : gmap string pyval) : Prop :=
  DjangoSearchBackend.accepts kw = true
  /\ kw !! "date_from" = None /\ kw !! "date_to" = None
  /\ (forall v, kw !! "status" = Some v ->
      exists X, v = VInt X /\ ~ In X status_in)
  /\ (forall k v,
        In k ["bookmarked_by"; "assigned_to"; "subscribed_by";
              "first_release"; "times_seen"] ->
        kw !! k = Some v -> given k v = true)
  /\ kw !! "first_release" <> Some VEmpty
  /\ (forall v, kw !! "unassigned" = Some v ->
      in_True_False v = true /\ kw !! "assigned_to" = None)
  /\ (forall p v, In p scalar_parameters -> kw !! p = Some v ->
      given p v = true /\ is_Some (kw !! (p ++ "_inclusive"))).

(** Two runs end alike: the same state, and the same exception or the
    same result set. *)
Definition same_results (run run' : outcome SearchResult * state) : Prop :=
  snd run = snd run'
  /\ match fst run, fst run' with
     | Ok r, Ok r' => result_set r = result_set r'
     | Raise e, Raise e' => e = e'
     | _, _ => False
     end.

(** ** Double quotes in names *)

(** No double quote occurs in the string. *)
Fixpoint quote_free (s : string) : bool :=
  match s with
  | EmptyString => true
  | String c s' => negb (Ascii.eqb c double_quote) && quote_free s'
  end.

Module ColumnExample.

Definition group_meta : Meta := {|
  db_table := "sentry_groupedmessage";
  meta_fields := [("id", "id"); ("project", "project_id");
                  ("first_release", "first_release_id")]
|}.

Definition group_environment_meta : Meta := {|
  db_table := "sentry_groupenvironment";
  meta_fields := [("group_id", "group_id");
                  ("environment_id", "environment_id");
                  ("first_release_id", "first_release_id")]
|}.

End ColumnExample.

(** Spec side: the priority score of an issue seen [times_seen] times
    and last seen at [last_seen]: the integer part of
    [log(times_seen) * 600 + last_seen], the date in whole seconds. *)
Definition priority_score (times_seen last_seen : Z) : Z :=
  trunc (log10 (IZR times_seen) * 600 + IZR (abstime_int last_seen)).

(** Spec side: the tag value row [r] counts issue [id] in the
    environment named [name] of the project. *)
Definition environment_row (project : Project) (name : pyval) (id : Z)
  (r : GroupTagValue) : Prop :=
  gtv_project_id r = project_id project
  /\ gtv_key r = "environment"
  /\ lookup_holds LExact (VStr (gtv_value r)) name = true
  /\ gtv_group_id r = id.

(** ** Issues to rank by priority *)

Module PriorityExample.

(** Issues 1, 2 and 3 are seen in the environment "prod" (id 9), all
    last at the same instant: issue 1 a hundred times, issues 2 and 3
    ten times each. *)
Definition db : Database := {|
  groups := [Example.group 1 GroupStatus.UNRESOLVED 100;
             Example.group 2 GroupStatus.UNRESOLVED 100;
             Example.group 3 GroupStatus.UNRESOLVED 100];
  events := [];
  releases := [];
  bookmarks := [];
  assignees := [];
  subscriptions := [];
  environments :=
    [ {| env_id := 9; env_name := "prod"; env_projects := [1] |} ];
  group_environments :=
    [ {| ge_group_id := 1; ge_environment_id := 9;
         ge_first_release_id := None |};
      {| ge_group_id := 2; ge_environment_id := 9;
         ge_first_release_id := None |};
      {| ge_group_id := 3; ge_environment_id := 9;
         ge_first_release_id := None |} ];
  group_tag_values :=
    [Example.tag_value 2 "environment" "prod" 10;
     Example.tag_value 1 "environment" "prod" 100;
     Example.tag_value 3 "environment" "prod" 10];
  group_tag_keys := []
|}.

(** [query(project, tags=..., sort_by='priority', environment_id=9,
    limit=10)] *)
Definition args : SearchArgs := {|
  sort_by := Some "priority"; environment_id := Some 9; cursor := None;
  limit := Some 10%nat; count_hits := false; paginator_options := None;
  kwargs := ∅
|}.

End PriorityExample.

(** Spec side: the search returned a page, the result of a paginator's
    [get_result], and not a query set. *)
Definition is_page (r : SearchResult) : bool :=
  match r with
  | Paginated _ _ _ _ _ _ _ => true
  | SequencePage _ => true
  | BareQuerySet _ => false
  end.

(** * Properties *)

(** ** Query sets *)

Lemma filter_swap {A} (p q : A -> bool) (l : list A) :
  List.filter p (List.filter q l) = List.filter q (List.filter p l).
Proof.
  induction l as [|x l IH]; simpl; [reflexivity|].
  destruct (q x) eqn:Hq, (p x) eqn:Hp; simpl; rewrite ?Hq, ?Hp, IH; reflexivity.
Qed.

Lemma filter_all {A} (l : list A) : List.filter (fun _ => true) l = l.
Proof. induction l; simpl; congruence. Qed.

Lemma qs_where_swap {A} (p q : A -> bool) (qs : QuerySet A) :
  qs_where p (qs_where q qs) = qs_where q (qs_where p qs).
Proof. unfold qs_where; simpl. now rewrite filter_swap. Qed.

Lemma qs_where_all {A} (qs : QuerySet A) : qs_where (fun _ => true) qs = qs.
Proof. destruct qs; unfold qs_where; simpl. now rewrite filter_all. Qed.

Lemma in_rows_where {A} (p : A -> bool) (qs : QuerySet A) (r : A) :
  In r (rows (qs_where p qs)) <-> In r (rows qs) /\ p r = true.
Proof. unfold qs_where; simpl. apply filter_In. Qed.

Lemma in_rows_filter {A} `{Model A} params (qs : QuerySet A) (r : A) :
  In r (rows (qs_filter params qs)) <-> In r (rows qs) /\ matches_all params r = true.
Proof. apply in_rows_where. Qed.

Lemma in_rows_exclude {A} `{Model A} params (qs : QuerySet A) (r : A) :
  In r (rows (qs_exclude params qs))
  <-> In r (rows qs) /\ matches_all params r = false.
Proof.
  unfold qs_exclude. rewrite in_rows_where, negb_true_iff. reflexivity.
Qed.

Lemma narrowing_where {A} (p : A -> bool) : narrowing (qs_where p).
Proof. intros qs r Hr. now apply in_rows_where in Hr. Qed.

Lemma narrowing_id {A} : narrowing (@id (QuerySet A)).
Proof. intros qs r Hr. exact Hr. Qed.

Lemma narrowing_if {A} (b : bool) (f g : QuerySet A -> QuerySet A) :
  narrowing f -> narrowing g -> narrowing (if b then f else g).
Proof. destruct b; auto. Qed.

Lemma narrowing_none {A} : narrowing (@qs_none A).
Proof. intros qs r []. Qed.

Lemma narrowing_extra_select {A} name sql : narrowing (@qs_extra_select A name sql).
Proof. intros qs r Hr. exact Hr. Qed.

Lemma narrowing_order_by {A} clause : narrowing (@qs_order_by A clause).
Proof. intros qs r Hr. exact Hr. Qed.

Create HintDb narrow.
#[export] Hint Resolve narrowing_where narrowing_id narrowing_if narrowing_none
  narrowing_extra_select narrowing_order_by : narrow.

Lemma narrowing_filter {A} `{Model A} params : narrowing (qs_filter params).
Proof. apply narrowing_where. Qed.

Lemma narrowing_exclude {A} `{Model A} params : narrowing (qs_exclude params).
Proof. apply narrowing_where. Qed.

#[export] Hint Resolve narrowing_filter narrowing_exclude : narrow.

(** ** The query builder *)

Lemma same_outcome_refl {A} (r : outcome A) : same_outcome r r.
Proof. destruct r; simpl; auto. Qed.

Lemma same_outcome_trans {A} (r1 r2 r3 : outcome A) :
  same_outcome r1 r2 -> same_outcome r2 r3 -> same_outcome r1 r3.
Proof. destruct r1, r2, r3; simpl; intros; try congruence; tauto. Qed.

Lemma same_outcome_sym {A} (r1 r2 : outcome A) :
  same_outcome r1 r2 -> same_outcome r2 r1.
Proof. destruct r1, r2; simpl; auto. Qed.

Section Builder.
Context {A : Type} (parameters : gmap string pyval).

Let handlers : Type := list (string * (callback (QuerySet A) * list string)).

Lemma build_cons item (hs : handlers) qs :
  QueryBuilder.build (item :: hs) qs parameters
  = bind_outcome (QueryBuilder.build [item] qs parameters)
      (fun qs' => QueryBuilder.build hs qs' parameters).
Proof.
  destruct item as [p [h ex]]; simpl.
  destruct (parameters !! p) as [v|]; [|reflexivity].
  destruct (getitems parameters ex) as [extra|]; simpl; [|reflexivity].
  destruct (h qs v extra); reflexivity.
Qed.

Lemma build_permutation (hs hs' : handlers) :
  Permutation hs hs' ->
  Forall (selective parameters) hs ->
  forall qs,
    same_outcome (QueryBuilder.build hs qs parameters)
                 (QueryBuilder.build hs' qs parameters).
Proof.
  induction 1 as [|x l l' Hperm IH|x y l|l l' l'' H1 IH1 H2 IH2];
    intros Hsel qs.
  - apply same_outcome_refl.
  - rewrite (build_cons x l), (build_cons x l').
    inversion Hsel as [|? ? Hx Hl]; subst.
    destruct Hx as [[e He]|[p Hp]].
    + rewrite He. exact I.
    + rewrite Hp. cbn [bind_outcome]. now apply IH.
  - rewrite (build_cons y (x :: l)), (build_cons x (y :: l)).
    inversion Hsel as [|? ? Hy Hl]; subst.
    inversion Hl as [|? ? Hx Hl']; subst.
    destruct Hx as [[e He]|[p Hp]], Hy as [[e' He']|[p' Hp']];
      rewrite ?He, ?He', ?Hp, ?Hp'; cbn [bind_outcome];
      rewrite ?(build_cons x l), ?(build_cons y l), ?He, ?He', ?Hp, ?Hp';
      cbn [bind_outcome same_outcome]; try exact I.
    rewrite qs_where_swap. apply same_outcome_refl.
  - eapply same_outcome_trans; [now apply IH1|].
    apply IH2. eapply Permutation_Forall; eassumption.
Qed.

(** Handlers whose parameters are all absent leave the query set as
    it is. *)
Lemma build_absent {Q} (hs : list (string * (callback Q * list string)))
  (qs : Q) :
  (forall item, In item hs -> parameters !! fst item = None) ->
  QueryBuilder.build hs qs parameters = Ok qs.
Proof.
  induction hs as [|[p [h ex]] hs IH]; intros Habs; simpl; [reflexivity|].
  pose proof (Habs (p, (h, ex)) (or_introl eq_refl)) as Hp.
  cbn [fst] in Hp. rewrite Hp.
  apply IH. intros item Hin. apply Habs. now right.
Qed.

Lemma selective_lambda2 name (f : QuerySet A -> pyval -> QuerySet A) :
  (forall v, exists p, forall qs, f qs v = qs_where p qs) ->
  selective parameters (name, condition (lambda2 f) None).
Proof.
  intros Hf. unfold selective; simpl.
  destruct (parameters !! name) as [v|].
  - destruct (Hf v) as [p Hp]. right. exists p. intros qs. now rewrite Hp.
  - right. exists (fun _ => true). intros qs. now rewrite qs_where_all.
Qed.

Lemma selective_scalar `{Model A} parameter field operator :
  selective parameters (parameter, scalar_condition parameter field operator).
Proof.
  unfold selective, scalar_condition, condition; simpl.
  destruct (parameters !! parameter) as [v|].
  - unfold getitem. destruct (parameters !! (parameter ++ "_inclusive")) as [i|];
      simpl.
    + right. eexists. intros qs. reflexivity.
    + left. eexists. intros qs. reflexivity.
  - right. exists (fun _ => true). intros qs. now rewrite qs_where_all.
Qed.

End Builder.

Ltac selective_handlers :=
  repeat lazymatch goal with
  | |- Forall _ _ => constructor
  | |- selective _ (_, scalar_condition _ _ _) => apply selective_scalar
  | |- selective _ (_, condition (lambda2 _) None) =>
      apply selective_lambda2;
      let v := fresh "v" in
      intros v;
      first [ destruct (truthy v);
              [ eexists; intros ?; reflexivity
              | exists (fun _ => true); intros ?; now rewrite qs_where_all ]
            | eexists; intros ?; reflexivity ]
  end.

Lemma base_conditions_selective db project parameters :
  Forall (selective parameters)
    (EnvironmentDjangoSearchBackend.base_conditions db project).
Proof. unfold EnvironmentDjangoSearchBackend.base_conditions. selective_handlers. Qed.

Lemma scalar_conditions_selective {A} `{Model A} parameters :
  Forall (selective parameters)
    (@EnvironmentDjangoSearchBackend.scalar_conditions A _).
Proof.
  unfold EnvironmentDjangoSearchBackend.scalar_conditions. selective_handlers.
Qed.

Lemma plain_conditions_selective db project parameters :
  Forall (selective parameters)
    (EnvironmentDjangoSearchBackend.plain_conditions db project).
Proof.
  unfold EnvironmentDjangoSearchBackend.plain_conditions.
  constructor; [|apply scalar_conditions_selective].
  selective_handlers.
Qed.

Lemma environment_conditions_selective db project parameters :
  Forall (selective parameters)
    (EnvironmentDjangoSearchBackend.environment_conditions db project).
Proof.
  unfold EnvironmentDjangoSearchBackend.environment_conditions.
  selective_handlers.
Qed.

(** ** C8: order of the handlers, absent parameters *)

(** C8.  Applying the handlers of each of the builder's registries in
    any permutation of the declaration order gives the same outcome as
    applying them in declaration order: the same query set (hence the
    same issue ids), or an exception in both cases.  A handler whose
    parameter is absent from the keyword arguments leaves the query set
    unchanged. *)
Theorem build_order_independent (db : Database) (project : Project)
  (parameters : gmap string pyval) :
  (forall hs qs,
     Permutation (EnvironmentDjangoSearchBackend.base_conditions db project) hs ->
     same_outcome
       (QueryBuilder.build
          (EnvironmentDjangoSearchBackend.base_conditions db project)
          qs parameters)
       (QueryBuilder.build hs qs parameters))
  /\ (forall hs qs,
     Permutation (EnvironmentDjangoSearchBackend.plain_conditions db project) hs ->
     same_outcome
       (QueryBuilder.build
          (EnvironmentDjangoSearchBackend.plain_conditions db project)
          qs parameters)
       (QueryBuilder.build hs qs parameters))
  /\ (forall hs qs,
     Permutation
       (EnvironmentDjangoSearchBackend.environment_conditions db project) hs ->
     same_outcome
       (QueryBuilder.build
          (EnvironmentDjangoSearchBackend.environment_conditions db project)
          qs parameters)
       (QueryBuilder.build hs qs parameters))
  /\ (forall hs (qs : QuerySet GroupTagValue),
     Permutation EnvironmentDjangoSearchBackend.scalar_conditions hs ->
     same_outcome
       (QueryBuilder.build EnvironmentDjangoSearchBackend.scalar_conditions
          qs parameters)
       (QueryBuilder.build hs qs parameters))
  /\ (forall (hs : list (string * (callback (QuerySet Group) * list string)))
        (qs : QuerySet Group),
     (forall item, In item hs -> parameters !! fst item = None) ->
     QueryBuilder.build hs qs parameters = Ok qs).
Proof.
  repeat split; intros hs qs Hperm.
  - apply build_permutation; [exact Hperm|apply base_conditions_selective].
  - apply build_permutation; [exact Hperm|apply plain_conditions_selective].
  - apply build_permutation;
      [exact Hperm|apply environment_conditions_selective].
  - apply build_permutation; [exact Hperm|apply scalar_conditions_selective].
  - now apply build_absent.
Qed.

Lemma build_order_independent_witness :
  Permutation
    (EnvironmentDjangoSearchBackend.base_conditions Example.db Example.project)
    (rev (EnvironmentDjangoSearchBackend.base_conditions Example.db
            Example.project))
  /\ same_outcome
       (QueryBuilder.build
          (EnvironmentDjangoSearchBackend.base_conditions Example.db
             Example.project)
          (objects (groups Example.db))
          {[ "status" := VInt 0; "unassigned" := VBool false ]})
       (QueryBuilder.build
          (rev (EnvironmentDjangoSearchBackend.base_conditions Example.db
                  Example.project))
          (objects (groups Example.db))
          {[ "status" := VInt 0; "unassigned" := VBool false ]}).
Proof.
  split; [apply Permutation_rev|].
  apply (proj1 (build_order_independent Example.db Example.project
                  {[ "status" := VInt 0; "unassigned" := VBool false ]})).
  apply Permutation_rev.
Defined.

(** A parameter that is present is applied even when its value is
    [None] or [False]: only an absent parameter is skipped. *)
Example present_parameter_applied :
  Example.ids
    (EnvironmentDjangoSearchBackend.query Example.settings Example.db
       Example.project (Example.args ∅) Example.no_tags)
  = Ok [1; 3]
  /\ Example.ids
       (EnvironmentDjangoSearchBackend.query Example.settings Example.db
          Example.project (Example.args {[ "unassigned" := VBool false ]})
          Example.no_tags)
     = Ok [1]
  /\ Example.ids
       (EnvironmentDjangoSearchBackend.query Example.settings Example.db
          Example.project (Example.args {[ "status" := VNone ]})
          Example.no_tags)
     = Ok [].
Proof. repeat split; vm_compute; reflexivity. Qed.

(** ** Evaluating lookups *)

Lemma matches_lookup_eval {A} `{Model A} name field lt fv v (r : A) :
  parse_lookup name = (field, lt) -> column r field = Some fv ->
  matches_lookup name v r = lookup_holds lt fv v.
Proof. intros Hp Hc. unfold matches_lookup. now rewrite Hp, Hc. Qed.

Lemma matches_all_cons {A} `{Model A} name v params (r : A) :
  matches_all ((name, v) :: params) r
  = matches_lookup name v r && matches_all params r.
Proof. reflexivity. Qed.

Lemma matches_all_nil {A} `{Model A} (r : A) : matches_all [] r = true.
Proof. reflexivity. Qed.

Lemma matches_all_one {A} `{Model A} name v (r : A) :
  matches_all [(name, v)] r = matches_lookup name v r.
Proof. unfold matches_all; simpl. apply andb_true_r. Qed.

Lemma matches_status_exact (g : Group) (X : Z) :
  matches_all [("status", VInt X)] g = (g_status g =? X).
Proof.
  rewrite matches_all_one.
  rewrite (matches_lookup_eval "status" "status" LExact (VInt (g_status g)))
    by (vm_compute; reflexivity).
  cbn [lookup_holds sql_compare]. symmetry. apply Z.eqb_compare.
Qed.

Lemma matches_status_in (g : Group) (l : list Z) :
  matches_all [("status__in", VIds l)] g = existsb (Z.eqb (g_status g)) l.
Proof.
  rewrite matches_all_one.
  now rewrite (matches_lookup_eval "status__in" "status" LIn (VInt (g_status g)))
    by (vm_compute; reflexivity).
Qed.

Lemma matches_id_in (g : Group) (l : list Z) :
  matches_all [("id__in", VIds l)] g = existsb (Z.eqb (g_id g)) l.
Proof.
  rewrite matches_all_one.
  now rewrite (matches_lookup_eval "id__in" "id" LIn (VInt (g_id g)))
    by (vm_compute; reflexivity).
Qed.

(** ** Both backends only narrow the base query set *)

Lemma narrowing_apply {A} (f : QuerySet A -> QuerySet A) qs r :
  narrowing f -> In r (rows (f qs)) -> In r (rows qs).
Proof. intros Hf. apply Hf. Qed.

Ltac narrow H :=
  repeat lazymatch type of H with
  | In _ (rows (?f ?q)) =>
      let N := fresh "N" in
      assert (N : narrowing f) by (auto 10 with narrow);
      apply (narrowing_apply f q _ N) in H; clear N
  end.

Ltac run_monad H :=
  cbv beta iota delta [bind ret lift raise record_call assert_ get_tags
                       put_tags] in H.

Ltac run_monad_goal :=
  cbv beta iota delta [bind ret lift raise record_call assert_ get_tags
                       put_tags].

Lemma build_queryset_ranges_narrows cfg db project sort_by kw qs st qs' st' :
  DjangoSearchBackend._build_queryset_ranges cfg db project sort_by kw qs st
  = (Ok qs', st') ->
  forall g, In g (rows qs') -> In g (rows qs).
Proof.
  unfold DjangoSearchBackend._build_queryset_ranges. cbv zeta.
  intros Hrun g Hg.
  set (q := (if negb (is_None _) || negb (is_None _) then _ else _) _) in Hrun.
  assert (Hq : In g (rows q) -> In g (rows qs)).
  { subst q. intros Hq. narrow Hq. exact Hq. }
  clearbody q. apply Hq. clear Hq.
  run_monad Hrun.
  destruct (truthy _ || truthy _);
    [destruct (negb _ || _)|];
    destruct (getitem _ sort_by); inversion Hrun; subst; narrow Hg; exact Hg.
Qed.

Lemma build_queryset_base cfg db project tags sort_by env kw st qs st' :
  DjangoSearchBackend._build_queryset cfg db project tags sort_by env kw st
  = (Ok qs, st') ->
  forall g, In g (rows qs) ->
    In g (groups db)
    /\ (if is_None (arg kw "status" VNone)
        then matches_all [("status__in", VIds status_in)] g = false
        else matches_all [("status", arg kw "status" VNone)] g = true).
Proof.
  unfold DjangoSearchBackend._build_queryset. cbv zeta.
  intros Hrun g Hg.
  set (q := (if is_None _ then _ else _) _) in Hrun.
  assert (Hq : In g (rows q)).
  { clearbody q. run_monad Hrun.
    destruct (truthy _ && is_EMPTY _).
    - inversion Hrun; subst. destruct Hg.
    - destruct (tags_truthy tags).
      + destruct (get_group_ids_for_search_filter _ _ _ _).
        * inversion Hrun; subst. destruct Hg.
        * eapply build_queryset_ranges_narrows in Hrun; [|exact Hg].
          narrow Hrun. exact Hrun.
      + eapply build_queryset_ranges_narrows in Hrun; [|exact Hg].
        narrow Hrun. exact Hrun. }
  subst q. clear Hrun Hg.
  destruct (is_None _).
  - apply in_rows_exclude in Hq. destruct Hq as [Hq Hs]. split; [|exact Hs].
    narrow Hq. exact Hq.
  - apply in_rows_filter in Hq. destruct Hq as [Hq Hs]. split; [|exact Hs].
    narrow Hq. exact Hq.
Qed.

Lemma plain_query_base cfg db project a st r st' :
  DjangoSearchBackend.query cfg db project a st = (Ok r, st') ->
  forall g, In g (result_set r) ->
    In g (groups db)
    /\ (if is_None (arg (kwargs a) "status" VNone)
        then matches_all [("status__in", VIds status_in)] g = false
        else matches_all [("status", arg (kwargs a) "status" VNone)] g = true).
Proof.
  unfold DjangoSearchBackend.query. intros Hrun g Hg.
  destruct (negb _); [discriminate|].
  cbv zeta in Hrun. run_monad Hrun.
  destruct (DjangoSearchBackend._build_queryset _ _ _ _ _ _ _ _)
    as [[qs|e] st1] eqn:Hb; [|discriminate].
  destruct (paginator_for _) as [cls clause].
  inversion Hrun; subst. simpl in Hg.
  eapply build_queryset_base; eassumption.
Qed.

(** ** The rows a builder keeps *)

Section BuilderRows.
Context {A : Type} (parameters : gmap string pyval).

Lemma build_rows (hs : list (string * (callback (QuerySet A) * list string))) :
  Forall (selective parameters) hs ->
  forall qs qs', QueryBuilder.build hs qs parameters = Ok qs' ->
  forall r, In r (rows qs')
            <-> In r (rows qs) /\ Forall (fun item => passes parameters item r) hs.
Proof.
  induction hs as [|item hs IH]; intros Hsel qs qs' Hb r.
  - simpl in Hb. inversion Hb; subst. split; [intros Hr; split; auto|tauto].
  - inversion Hsel as [|? ? Hitem Hhs]; subst.
    rewrite build_cons in Hb.
    destruct Hitem as [[e He]|[p Hp]].
    + rewrite He in Hb. discriminate.
    + rewrite Hp in Hb. cbn [bind_outcome] in Hb.
      rewrite (IH Hhs _ _ Hb r), in_rows_where.
      assert (Hpass : passes parameters item r <-> p r = true).
      { unfold passes. rewrite Hp. split.
        - intros [q [Hq Hr]]. inversion Hq; subst.
          apply in_rows_where in Hr. tauto.
        - intros Hr. eexists. split; [reflexivity|].
          apply in_rows_where. split; [left; reflexivity|exact Hr]. }
      split.
      * intros [[Hr Hpr] Hall]. split; [exact Hr|].
        constructor; [now apply Hpass|exact Hall].
      * intros [Hr Hall]. inversion Hall as [|? ? Hi Hrest]; subst.
        split; [split; [exact Hr|now apply Hpass]|exact Hrest].
Qed.

Lemma build_narrows (hs : list (string * (callback (QuerySet A) * list string)))
  qs qs' r :
  Forall (selective parameters) hs ->
  QueryBuilder.build hs qs parameters = Ok qs' ->
  In r (rows qs') -> In r (rows qs).
Proof. intros Hsel Hb Hr. now apply (build_rows hs Hsel qs qs' Hb r) in Hr. Qed.

End BuilderRows.

(** ** C7: intersection with the tag filters *)

Lemma string_compare_refl (a : string) : String.compare a a = Eq.
Proof.
  pose proof (String.compare_antisym a a) as Hsym.
  destruct (String.compare a a); simpl in Hsym; congruence.
Qed.

Lemma compare_eq_true (a b : string) :
  match String.compare a b with Eq => true | _ => false end = true <-> a = b.
Proof.
  split.
  - intros Hab. apply String.compare_eq_iff.
    destruct (String.compare a b); [reflexivity|discriminate..].
  - intros ->. now rewrite string_compare_refl.
Qed.

Lemma existsb_Zeqb (x : Z) (l : list Z) : existsb (Z.eqb x) l = true <-> In x l.
Proof.
  rewrite existsb_exists. split.
  - intros [y [Hy Heq]]. apply Z.eqb_eq in Heq. now subst.
  - intros Hx. exists x. split; [exact Hx|apply Z.eqb_refl].
Qed.

Lemma tag_key_query (r : GroupTagKey) key ids :
  matches_all [("key", VStr key); ("group_id__in", VIds ids)] r = true
  <-> gtk_key r = key /\ In (gtk_group_id r) ids.
Proof.
  rewrite !matches_all_cons, matches_all_nil, andb_true_r, andb_true_iff.
  rewrite (matches_lookup_eval "key" "key" LExact (VStr (gtk_key r)))
    by (vm_compute; reflexivity).
  rewrite (matches_lookup_eval "group_id__in" "group_id" LIn
             (VInt (gtk_group_id r))) by (vm_compute; reflexivity).
  cbn [lookup_holds sql_compare]. now rewrite compare_eq_true, existsb_Zeqb.
Qed.

Lemma tag_value_query (r : GroupTagValue) key value ids :
  matches_all [("key", VStr key); ("value", value);
               ("group_id__in", VIds ids)] r = true
  <-> gtv_key r = key
      /\ lookup_holds LExact (VStr (gtv_value r)) value = true
      /\ In (gtv_group_id r) ids.
Proof.
  rewrite !matches_all_cons, matches_all_nil, andb_true_r, !andb_true_iff.
  rewrite (matches_lookup_eval "key" "key" LExact (VStr (gtv_key r)))
    by (vm_compute; reflexivity).
  rewrite (matches_lookup_eval "value" "value" LExact (VStr (gtv_value r)))
    by (vm_compute; reflexivity).
  rewrite (matches_lookup_eval "group_id__in" "group_id" LIn
             (VInt (gtv_group_id r))) by (vm_compute; reflexivity).
  cbn [lookup_holds sql_compare]. now rewrite compare_eq_true, existsb_Zeqb.
Qed.

Lemma fold_delete_lookup {V} (l : list Z) (c : gmap Z V) (k : Z) :
  fold_left (fun c id => delete id c) l c !! k
  = if bool_decide (k ∈ l) then None else c !! k.
Proof.
  revert c. induction l as [|x l IH]; intros c; simpl.
  - reflexivity.
  - rewrite IH. destruct (decide (x = k)) as [->|Hne].
    + rewrite lookup_delete_eq.
      rewrite (bool_decide_eq_true_2 (k ∈ k :: l)) by apply list_elem_of_here.
      now destruct (bool_decide (k ∈ l)).
    + rewrite lookup_delete_ne by exact Hne.
      destruct (bool_decide_reflect (k ∈ l)) as [Hin|Hnin].
      * now rewrite bool_decide_eq_true_2 by (now apply list_elem_of_further).
      * rewrite bool_decide_eq_false_2; [reflexivity|].
        rewrite elem_of_cons. intros [?|?]; [congruence|tauto].
Qed.

Lemma in_map_to_list_keys {V} (c : gmap Z V) (k : Z) :
  In k (map fst (map_to_list c)) <-> is_Some (c !! k).
Proof.
  rewrite in_map_iff. split.
  - intros [[k' v] [Hk Hin]]. simpl in Hk; subst.
    apply list_elem_of_In, elem_of_map_to_list in Hin. eauto.
  - intros [v Hv]. exists (k, v). split; [reflexivity|].
    now apply list_elem_of_In, elem_of_map_to_list.
Qed.

Lemma intersect_tag_lookup {V} db (c : gmap Z V) key value k v :
  EnvironmentDjangoSearchBackend.intersect_tag db c (key, value) !! k = Some v
  <-> c !! k = Some v /\ has_tag db key value k.
Proof.
  unfold EnvironmentDjangoSearchBackend.intersect_tag, has_tag.
  rewrite fold_delete_lookup.
  set (keys := map fst (map_to_list c)).
  destruct (is_ANY value).
  - match goal with |- context [list_to_set ?l] => set (ids := l) end.
    assert (Hids : In k ids <-> In k keys /\
              exists r, In r (group_tag_keys db) /\ gtk_key r = key
                        /\ gtk_group_id r = k).
    { subst ids. rewrite in_map_iff. split.
      - intros [r [Hk Hr]]. apply in_rows_filter in Hr. destruct Hr as [Hr Hm].
        apply tag_key_query in Hm. destruct Hm as [Hkey Hin]. subst k.
        split; [exact Hin|]. exists r. auto.
      - intros [Hin [r [Hr [Hkey Hid]]]]. exists r. split; [exact Hid|].
        apply in_rows_filter. split; [exact Hr|].
        apply tag_key_query. subst k. auto. }
    clearbody ids.
    destruct (bool_decide_reflect
                (k ∈ elements (dom c ∖ list_to_set (C:=gset Z) ids)))
      as [Hdel|Hkeep].
    + apply elem_of_elements, elem_of_difference in Hdel.
      destruct Hdel as [Hdom Hnot]. split; [discriminate|].
      intros [Hc Hex]. exfalso. apply Hnot.
      apply elem_of_list_to_set, list_elem_of_In.
      apply Hids. split; [|exact Hex]. apply in_map_to_list_keys. eauto.
    + split; [|tauto]. intros Hc. split; [exact Hc|].
      destruct (in_dec Z.eq_dec k ids) as [Hin|Hnin]; [now apply Hids in Hin|].
      exfalso. apply Hkeep.
      apply elem_of_elements, elem_of_difference. split.
      * apply elem_of_dom. eauto.
      * rewrite elem_of_list_to_set, list_elem_of_In. exact Hnin.
  - match goal with |- context [list_to_set ?l] => set (ids := l) end.
    assert (Hids : In k ids <-> In k keys /\
              exists r, In r (group_tag_values db) /\ gtv_key r = key
                        /\ lookup_holds LExact (VStr (gtv_value r)) value = true
                        /\ gtv_group_id r = k).
    { subst ids. rewrite in_map_iff. split.
      - intros [r [Hk Hr]]. apply in_rows_filter in Hr. destruct Hr as [Hr Hm].
        apply tag_value_query in Hm. destruct Hm as [Hkey [Hval Hin]]. subst k.
        split; [exact Hin|]. exists r. auto.
      - intros [Hin [r [Hr [Hkey [Hval Hid]]]]]. exists r. split; [exact Hid|].
        apply in_rows_filter. split; [exact Hr|].
        apply tag_value_query. subst k. auto. }
    clearbody ids.
    destruct (bool_decide_reflect
                (k ∈ elements (dom c ∖ list_to_set (C:=gset Z) ids)))
      as [Hdel|Hkeep].
    + apply elem_of_elements, elem_of_difference in Hdel.
      destruct Hdel as [Hdom Hnot]. split; [discriminate|].
      intros [Hc Hex]. exfalso. apply Hnot.
      apply elem_of_list_to_set, list_elem_of_In.
      apply Hids. split; [|exact Hex]. apply in_map_to_list_keys. eauto.
    + split; [|tauto]. intros Hc. split; [exact Hc|].
      destruct (in_dec Z.eq_dec k ids) as [Hin|Hnin]; [now apply Hids in Hin|].
      exfalso. apply Hkeep.
      apply elem_of_elements, elem_of_difference. split.
      * apply elem_of_dom. eauto.
      * rewrite elem_of_list_to_set, list_elem_of_In. exact Hnin.
Qed.

Lemma intersect_tags_lookup {V} db (items : list (string * pyval))
  (c : gmap Z V) k v :
  fold_left (EnvironmentDjangoSearchBackend.intersect_tag db) items c !! k
  = Some v
  <-> c !! k = Some v
      /\ Forall (fun item => has_tag db (fst item) (snd item) k) items.
Proof.
  revert c. induction items as [|[key value] items IH]; intros c;
    cbn [fold_left].
  - split; [intros Hc; split; [exact Hc|constructor]|tauto].
  - rewrite IH, intersect_tag_lookup. split.
    + intros [[Hc Ht] Hall]. split; [exact Hc|]. now constructor.
    + intros [Hc Hall]. inversion Hall; subst. tauto.
Qed.

(** C7.  In the environment-scoped path the candidates left after the
    loop over the tag filters are the initial candidates, with their
    scores, that match every tag filter: the intersection of the
    initial candidate set with each filter's set of matching issues.
    A wildcard filter is matched by the issues for which the key
    exists.  Candidates {1, 2, 3} under two filters matching {1, 2} and
    {2, 3} leave {2}; under a wildcard on a key that exists for 1 and 3
    they leave {1, 3}. *)
Theorem tag_intersection (db : Database) (V : Type) (candidates : gmap Z V)
  (tags : gmap string pyval) :
  (forall id score,
     fold_left (EnvironmentDjangoSearchBackend.intersect_tag db)
       (map_to_list tags) candidates !! id = Some score
     <-> candidates !! id = Some score
         /\ forall key value, tags !! key = Some value ->
                              has_tag db key value id)
  /\ dom
       (fold_left (EnvironmentDjangoSearchBackend.intersect_tag TagExample.db)
          (map_to_list {[ "browser" := VStr "firefox"; "os" := VStr "linux" ]})
          TagExample.candidates) = ({[ 2 ]} : gset Z)
  /\ dom
       (fold_left (EnvironmentDjangoSearchBackend.intersect_tag TagExample.db)
          (map_to_list {[ "device" := VAny ]})
          TagExample.candidates) = ({[ 1; 3 ]} : gset Z).
Proof.
  split; [|split; vm_compute; reflexivity].
  intros id score. rewrite intersect_tags_lookup, Forall_forall.
  split; intros [Hc Hall]; (split; [exact Hc|]).
  - intros key value Hkv. apply (Hall (key, value)).
    now apply elem_of_map_to_list.
  - intros [key value] Hin. apply Hall.
    now apply elem_of_map_to_list in Hin.
Qed.

(** ** Runs of the monad *)

Lemma bind_inv {A B} (m : M A) (k : A -> M B) st o st' :
  bind m k st = (o, st') ->
  (exists e, m st = (Raise e, st') /\ o = Raise e)
  \/ (exists a st1, m st = (Ok a, st1) /\ k a st1 = (o, st')).
Proof.
  unfold bind. destruct (m st) as [[a|e] st1]; intros Hrun.
  - right. eauto.
  - left. inversion Hrun; subst. eauto.
Qed.

Lemma bind_ok {A B} (m : M A) (k : A -> M B) st b st' :
  bind m k st = (Ok b, st') ->
  exists a st1, m st = (Ok a, st1) /\ k a st1 = (Ok b, st').
Proof.
  intros Hrun. apply bind_inv in Hrun.
  destruct Hrun as [[e [_ He]]|Hok]; [discriminate|exact Hok].
Qed.

Lemma ret_inv {A} (a : A) st o st' :
  ret a st = (o, st') -> o = Ok a /\ st' = st.
Proof. unfold ret. intros Hrun. inversion Hrun; auto. Qed.

Lemma lift_inv {A} (r : outcome A) st o st' :
  lift r st = (o, st') -> o = r /\ st' = st.
Proof. unfold lift. intros Hrun. inversion Hrun; auto. Qed.

Lemma raise_inv {A} e st (o : outcome A) st' :
  raise e st = (o, st') -> o = Raise e /\ st' = st.
Proof. unfold raise. intros Hrun. inversion Hrun; auto. Qed.

Lemma assert_inv b st o st' :
  assert_ b st = (o, st') ->
  st' = st /\ (b = true /\ o = Ok tt \/ b = false /\ o = Raise AssertionError).
Proof.
  unfold assert_. destruct b; intros Hrun; inversion Hrun; auto.
Qed.

Lemma get_tags_inv st o st' :
  get_tags st = (o, st') -> o = Ok (caller_tags st) /\ st' = st.
Proof. unfold get_tags. intros Hrun. inversion Hrun; auto. Qed.

Lemma put_tags_inv t st o st' :
  put_tags t st = (o, st') -> o = Ok tt /\ st' = mkState (Some t) (calls st).
Proof. unfold put_tags. intros Hrun. inversion Hrun; auto. Qed.

Lemma record_call_inv c st o st' :
  record_call c st = (o, st') ->
  o = Ok tt /\ st' = mkState (caller_tags st) (calls st ++ [c]).
Proof. unfold record_call. intros Hrun. inversion Hrun; auto. Qed.

(** Inversion of a run that returned normally, one step at a time. *)
Ltac simpl_step H1 :=
  lazymatch type of H1 with
  | assert_ _ _ = _ =>
      apply assert_inv in H1; destruct H1 as [-> [[H1 _]|[_ H1]]];
      [|discriminate H1]
  | lift _ _ = _ =>
      apply lift_inv in H1; destruct H1 as [H1 ->]; symmetry in H1
  | get_tags _ = _ =>
      apply get_tags_inv in H1; destruct H1 as [H1 ->]; injection H1 as ->
  | put_tags _ _ = _ => apply put_tags_inv in H1; destruct H1 as [_ ->]
  | record_call _ _ = _ => apply record_call_inv in H1; destruct H1 as [_ ->]
  | ret _ _ = _ =>
      apply ret_inv in H1; destruct H1 as [H1 ->]; injection H1 as ->
  | raise _ _ = _ =>
      apply raise_inv in H1; destruct H1 as [H1 _]; discriminate H1
  | _ => idtac
  end.

Tactic Notation "step_ok" hyp(H) ident(a) ident(Ha) :=
  let st1 := fresh "st" in
  apply bind_ok in H; destruct H as (a & st1 & Ha & H); simpl_step Ha.

Ltac run_ok H :=
  repeat match type of H with
  | bind _ _ _ = (Ok _, _) =>
      let a := fresh "a" in
      let H1 := fresh "Hstep" in
      step_ok H a H1
  end.

(** ** From the page of the environment branch back to the base query *)

Lemma dict_lookup_in {V} (pairs : list (Z * V)) k v :
  dict pairs !! k = Some v -> In (k, v) pairs.
Proof.
  unfold dict.
  assert (Hgen : forall m : gmap Z V,
            fold_left (fun d kv => <[fst kv := snd kv]> d) pairs m !! k = Some v ->
            m !! k = Some v \/ In (k, v) pairs).
  { induction pairs as [|[k' v'] pairs IH]; intros m Hm; simpl in *.
    - now left.
    - apply IH in Hm. destruct Hm as [Hm|Hm]; [|now right; right].
      destruct (decide (k' = k)) as [->|Hne].
      + rewrite lookup_insert_eq in Hm. injection Hm as ->. right. now left.
      + rewrite lookup_insert_ne in Hm by exact Hne. now left. }
  intros Hd. apply Hgen in Hd. destruct Hd as [Hd|Hd]; [|exact Hd].
  rewrite lookup_empty in Hd. discriminate.
Qed.

Lemma map_outcome_in {A B} (f : A -> outcome B) l l' y :
  map_outcome f l = Ok l' -> In y l' -> exists x, In x l /\ f x = Ok y.
Proof.
  revert l'. induction l as [|x l IH]; intros l' Hm Hy; simpl in Hm.
  - inversion Hm; subst. destruct Hy.
  - destruct (f x) as [y0|] eqn:Hfx; simpl in Hm; [|discriminate].
    destruct (map_outcome f l) as [ys|]; simpl in Hm; [|discriminate].
    inversion Hm; subst. destruct Hy as [->|Hy].
    + exists x. split; [now left|exact Hfx].
    + destruct (IH ys eq_refl Hy) as [x' [Hx' Hfx']]. exists x'.
      split; [now right|exact Hfx'].
Qed.

Lemma insert_permutation x l :
  Permutation (SequencePaginator.insert x l) (x :: l).
Proof.
  induction l as [|y l IH]; simpl; [reflexivity|].
  destruct (SequencePaginator.precedes x y); [reflexivity|].
  rewrite IH. apply perm_swap.
Qed.

Lemma ranked_permutation data : Permutation (SequencePaginator.ranked data) data.
Proof.
  unfold SequencePaginator.ranked.
  induction data as [|x data IH]; simpl; [reflexivity|].
  rewrite insert_permutation. now constructor.
Qed.

Lemma in_firstn {A} (n : nat) (l : list A) x : In x (firstn n l) -> In x l.
Proof.
  intros Hx. rewrite <- (firstn_skipn n l). apply in_or_app. now left.
Qed.

Lemma in_skipn {A} (n : nat) (l : list A) x : In x (skipn n l) -> In x l.
Proof.
  intros Hx. rewrite <- (firstn_skipn n l). apply in_or_app. now right.
Qed.

Lemma get_result_in data limit cursor ids id :
  SequencePaginator.get_result data limit cursor = Ok ids ->
  In id ids -> exists score, In (score, id) data.
Proof.
  unfold SequencePaginator.get_result.
  destruct limit as [n|]; [|discriminate]. cbv zeta.
  intros Hids Hid. injection Hids as <-.
  apply in_map_iff in Hid. destruct Hid as [[score id'] [Heq Hin]].
  simpl in Heq; subst id'. exists score.
  apply in_firstn, in_skipn in Hin.
  eapply Permutation_in; [apply ranked_permutation|exact Hin].
Qed.

Lemma hydrate_in db ids g :
  In g (EnvironmentDjangoSearchBackend.hydrate db ids) ->
  In (g_id g) ids /\ In g (groups db).
Proof.
  unfold EnvironmentDjangoSearchBackend.hydrate. intros Hg.
  apply list_elem_of_In, list_elem_of_omap in Hg.
  destruct Hg as [id [Hid Hfind]]. apply list_elem_of_In in Hid.
  apply find_some in Hfind. destruct Hfind as [Hin Heq].
  apply Z.eqb_eq in Heq. subst id. auto.
Qed.

Lemma join_environment_in db e qs row :
  In row (rows (EnvironmentDjangoSearchBackend.join_environment db e qs)) ->
  In (fst row) (rows qs).
Proof.
  unfold EnvironmentDjangoSearchBackend.join_environment; simpl.
  rewrite in_flat_map. intros [g [Hg Hrow]].
  apply in_map_iff in Hrow. destruct Hrow as [ge [<- _]]. exact Hg.
Qed.

Lemma environment_tag_query (r : GroupTagValue) pid value ids :
  matches_all [("project_id", VInt pid); ("key", VStr "environment");
               ("value", value); ("group_id__in", VIds ids)] r = true ->
  In (gtv_group_id r) ids.
Proof.
  rewrite matches_all_cons, andb_true_iff. intros [_ Hrest].
  apply tag_value_query in Hrest. tauto.
Qed.

Lemma group_id_unique db g g' :
  List.NoDup (map g_id (groups db)) ->
  In g (groups db) -> In g' (groups db) -> g_id g = g_id g' -> g = g'.
Proof.
  induction (groups db) as [|x l IH]; simpl; intros Hnd Hg Hg' Hid; [tauto|].
  inversion Hnd as [|? ? Hx Hl]; subst.
  destruct Hg as [->|Hg], Hg' as [->|Hg']; auto.
  - exfalso. apply Hx. rewrite Hid. now apply in_map.
  - exfalso. apply Hx. rewrite <- Hid. now apply in_map.
Qed.

Lemma query_paginate_rows cfg sort_by a qs st r st' :
  EnvironmentDjangoSearchBackend.query_paginate cfg sort_by a qs st
  = (Ok r, st') ->
  result_set r = rows qs /\ st' = st.
Proof.
  unfold EnvironmentDjangoSearchBackend.query_paginate. intros Hrun.
  run_ok Hrun. destruct (paginator_for sort_by) as [cls clause].
  apply ret_inv in Hrun. destruct Hrun as [Hr ->]. injection Hr as ->.
  split; reflexivity.
Qed.

Lemma env_query_base cfg db project a st r st' :
  EnvironmentDjangoSearchBackend.query cfg db project a st = (Ok r, st') ->
  List.NoDup (map g_id (groups db)) ->
  exists q1,
    QueryBuilder.build (EnvironmentDjangoSearchBackend.base_conditions db project)
      (environment_base db project) (kwargs a) = Ok q1
    /\ forall g, In g (result_set r) -> In g (rows q1).
Proof.
  unfold EnvironmentDjangoSearchBackend.query. cbv zeta. intros Hrun Hnd.
  step_ok Hrun u Hassert. step_ok Hrun strategy Hstrategy.
  destruct strategy as [sort_expression value_to_cursor_score].
  step_ok Hrun q1 Hbase. exists q1. split; [exact Hbase|].
  assert (Hq1 : forall g, In g (rows q1) -> In g (groups db)).
  { intros g Hg.
    eapply build_narrows in Hg;
      [|apply base_conditions_selective|exact Hbase].
    unfold environment_base in Hg. narrow Hg. exact Hg. }
  destruct (environment_id a) as [e|].
  - step_ok Hrun tags_ Htags.
    destruct (caller_tags st) as [tags|]; step_ok Hrun tags' Htags'.
    step_ok Hrun u1 Henv. step_ok Hrun name Hname.
    step_ok Hrun environment Hget. step_ok Hrun u2 Hid.
    step_ok Hrun q2 Hjoin. step_ok Hrun value Hvalue.
    step_ok Hrun u3 Hput. step_ok Hrun q3 Hscalar.
    step_ok Hrun data Hdata. step_ok Hrun ids Hpage.
    apply ret_inv in Hrun. destruct Hrun as [Hr _]. injection Hr as ->.
    intros g Hg. simpl in Hg. apply hydrate_in in Hg. destruct Hg as [Hid' Hg].
    eapply get_result_in in Hid'; [|exact Hpage]. destruct Hid' as [score Hsc].
    eapply map_outcome_in in Hsc; [|exact Hdata].
    destruct Hsc as [[id s] [Hin Hconv]]. simpl in Hconv.
    destruct (value_to_cursor_score s); simpl in Hconv; [|discriminate].
    injection Hconv as -> ->.
    apply list_elem_of_In, elem_of_map_to_list in Hin.
    apply intersect_tags_lookup in Hin. destruct Hin as [Hin _].
    apply dict_lookup_in, in_map_iff in Hin.
    destruct Hin as [row [Heq Hrow]]. injection Heq as Hrid _.
    simpl in Hrow.
    eapply build_narrows in Hrow;
      [|apply scalar_conditions_selective|exact Hscalar].
    apply in_rows_filter in Hrow. destruct Hrow as [_ Hmatch].
    apply environment_tag_query in Hmatch. rewrite Hrid in Hmatch.
    apply nodup_In, in_map_iff in Hmatch.
    destruct Hmatch as [[g' ge] [Hgid Hjrow]]. simpl in Hgid.
    eapply build_narrows in Hjrow;
      [|apply environment_conditions_selective|exact Hjoin].
    apply join_environment_in in Hjrow. simpl in Hjrow.
    assert (g = g') as ->.
    { apply (group_id_unique db); auto. }
    exact Hjrow.
  - step_ok Hrun q2 Hplain.
    assert (Hq2 : forall g, In g (rows q2) -> In g (rows q1)).
    { intros g Hg. eapply build_narrows;
        [apply plain_conditions_selective|exact Hplain|exact Hg]. }
    unfold EnvironmentDjangoSearchBackend.query_tags in Hrun. cbv zeta in Hrun.
    step_ok Hrun tags Htags.
    destruct (tags_truthy (caller_tags st)).
    + step_ok Hrun u1 Hcall.
      destruct (get_group_ids_for_search_filter _ _ _ _).
      * apply ret_inv in Hrun. destruct Hrun as [Hr _]. injection Hr as ->.
        intros g [].
      * apply query_paginate_rows in Hrun. destruct Hrun as [Hr _].
        intros g Hg. rewrite Hr in Hg. narrow Hg. now apply Hq2.
    + apply query_paginate_rows in Hrun. destruct Hrun as [Hr _].
      intros g Hg. rewrite Hr in Hg. now apply Hq2.
Qed.

(** ** Single handlers *)

Lemma build_lambda2 {Q} name (f : Q -> pyval -> Q) qs
  (parameters : gmap string pyval) v :
  parameters !! name = Some v ->
  QueryBuilder.build [(name, condition (lambda2 f) None)] qs parameters
  = Ok (f qs v).
Proof.
  intros Hv. unfold condition. cbn [QueryBuilder.build default from_option].
  rewrite Hv. reflexivity.
Qed.

Lemma build_scalar {A} `{Model A} parameter field operator (qs : QuerySet A)
  (parameters : gmap string pyval) v inclusive :
  parameters !! parameter = Some v ->
  parameters !! (parameter ++ "_inclusive") = Some inclusive ->
  QueryBuilder.build [(parameter, scalar_condition parameter field operator)]
    qs parameters
  = Ok (qs_filter
          [(field ++ "__" ++ operator ++ (if truthy inclusive then "e" else ""),
            v)] qs).
Proof.
  intros Hv Hi. unfold scalar_condition, condition.
  cbn [QueryBuilder.build default from_option id getitems].
  rewrite Hv. unfold getitem. rewrite Hi. reflexivity.
Qed.

Lemma build_scalar_missing {A} `{Model A} parameter field operator
  (qs : QuerySet A) (parameters : gmap string pyval) v :
  parameters !! parameter = Some v ->
  parameters !! (parameter ++ "_inclusive") = None ->
  QueryBuilder.build [(parameter, scalar_condition parameter field operator)]
    qs parameters
  = Raise (KeyError (parameter ++ "_inclusive")).
Proof.
  intros Hv Hi. unfold scalar_condition, condition.
  cbn [QueryBuilder.build default from_option id getitems].
  rewrite Hv. unfold getitem. rewrite Hi. reflexivity.
Qed.

(** ** C1: statuses of the result set *)

Lemma not_in_status_in (g : Group) :
  matches_all [("status__in", VIds status_in)] g = false ->
  ~ In (g_status g) status_in.
Proof.
  rewrite matches_status_in. intros Hex Hin.
  apply existsb_Zeqb in Hin. congruence.
Qed.

(** C1.  On both backends a search without [status] returns no issue
    whose status is pending deletion, deletion in progress or pending
    merge, and a search with [status=X] returns only issues of status
    [X] (on the environment backend the default exclusion also stays in
    force, so for an excluded [X] the result set is empty). *)
Theorem default_status_exclusion cfg db project a st r st' :
  List.NoDup (map g_id (groups db)) ->
  DjangoSearchBackend.query cfg db project a st = (Ok r, st')
  \/ EnvironmentDjangoSearchBackend.query cfg db project a st = (Ok r, st') ->
  (kwargs a !! "status" = None ->
   forall g, In g (result_set r) -> ~ In (g_status g) status_in)
  /\ (forall X, kwargs a !! "status" = Some (VInt X) ->
      forall g, In g (result_set r) -> g_status g = X).
Proof.
  intros Hnd [Hrun|Hrun].
  - split.
    + intros Hstatus g Hg.
      destruct (plain_query_base _ _ _ _ _ _ _ Hrun g Hg) as [_ Hs].
      unfold arg in Hs. rewrite Hstatus in Hs. cbn [is_None] in Hs.
      now apply not_in_status_in.
    + intros X Hstatus g Hg.
      destruct (plain_query_base _ _ _ _ _ _ _ Hrun g Hg) as [_ Hs].
      unfold arg in Hs. rewrite Hstatus in Hs. cbn [is_None] in Hs.
      rewrite matches_status_exact in Hs. now apply Z.eqb_eq.
  - destruct (env_query_base _ _ _ _ _ _ _ Hrun Hnd) as [q1 [Hbase Hq1]].
    split.
    + intros _ g Hg. apply Hq1 in Hg.
      eapply build_narrows in Hg;
        [|apply base_conditions_selective|exact Hbase].
      apply in_rows_exclude in Hg. destruct Hg as [_ Hs].
      now apply not_in_status_in.
    + intros X Hstatus g Hg. apply Hq1 in Hg.
      apply (build_rows _ _ (base_conditions_selective _ _ _) _ _ Hbase) in Hg.
      destruct Hg as [_ Hall].
      unfold EnvironmentDjangoSearchBackend.base_conditions in Hall.
      inversion Hall as [|? ? _ Hall1]; subst. clear Hall.
      inversion Hall1 as [|? ? Hpass _]; subst. clear Hall1.
      destruct Hpass as [q [Hq Hin]].
      rewrite (build_lambda2 _ _ _ _ _ Hstatus) in Hq. injection Hq as <-.
      apply in_rows_filter in Hin. destruct Hin as [_ Hs].
      rewrite matches_status_exact in Hs. now apply Z.eqb_eq.
Qed.

Lemma default_status_exclusion_witness :
  map g_id (result_set default_status_exclusion_result) = [1; 3]
  /\ forall g, In g (result_set default_status_exclusion_result) ->
               ~ In (g_status g) status_in.
Proof.
  assert (Hnd : List.NoDup (map g_id (groups Example.db))).
  { vm_compute. repeat (constructor; [simpl; lia|]). constructor. }
  assert (Hrun : DjangoSearchBackend.query Example.settings Example.db
                   Example.project (Example.args ∅) Example.no_tags
                 = (Ok default_status_exclusion_result, Example.no_tags))
    by (vm_compute; reflexivity).
  split; [reflexivity|].
  apply (proj1 (default_status_exclusion _ _ _ _ _ _ _ Hnd (or_introl Hrun))).
  reflexivity.
Defined.

(** An excluded status asked for explicitly: the plain backend returns
    the issues of that status, the environment backend, which keeps the
    default exclusion, returns none. *)
Example excluded_status_asked_for :
  Example.ids
    (DjangoSearchBackend.query Example.settings Example.db Example.project
       (Example.args {[ "status" := VInt GroupStatus.PENDING_DELETION ]})
       Example.no_tags)
  = Ok [2]
  /\ Example.ids
       (EnvironmentDjangoSearchBackend.query Example.settings Example.db
          Example.project
          (Example.args {[ "status" := VInt GroupStatus.PENDING_DELETION ]})
          Example.no_tags)
     = Ok [].
Proof. split; vm_compute; reflexivity. Qed.

(** ** C2: the date range assertion of the environment backend *)

Lemma environment_date_from_rejected cfg db project a st :
  is_Some (kwargs a !! "date_from") ->
  EnvironmentDjangoSearchBackend.query cfg db project a st
  = (Raise AssertionError, st).
Proof.
  intros Hfrom. unfold EnvironmentDjangoSearchBackend.query. cbv zeta.
  unfold bind at 1.
  rewrite (bool_decide_eq_true_2 ("date_from" ∈ dom (kwargs a)))
    by (now apply elem_of_dom).
  reflexivity.
Qed.

(** C2.  The assertion tests ['date_from'] twice and ['date_to'] never:
    a call of the environment backend that passes [date_to] is not
    rejected.  It returns a result set, the same as without [date_to],
    on the environment-scoped branch as on the other. *)
Theorem environment_date_to_accepted :
  Example.ids
    (EnvironmentDjangoSearchBackend.query Example.settings Example.db
       Example.project (Example.args {[ "date_to" := VDate 3 ]})
       Example.no_tags)
  = Ok [1; 3]
  /\ Example.ids
       (EnvironmentDjangoSearchBackend.query Example.settings Example.db
          Example.project (Example.env_args {[ "date_to" := VDate 3 ]})
          (Example.with_tags {[ "environment" := VStr "prod" ]}))
     = Ok [3; 1]
  /\ Example.ids
       (EnvironmentDjangoSearchBackend.query Example.settings Example.db
          Example.project (Example.env_args {[ "date_from" := VDate 3 ]})
          (Example.with_tags {[ "environment" := VStr "prod" ]}))
     = Raise AssertionError.
Proof. repeat split; vm_compute; reflexivity. Qed.

(** ** C3: [assigned_to] together with [unassigned] *)

(** C3.  On the environment backend [assigned_to] and [unassigned] are
    separate handlers and both are applied: with issue 1 assigned to
    user 7, [assigned_to=7, unassigned=True] returns nothing, where
    [assigned_to=7] alone returns issue 1.  The plain backend returns
    issue 1 in both cases. *)
Theorem environment_unassigned_not_ignored :
  Example.ids
    (EnvironmentDjangoSearchBackend.query Example.settings Example.db
       Example.project
       (Example.args {[ "assigned_to" := VUser 7; "unassigned" := VBool true ]})
       Example.no_tags)
  = Ok []
  /\ Example.ids
       (EnvironmentDjangoSearchBackend.query Example.settings Example.db
          Example.project (Example.args {[ "assigned_to" := VUser 7 ]})
          Example.no_tags)
     = Ok [1]
  /\ Example.ids
       (DjangoSearchBackend.query Example.settings Example.db
          Example.project
          (Example.args
             {[ "assigned_to" := VUser 7; "unassigned" := VBool true ]})
          Example.no_tags)
     = Ok [1]
  /\ Example.ids
       (DjangoSearchBackend.query Example.settings Example.db
          Example.project (Example.args {[ "assigned_to" := VUser 7 ]})
          Example.no_tags)
     = Ok [1].
Proof. repeat split; vm_compute; reflexivity. Qed.

(** ** C4: the [EMPTY] release *)

(** The plain backend returns at once: an empty query set, no call to
    the tag store, whatever the other filters are. *)
Lemma build_queryset_first_release_empty cfg db project tags sort_by env kw st :
  kw !! "first_release" = Some VEmpty ->
  exists qs,
    DjangoSearchBackend._build_queryset cfg db project tags sort_by env kw st
    = (Ok qs, st) /\ rows qs = [].
Proof.
  intros Hrel. unfold DjangoSearchBackend._build_queryset. cbv zeta.
  unfold arg at 1 2. rewrite Hrel. cbn [truthy is_EMPTY andb].
  eexists. split; reflexivity.
Qed.

(** C4.  The environment backend has no test for [EMPTY]: the sentinel
    is passed to the [first_release] handler as a version, and the
    filters that follow are still applied.  With a [tags] filter the
    tag store is still called; with [age_from] and no
    [age_from_inclusive] the call raises instead of returning an empty
    result set.  The plain backend makes no call and returns the empty
    result set in both cases. *)
Theorem environment_first_release_empty_not_short_circuit :
  calls (snd
    (EnvironmentDjangoSearchBackend.query Example.settings Example.db
       Example.project (Example.args {[ "first_release" := VEmpty ]})
       (Example.with_tags {[ "browser" := VStr "firefox" ]})))
  = [TagstoreSearch 1 None {[ "browser" := VStr "firefox" ]}]
  /\ Example.ids
       (EnvironmentDjangoSearchBackend.query Example.settings Example.db
          Example.project
          (Example.args {[ "first_release" := VEmpty; "age_from" := VDate 3 ]})
          Example.no_tags)
     = Raise (KeyError "age_from_inclusive")
  /\ calls (snd
       (DjangoSearchBackend.query Example.settings Example.db
          Example.project (Example.args {[ "first_release" := VEmpty ]})
          (Example.with_tags {[ "browser" := VStr "firefox" ]})))
     = []
  /\ Example.ids
       (DjangoSearchBackend.query Example.settings Example.db
          Example.project
          (Example.args {[ "first_release" := VEmpty; "age_from" := VDate 3 ]})
          Example.no_tags)
     = Ok [].
Proof. repeat split; vm_compute; reflexivity. Qed.

(** ** A [tags] filter that matches nothing *)

Lemma tags_truthy_nonempty (tags : gmap string pyval) :
  tags <> ∅ -> tags_truthy (Some tags) = true.
Proof.
  intros Hne. unfold tags_truthy. now rewrite bool_decide_eq_false_2.
Qed.

Lemma build_queryset_tags cfg db project tags sort_by env kw st o st' :
  tags <> ∅ ->
  DjangoSearchBackend._build_queryset cfg db project (Some tags) sort_by env kw
    st = (o, st') ->
  (get_group_ids_for_search_filter cfg (project_id project) env tags = [] ->
   exists qs, o = Ok qs /\ rows qs = []
     /\ caller_tags st' = caller_tags st
     /\ (calls st' = calls st
         \/ calls st' = (calls st ++ [TagstoreSearch (project_id project) env tags])%list))
  /\ (forall qs, o = Ok qs -> forall g, In g (rows qs) ->
      In (g_id g)
        (get_group_ids_for_search_filter cfg (project_id project) env tags)).
Proof.
  intros Hne. unfold DjangoSearchBackend._build_queryset. cbv zeta.
  set (q := (if negb (is_None _) then _ else _) _).
  clearbody q. destruct (truthy _ && is_EMPTY _).
  - intros Hrun. apply ret_inv in Hrun. destruct Hrun as [-> ->].
    split.
    + intros _. exists (qs_none q). auto.
    + intros qs Hqs g Hg. injection Hqs as <-. destruct Hg.
  - rewrite (tags_truthy_nonempty tags Hne). cbn [default from_option id].
    set (q' := (if truthy _ then _ else _) q). clearbody q'.
    intros Hrun. apply bind_inv in Hrun.
    destruct Hrun as [[e [He _]]|(u & st1 & Hcall & Hrun)].
    { apply record_call_inv in He. destruct He; discriminate. }
    apply record_call_inv in Hcall. destruct Hcall as [_ ->].
    destruct (get_group_ids_for_search_filter cfg (project_id project) env tags)
      as [|m ms] eqn:Hmatches.
    + apply ret_inv in Hrun. destruct Hrun as [-> ->]. split.
      * intros _. exists (qs_none q'). simpl. auto.
      * intros qs Hqs g Hg. injection Hqs as <-. destruct Hg.
    + split; [discriminate|].
      intros qs -> g Hg.
      eapply build_queryset_ranges_narrows in Hrun; [|exact Hg].
      apply in_rows_filter in Hrun. destruct Hrun as [_ Hid].
      rewrite matches_id_in in Hid. now apply existsb_Zeqb.
Qed.

Lemma query_tags_inv cfg project sort_by a qs st tags o st' :
  caller_tags st = Some tags -> tags <> ∅ ->
  EnvironmentDjangoSearchBackend.query_tags cfg project sort_by a qs st
  = (o, st') ->
  (get_group_ids_for_search_filter cfg (project_id project) None tags = [] ->
   o = Ok (BareQuerySet (qs_none qs))
   /\ st' = mkState (Some tags)
              (calls st ++ [TagstoreSearch (project_id project) None tags])%list)
  /\ (forall r, o = Ok r -> forall g, In g (result_set r) ->
      In (g_id g)
        (get_group_ids_for_search_filter cfg (project_id project) None tags)).
Proof.
  intros Htags Hne. unfold EnvironmentDjangoSearchBackend.query_tags.
  cbv zeta. unfold bind at 1. unfold get_tags. rewrite Htags.
  rewrite (tags_truthy_nonempty tags Hne). cbn [default from_option id].
  intros Hrun. apply bind_inv in Hrun.
  destruct Hrun as [[e [He _]]|(u & st1 & Hcall & Hrun)].
  { apply record_call_inv in He. destruct He; discriminate. }
  apply record_call_inv in Hcall. destruct Hcall as [_ ->].
  rewrite Htags in Hrun.
  destruct (get_group_ids_for_search_filter cfg (project_id project) None tags)
    as [|m ms] eqn:Hmatches.
  - apply ret_inv in Hrun. destruct Hrun as [-> ->]. split.
    + auto.
    + intros r Hr g Hg. injection Hr as <-. destruct Hg.
  - split; [discriminate|]. intros r -> g Hg.
    apply query_paginate_rows in Hrun. destruct Hrun as [Hr _].
    rewrite Hr in Hg. apply in_rows_filter in Hg. destruct Hg as [_ Hid].
    rewrite matches_id_in in Hid. now apply existsb_Zeqb.
Qed.

(** The branch without environment reaches the [tags] filter unless
    the assertion, the sort strategy or a builder raises; until then
    the state is untouched. *)
Lemma env_query_reaches_tags cfg db project a st o st' :
  environment_id a = None ->
  EnvironmentDjangoSearchBackend.query cfg db project a st = (o, st') ->
  (exists e, o = Raise e /\ st' = st)
  \/ (exists qs,
        EnvironmentDjangoSearchBackend.query_tags cfg project
          (default "date" (sort_by a)) a qs st = (o, st')).
Proof.
  intros Henv. unfold EnvironmentDjangoSearchBackend.query. cbv zeta.
  rewrite Henv. intros Hrun.
  apply bind_inv in Hrun.
  destruct Hrun as [[e [He ->]]|(u & st1 & Hassert & Hrun)].
  { apply assert_inv in He. destruct He as [-> _]. left. eauto. }
  apply assert_inv in Hassert. destruct Hassert as [-> _].
  apply bind_inv in Hrun.
  destruct Hrun as [[e [He ->]]|(strategy & st1 & Hstrategy & Hrun)].
  { apply lift_inv in He. destruct He as [_ ->]. left. eauto. }
  apply lift_inv in Hstrategy. destruct Hstrategy as [_ ->].
  destruct strategy as [sort_expression value_to_cursor_score].
  apply bind_inv in Hrun.
  destruct Hrun as [[e [He ->]]|(q1 & st1 & Hbase & Hrun)].
  { apply lift_inv in He. destruct He as [_ ->]. left. eauto. }
  apply lift_inv in Hbase. destruct Hbase as [_ ->].
  apply bind_inv in Hrun.
  destruct Hrun as [[e [He ->]]|(q2 & st1 & Hplain & Hrun)].
  { apply lift_inv in He. destruct He as [_ ->]. left. eauto. }
  apply lift_inv in Hplain. destruct Hplain as [_ ->].
  right. eauto.
Qed.

(** ** Filters commute with the rest of the pipeline *)

Lemma stage_where {A} (c : bool) (p q : A -> bool) (qs : QuerySet A) :
  (if c then qs_where q else id) (qs_where p qs)
  = qs_where p ((if c then qs_where q else id) qs).
Proof. destruct c; [apply qs_where_swap|reflexivity]. Qed.

Lemma stage_filter {A} `{Model A} (c : bool) params (p : A -> bool)
  (qs : QuerySet A) :
  (if c then qs_filter params else id) (qs_where p qs)
  = qs_where p ((if c then qs_filter params else id) qs).
Proof. destruct c; [apply qs_where_swap|reflexivity]. Qed.

Lemma filter_where {A} `{Model A} params (p : A -> bool) (qs : QuerySet A) :
  qs_filter params (qs_where p qs) = qs_where p (qs_filter params qs).
Proof. apply qs_where_swap. Qed.

Lemma extra_select_where {A} name sql (p : A -> bool) (qs : QuerySet A) :
  qs_extra_select name sql (qs_where p qs)
  = qs_where p (qs_extra_select name sql qs).
Proof. reflexivity. Qed.

Lemma none_where {A} (p : A -> bool) (qs : QuerySet A) :
  qs_none (qs_where p qs) = qs_where p (qs_none qs).
Proof. reflexivity. Qed.

Lemma build_queryset_ranges_where cfg db project sort_by kw p qs st :
  DjangoSearchBackend._build_queryset_ranges cfg db project sort_by kw
    (qs_where p qs) st
  = map_outcome_state (qs_where p)
      (DjangoSearchBackend._build_queryset_ranges cfg db project sort_by kw
         qs st).
Proof.
  unfold DjangoSearchBackend._build_queryset_ranges. cbv zeta.
  rewrite !stage_filter.
  set (q := (if negb (is_None _) || negb (is_None _) then _ else _) _).
  clearbody q. run_monad_goal.
  destruct (truthy _ || truthy _);
    [destruct (negb _ || _)|];
    destruct (getitem _ sort_by); cbn [map_outcome_state];
    rewrite ?filter_where, ?extra_select_where; reflexivity.
Qed.

(** ** Removing one keyword *)

Lemma arg_delete_ne (kw : gmap string pyval) k name d :
  k <> name -> arg (delete k kw) name d = arg kw name d.
Proof. intros Hne. unfold arg. now rewrite lookup_delete_ne. Qed.

Lemma arg_delete_eq (kw : gmap string pyval) k d : arg (delete k kw) k d = d.
Proof. unfold arg. now rewrite lookup_delete_eq. Qed.

Lemma arg_given (kw : gmap string pyval) name v d :
  kw !! name = Some v -> arg kw name d = v.
Proof. intros Hv. unfold arg. now rewrite Hv. Qed.

Lemma filter_andb {A} (p q : A -> bool) (l : list A) :
  List.filter (fun x => p x && q x) l = List.filter q (List.filter p l).
Proof.
  induction l as [|x l IH]; simpl; [reflexivity|].
  destruct (p x); simpl; [destruct (q x)|]; now rewrite IH.
Qed.

Lemma qs_filter_cons {A} `{Model A} name v params (qs : QuerySet A) :
  qs_filter ((name, v) :: params) qs
  = qs_filter params (qs_where (matches_lookup name v) qs).
Proof.
  unfold qs_filter, qs_where; simpl. f_equal. apply filter_andb.
Qed.

Lemma qs_filter_nil {A} `{Model A} (qs : QuerySet A) : qs_filter [] qs = qs.
Proof. apply qs_where_all. Qed.

Lemma build_queryset_ranges_age_from cfg db project sort_by kw T qs st :
  kw !! "age_from" = Some (VDate T) ->
  DjangoSearchBackend._build_queryset_ranges cfg db project sort_by kw qs st
  = DjangoSearchBackend._build_queryset_ranges cfg db project sort_by
      (delete "age_from" kw)
      (qs_where (matches_lookup
                   (age_from_lookup (arg kw "age_from_inclusive" (VBool true)))
                   (VDate T)) qs) st.
Proof.
  intros Hfrom. unfold DjangoSearchBackend._build_queryset_ranges. cbv zeta.
  rewrite !arg_delete_eq. rewrite !arg_delete_ne by discriminate.
  rewrite !(arg_given kw "age_from" (VDate T)) by exact Hfrom.
  set (i := arg kw "age_from_inclusive" (VBool true)).
  set (to_ := arg kw "age_to" VNone).
  set (ti := arg kw "age_to_inclusive" (VBool true)).
  assert (Hstage :
    (if truthy (VDate T) || truthy to_
     then qs_filter (range_params "first_seen" (truthy (VDate T)) (VDate T) i
                       (truthy to_) to_ ti)
     else id) qs
    = (if truthy VNone || truthy to_
       then qs_filter (range_params "first_seen" (truthy VNone) VNone i
                         (truthy to_) to_ ti)
       else id)
        (qs_where (matches_lookup (age_from_lookup i) (VDate T)) qs)).
  { cbn [truthy orb]. unfold range_params, age_from_lookup.
    cbn [app]. rewrite qs_filter_cons.
    destruct (truthy to_); [reflexivity|apply qs_filter_nil]. }
  rewrite Hstage. reflexivity.
Qed.

Lemma build_queryset_age_from cfg db project tags sort_by env kw T st :
  kw !! "age_from" = Some (VDate T) ->
  DjangoSearchBackend._build_queryset cfg db project tags sort_by env kw st
  = map_outcome_state
      (qs_where (matches_lookup
                   (age_from_lookup (arg kw "age_from_inclusive" (VBool true)))
                   (VDate T)))
      (DjangoSearchBackend._build_queryset cfg db project tags sort_by env
         (delete "age_from" kw) st).
Proof.
  intros Hfrom. unfold DjangoSearchBackend._build_queryset. cbv zeta.
  rewrite !arg_delete_ne by discriminate.
  set (q := (if negb (is_None _) then _ else _) _). clearbody q.
  destruct (truthy _ && is_EMPTY _); [reflexivity|].
  set (q' := (if truthy _ then _ else _) q). clearbody q'.
  destruct (tags_truthy tags).
  - run_monad_goal.
    destruct (get_group_ids_for_search_filter _ _ _ _); [reflexivity|].
    rewrite (build_queryset_ranges_age_from _ _ _ _ _ T) by exact Hfrom.
    now rewrite build_queryset_ranges_where.
  - rewrite (build_queryset_ranges_age_from _ _ _ _ _ T) by exact Hfrom.
    now rewrite build_queryset_ranges_where.
Qed.

Lemma accepts_spec (kw : gmap string pyval) :
  DjangoSearchBackend.accepts kw = true
  <-> forall k, is_Some (kw !! k) ->
                existsb (String.eqb k) DjangoSearchBackend.parameters = true.
Proof.
  unfold DjangoSearchBackend.accepts. rewrite forallb_forall. split.
  - intros Hall k [v Hv]. apply Hall. apply in_map_iff. exists (k, v).
    split; [reflexivity|]. now apply list_elem_of_In, elem_of_map_to_list.
  - intros Hall k Hk. apply in_map_iff in Hk. destruct Hk as [[k' v] [<- Hin]].
    apply Hall. apply list_elem_of_In, elem_of_map_to_list in Hin.
    simpl. eauto.
Qed.

Lemma accepts_delete (kw : gmap string pyval) k :
  existsb (String.eqb k) DjangoSearchBackend.parameters = true ->
  DjangoSearchBackend.accepts (delete k kw) = DjangoSearchBackend.accepts kw.
Proof.
  intros Hk. apply eq_true_iff_eq. rewrite !accepts_spec. split.
  - intros Hall k' Hk'. destruct (decide (k = k')) as [<-|Hne]; [exact Hk|].
    apply Hall. now rewrite lookup_delete_ne.
  - intros Hall k' Hk'. apply Hall.
    destruct (decide (k = k')) as [<-|Hne].
    + rewrite lookup_delete_eq in Hk'. destruct Hk' as [? ?]. discriminate.
    + now rewrite lookup_delete_ne in Hk'.
Qed.

Lemma plain_query_age_from cfg db project a T st :
  kwargs a !! "age_from" = Some (VDate T) ->
  filtered_by
    (matches_lookup
       (age_from_lookup (arg (kwargs a) "age_from_inclusive" (VBool true)))
       (VDate T))
    (DjangoSearchBackend.query cfg db project a st)
    (DjangoSearchBackend.query cfg db project
       (with_kwargs a (delete "age_from" (kwargs a))) st).
Proof.
  intros Hfrom. unfold DjangoSearchBackend.query.
  cbn [kwargs with_kwargs sort_by limit cursor count_hits paginator_options
       environment_id].
  rewrite accepts_delete by (vm_compute; reflexivity).
  destruct (DjangoSearchBackend.accepts (kwargs a)); cbn [negb].
  2:{ split; reflexivity. }
  cbv zeta. unfold bind, get_tags.
  rewrite (build_queryset_age_from cfg db project _ _ _ (kwargs a) T)
    by exact Hfrom.
  destruct (DjangoSearchBackend._build_queryset _ _ _ _ _ _ _ _)
    as [[qs|e] st1]; cbn [map_outcome_state].
  - destruct (paginator_for _) as [cls clause]. split; reflexivity.
  - split; reflexivity.
Qed.

(** ** C6: the inclusive flag of a scalar range *)

Lemma compare_gt (a b : Z) :
  match a ?= b with Gt => true | _ => false end = (b <? a).
Proof. rewrite Z.compare_antisym. unfold Z.ltb. now destruct (b ?= a). Qed.

Lemma compare_ge (a b : Z) :
  match a ?= b with Gt | Eq => true | _ => false end = (b <=? a).
Proof. rewrite Z.compare_antisym. unfold Z.leb. now destruct (b ?= a). Qed.

Lemma compare_lt (a b : Z) :
  match a ?= b with Lt => true | _ => false end = (a <? b).
Proof. reflexivity. Qed.

Lemma compare_le (a b : Z) :
  match a ?= b with Lt | Eq => true | _ => false end = (a <=? b).
Proof. unfold Z.leb. now destruct (a ?= b). Qed.

(** Evaluate the lookup name and the column it reads. *)
Ltac eval_lookup :=
  unfold matches_lookup;
  match goal with
  | |- context [parse_lookup ?n] =>
      let x := eval vm_compute in (parse_lookup n) in
      replace (parse_lookup n) with x by (vm_compute; reflexivity)
  end;
  cbv beta iota;
  match goal with
  | |- context [column ?r ?f] =>
      let x := eval vm_compute in (column r f) in
      replace (column r f) with x by (vm_compute; reflexivity)
  end;
  cbv beta iota.

Lemma age_from_lookup_compares (g : Group) inclusive T :
  matches_lookup (age_from_lookup inclusive) (VDate T) g
  = compares true (truthy inclusive) T (g_first_seen g).
Proof.
  unfold age_from_lookup. destruct (truthy inclusive); eval_lookup;
    cbn [lookup_holds sql_compare compares].
  - apply compare_ge.
  - apply compare_gt.
Qed.

Ltac scalar_keeps :=
  let qs := fresh "qs" in
  let kw := fresh "kw" in
  let T := fresh "T" in
  let inclusive := fresh "inclusive" in
  let Hv := fresh "Hv" in
  let Hi := fresh "Hi" in
  let r := fresh "r" in
  intros qs kw T inclusive Hv Hi;
  cbn [mk_filter sf_parameter sf_field sf_operator sf_lower sf_bound
       sf_column] in *;
  rewrite (build_scalar _ _ _ _ _ _ _ Hv Hi);
  eexists; split; [reflexivity|];
  unfold qs_filter, qs_where; cbn [rows];
  apply filter_ext; intros r; rewrite matches_all_one;
  destruct r; destruct (truthy inclusive); eval_lookup;
  cbn [g_active_at g_first_seen g_last_seen g_times_seen
       gtv_first_seen gtv_last_seen gtv_times_seen];
  repeat match goal with
    | |- context [match ?x with Some _ => _ | None => _ end] => destruct x
    end;
  cbn [lookup_holds sql_compare compares_column compares is_None];
  first [ apply compare_ge | apply compare_gt | apply compare_le
        | apply compare_lt | reflexivity ].

Lemma group_scalar_filters_keep :
  Forall scalar_filter_keeps group_scalar_filters.
Proof.
  unfold group_scalar_filters.
  repeat (apply List.Forall_cons; [scalar_keeps|]). apply List.Forall_nil.
Qed.

Lemma tag_value_scalar_filters_keep :
  Forall scalar_filter_keeps tag_value_scalar_filters.
Proof.
  unfold tag_value_scalar_filters.
  repeat (apply List.Forall_cons; [scalar_keeps|]). apply List.Forall_nil.
Qed.

Lemma group_scalar_filters_registered db project :
  Forall (scalar_filter_registered
            (EnvironmentDjangoSearchBackend.base_conditions db project
             ++ EnvironmentDjangoSearchBackend.plain_conditions db project))
    group_scalar_filters.
Proof.
  unfold group_scalar_filters, scalar_filter_registered.
  repeat (apply List.Forall_cons;
          [cbn [mk_filter sf_parameter sf_field sf_operator];
           apply in_or_app;
           unfold EnvironmentDjangoSearchBackend.base_conditions,
             EnvironmentDjangoSearchBackend.plain_conditions,
             EnvironmentDjangoSearchBackend.scalar_conditions;
           first [ solve [left; repeat first [left; reflexivity | right]]
                 | solve [right; repeat first [left; reflexivity | right]] ]
          |]).
  apply List.Forall_nil.
Qed.

Lemma tag_value_scalar_filters_registered :
  Forall (scalar_filter_registered
            EnvironmentDjangoSearchBackend.scalar_conditions)
    tag_value_scalar_filters.
Proof.
  unfold tag_value_scalar_filters, scalar_filter_registered.
  repeat (apply List.Forall_cons;
          [cbn [mk_filter sf_parameter sf_field sf_operator];
           unfold EnvironmentDjangoSearchBackend.scalar_conditions;
           solve [repeat first [left; reflexivity | right]]|]).
  apply List.Forall_nil.
Qed.

Ltac range_selects :=
  let g := fresh "g" in
  intros [] ? ? [] ? ? g; unfold range_params;
  repeat match goal with
    | |- context [truthy ?v] => destruct (truthy v)
    end;
  cbn [app]; rewrite ?matches_all_cons, ?matches_all_nil;
  destruct g; repeat eval_lookup;
  cbn [g_active_at g_first_seen g_last_seen g_times_seen];
  repeat match goal with
    | |- context [match ?x with Some _ => _ | None => _ end] => destruct x
    end;
  cbn [lookup_holds sql_compare compares_column compares is_None andb];
  rewrite ?compare_ge, ?compare_gt, ?compare_le, ?compare_lt, ?andb_true_r;
  reflexivity.

Lemma plain_ranges_select : Forall range_params_select plain_ranges.
Proof.
  unfold plain_ranges.
  repeat (apply List.Forall_cons; [unfold range_params_select; range_selects|]).
  apply List.Forall_nil.
Qed.

Lemma filtered_by_ext (p p' : Group -> bool) run run' :
  (forall g, p g = p' g) -> filtered_by p run run' -> filtered_by p' run run'.
Proof.
  intros Hext [Hst Hres]. split; [exact Hst|].
  destruct (fst run), (fst run'); try exact Hres.
  rewrite Hres. now apply filter_ext.
Qed.

(** C6.  The inclusive flag selects the operator.  Each scalar filter
    registered with [scalar_condition] (on Group rows and, in the
    environment branch, on GroupTagValue rows) keeps exactly the rows
    whose column is [>=] (upper bounds: [<=]) the bound when the flag
    is true and [>] (resp. [<]) it when the flag is false; the range
    dictionaries of the plain backend select the same way.  On the
    plain backend a call with [age_from=T] returns the result set of
    the same call without [age_from], filtered by [first_seen >= T] or,
    with [age_from_inclusive=False], by [first_seen > T]: an issue
    first seen at [T] is then left out and every issue first seen after
    [T] is kept. *)
Theorem scalar_range_boundary :
  (forall db project,
     Forall (scalar_filter_registered
               (EnvironmentDjangoSearchBackend.base_conditions db project
                ++ EnvironmentDjangoSearchBackend.plain_conditions db project))
       group_scalar_filters)
  /\ Forall (scalar_filter_registered
               EnvironmentDjangoSearchBackend.scalar_conditions)
       tag_value_scalar_filters
  /\ Forall scalar_filter_keeps group_scalar_filters
  /\ Forall scalar_filter_keeps tag_value_scalar_filters
  /\ Forall range_params_select plain_ranges
  /\ (forall cfg db project a T st,
        kwargs a !! "age_from" = Some (VDate T) ->
        filtered_by
          (fun g => compares true
                      (truthy (arg (kwargs a) "age_from_inclusive" (VBool true)))
                      T (g_first_seen g))
          (DjangoSearchBackend.query cfg db project a st)
          (DjangoSearchBackend.query cfg db project
             (with_kwargs a (delete "age_from" (kwargs a))) st))
  /\ (forall T x, compares true false T x = true <-> T < x)
  /\ (forall T x, compares true true T x = true <-> T <= x)
  /\ (forall T x, compares false false T x = true <-> x < T)
  /\ (forall T x, compares false true T x = true <-> x <= T).
Proof.
  split; [exact group_scalar_filters_registered|].
  split; [exact tag_value_scalar_filters_registered|].
  split; [exact group_scalar_filters_keep|].
  split; [exact tag_value_scalar_filters_keep|].
  split; [exact plain_ranges_select|].
  split.
  { intros cfg db project a T st Hfrom.
    eapply filtered_by_ext; [|apply plain_query_age_from; exact Hfrom].
    intros g. apply age_from_lookup_compares. }
  unfold compares. repeat split; intros; lia.
Qed.

Lemma scalar_range_boundary_witness :
  let a :=
    Example.args {[ "age_from" := VDate 100;
                    "age_from_inclusive" := VBool false ]} in
  kwargs a !! "age_from" = Some (VDate 100)
  /\ Example.ids
       (DjangoSearchBackend.query Example.settings Example.db Example.project
          (with_kwargs a (delete "age_from" (kwargs a))) Example.no_tags)
     = Ok [1; 3]
  /\ Example.ids
       (DjangoSearchBackend.query Example.settings Example.db Example.project
          a Example.no_tags)
     = Ok [3]
  /\ filtered_by (fun g => compares true false 100 (g_first_seen g))
       (DjangoSearchBackend.query Example.settings Example.db Example.project
          a Example.no_tags)
       (DjangoSearchBackend.query Example.settings Example.db Example.project
          (with_kwargs a (delete "age_from" (kwargs a))) Example.no_tags).
Proof.
  intros a.
  assert (Hfrom : kwargs a !! "age_from" = Some (VDate 100))
    by (vm_compute; reflexivity).
  split; [exact Hfrom|].
  split; [vm_compute; reflexivity|].
  split; [vm_compute; reflexivity|].
  exact (proj1 (proj2 (proj2 (proj2 (proj2 (proj2 scalar_range_boundary)))))
           Example.settings Example.db Example.project a 100 Example.no_tags
           Hfrom).
Defined.

(** ** C10: the caller's [tags] mapping *)

(** One step of a run, whatever its outcome: the run stops here with
    an exception or goes on from the state the step leaves. *)
Tactic Notation "step" hyp(H) ident(a) ident(Ha) :=
  let ex := fresh "ex" in
  let st1 := fresh "st" in
  apply bind_inv in H;
  destruct H as [[ex [Ha ->]]|(a & st1 & Ha & H)];
  [ lazymatch type of Ha with
    | assert_ _ _ = _ => apply assert_inv in Ha; destruct Ha as [-> Ha]
    | lift _ _ = _ => apply lift_inv in Ha; destruct Ha as [Ha ->]
    | put_tags _ _ = _ =>
        apply put_tags_inv in Ha; destruct Ha as [Ha _]; discriminate Ha
    | get_tags _ = _ =>
        apply get_tags_inv in Ha; destruct Ha as [Ha _]; discriminate Ha
    | record_call _ _ = _ =>
        apply record_call_inv in Ha; destruct Ha as [Ha _]; discriminate Ha
    | ret _ _ = _ => apply ret_inv in Ha; destruct Ha as [Ha _]; discriminate Ha
    | raise _ _ = _ => apply raise_inv in Ha; destruct Ha as [Ha ->]
    | _ => idtac
    end
  | simpl_step Ha ].

Lemma env_query_tags_effect cfg db project a st e o st' :
  environment_id a = Some e ->
  EnvironmentDjangoSearchBackend.query cfg db project a st = (o, st') ->
  (exists ex, o = Raise ex /\ st' = st)
  \/ (exists tags name environment,
        caller_tags st = Some tags
        /\ tags !! "environment" = Some name
        /\ EnvironmentDjangoSearchBackend.get_environment db project name
           = Ok environment
        /\ env_id environment = e
        /\ st' = mkState (Some (delete "environment" tags)) (calls st)).
Proof.
  intros Henv. unfold EnvironmentDjangoSearchBackend.query. cbv zeta.
  rewrite Henv. intros Hrun.
  step Hrun u Hassert; [left; eauto|].
  step Hrun strategy Hstrategy; [left; eauto|].
  destruct strategy as [sort_expression value_to_cursor_score].
  step Hrun q1 Hbase; [left; eauto|].
  step Hrun tags_ Htags.
  destruct (caller_tags st) as [tags|] eqn:Hct.
  2:{ apply bind_inv in Hrun.
      destruct Hrun as [[ex [Hraise ->]]|(t & st1 & Hraise & _)];
        apply raise_inv in Hraise; destruct Hraise as [Hr Hst];
        [left; eauto|discriminate]. }
  step Hrun tags' Htags'.
  step Hrun u1 Hin; [left; eauto|].
  step Hrun name Hname; [left; eauto|].
  step Hrun environment Hget; [left; eauto|].
  step Hrun u2 Hid; [left; eauto|].
  step Hrun q2 Hjoin; [left; eauto|].
  step Hrun value Hvalue; [left; eauto|].
  step Hrun u3 Hput.
  right. exists tags, name, environment.
  unfold getitem in Hname. destruct (tags !! "environment") as [n|] eqn:Hn;
    [injection Hname as ->|discriminate].
  apply Z.eqb_eq in Hid.
  repeat (split; [solve [auto]|]).
  step Hrun q3 Hscalar; [reflexivity|].
  step Hrun data Hdata; [reflexivity|].
  step Hrun ids Hpage; [reflexivity|].
  apply ret_inv in Hrun. now destruct Hrun.
Qed.

Lemma env_query_asserts cfg db project a st e strategy q1 tags :
  environment_id a = Some e ->
  kwargs a !! "date_from" = None ->
  sort_strategies cfg !! default "date" (sort_by a) = Some strategy ->
  QueryBuilder.build (EnvironmentDjangoSearchBackend.base_conditions db project)
    (environment_base db project) (kwargs a) = Ok q1 ->
  caller_tags st = Some tags ->
  tags !! "environment" = None
  \/ (exists name environment,
        tags !! "environment" = Some name
        /\ EnvironmentDjangoSearchBackend.get_environment db project name
           = Ok environment
        /\ env_id environment <> e) ->
  EnvironmentDjangoSearchBackend.query cfg db project a st
  = (Raise AssertionError, st).
Proof.
  intros Henv Hdate Hstrategy Hbase Htags Hbad.
  unfold EnvironmentDjangoSearchBackend.query. cbv zeta.
  rewrite Henv. unfold environment_base in Hbase.
  assert (Hnot : bool_decide ("date_from" ∈ dom (kwargs a)) = false).
  { apply bool_decide_eq_false_2. rewrite elem_of_dom, Hdate.
    intros [? ?]. discriminate. }
  unfold bind at 1. rewrite Hnot. cbn [negb andb assert_ ret].
  unfold bind at 1. unfold getitem. rewrite Hstrategy. cbn [lift].
  destruct strategy as [sort_expression value_to_cursor_score].
  unfold bind at 1. rewrite Hbase. cbn [lift].
  unfold bind at 1. unfold get_tags. rewrite Htags.
  unfold bind at 1. cbn [ret].
  destruct Hbad as [Hnone|[name [environment [Hname [Hget Hid]]]]].
  - unfold bind at 1.
    rewrite (bool_decide_eq_false_2 ("environment" ∈ dom tags)); [reflexivity|].
    rewrite elem_of_dom, Hnone. intros [? ?]. discriminate.
  - unfold bind at 1.
    rewrite (bool_decide_eq_true_2 ("environment" ∈ dom tags))
      by (rewrite elem_of_dom, Hname; eauto).
    cbn [assert_ ret]. unfold bind at 1. rewrite Hname. cbn [lift].
    unfold bind at 1. rewrite Hget. cbn [lift].
    unfold bind at 1.
    rewrite (proj2 (Z.eqb_neq _ _) Hid). reflexivity.
Qed.

(** C10.  On an environment-scoped call (environment_id not None) the
    caller's [tags] mapping is the only part of the state the call can
    change, and it changes it by popping ['environment'].  A call that
    returns has found ['environment'] in [tags], has resolved it to the
    Environment of the project whose id is [environment_id], and leaves
    the mapping without that key; the tag intersection runs on the
    mapping so popped.  A call that raises leaves the mapping either
    untouched or popped (when a scalar handler or the paginator raises
    after the pop).
    When the call gets as far as the assertions, a [tags] without
    ['environment'], or one whose environment has another id, raises
    [AssertionError] and leaves the mapping untouched. *)
Theorem query_pops_environment cfg db project a st e :
  environment_id a = Some e ->
  (forall o st',
     EnvironmentDjangoSearchBackend.query cfg db project a st = (o, st') ->
     calls st' = calls st
     /\ (caller_tags st' = caller_tags st
         \/ exists tags,
              caller_tags st = Some tags
              /\ is_Some (tags !! "environment")
              /\ caller_tags st' = Some (delete "environment" tags))
     /\ (forall r, o = Ok r ->
         exists tags name environment,
           caller_tags st = Some tags
           /\ tags !! "environment" = Some name
           /\ EnvironmentDjangoSearchBackend.get_environment db project name
              = Ok environment
           /\ env_id environment = e
           /\ caller_tags st' = Some (delete "environment" tags)
           /\ delete "environment" tags !! "environment" = None))
  /\ (forall strategy q1 tags,
        kwargs a !! "date_from" = None ->
        sort_strategies cfg !! default "date" (sort_by a) = Some strategy ->
        QueryBuilder.build
          (EnvironmentDjangoSearchBackend.base_conditions db project)
          (environment_base db project) (kwargs a) = Ok q1 ->
        caller_tags st = Some tags ->
        tags !! "environment" = None
        \/ (exists name environment,
              tags !! "environment" = Some name
              /\ EnvironmentDjangoSearchBackend.get_environment db project name
                 = Ok environment
              /\ env_id environment <> e) ->
        EnvironmentDjangoSearchBackend.query cfg db project a st
        = (Raise AssertionError, st)).
Proof.
  intros Henv. split.
  - intros o st' Hrun.
    destruct (env_query_tags_effect _ _ _ _ _ _ _ _ Henv Hrun)
      as [[ex [-> ->]]
         |[tags [name [environment [Hct [Hname [Hget [Hid ->]]]]]]]].
    + split; [reflexivity|]. split; [now left|discriminate].
    + split; [reflexivity|]. split.
      * right. exists tags. rewrite Hname. eauto.
      * intros r _. exists tags, name, environment.
        repeat (split; [solve [auto]|]). apply lookup_delete_eq.
  - intros strategy q1 tags. now apply env_query_asserts.
Qed.

Lemma query_pops_environment_witness :
  let st :=
    Example.with_tags {[ "environment" := VStr "prod";
                         "browser" := VStr "firefox" ]} in
  let run :=
    EnvironmentDjangoSearchBackend.query Example.settings Example.db
      Example.project (Example.env_args ∅) st in
  Example.ids run = Ok [3]
  /\ caller_tags (snd run) = Some {[ "browser" := VStr "firefox" ]}
  /\ exists tags name environment,
       caller_tags st = Some tags
       /\ tags !! "environment" = Some name
       /\ EnvironmentDjangoSearchBackend.get_environment Example.db
            Example.project name = Ok environment
       /\ env_id environment = 9
       /\ caller_tags (snd run) = Some (delete "environment" tags)
       /\ delete "environment" tags !! "environment" = None.
Proof.
  intros st run.
  split; [vm_compute; reflexivity|].
  split; [vm_compute; reflexivity|].
  destruct (fst run) as [r|ex] eqn:Hfst;
    [|vm_compute in Hfst; discriminate Hfst].
  apply (proj2 (proj2 (proj1 (query_pops_environment Example.settings
                                Example.db Example.project (Example.env_args ∅)
                                st 9 eq_refl)
                         (fst run) (snd run) (surjective_pairing run))) r).
  exact Hfst.
Defined.

(** ** The priority score and the ranked sequence *)

Local Open Scope R_scope.

Lemma Int_part_IZR (z : Z) : Int_part (IZR z) = z.
Proof.
  unfold Int_part.
  assert (Hup : (z + 1)%Z = up (IZR z)).
  { apply tech_up; rewrite plus_IZR; simpl; lra. }
  rewrite <- Hup. lia.
Qed.

Lemma trunc_IZR (z : Z) : trunc (IZR z) = z.
Proof.
  unfold trunc. destruct (Rle_dec 0 (IZR z)) as [Hpos|Hneg].
  - apply Int_part_IZR.
  - rewrite <- opp_IZR, Int_part_IZR. lia.
Qed.

Lemma ln_10_pos : 0 < ln 10.
Proof. rewrite <- ln_1. apply ln_increasing; lra. Qed.

Lemma log10_10 : log10 10 = 1.
Proof. unfold log10. field. apply Rgt_not_eq, ln_10_pos. Qed.

Lemma log10_100 : log10 100 = 2.
Proof.
  unfold log10. replace 100 with (10 * 10) by lra.
  rewrite ln_mult by lra. field. apply Rgt_not_eq, ln_10_pos.
Qed.

Local Close Scope R_scope.

Lemma priority_score_100 (s : Z) :
  trunc (log10 (IZR 100) * 600 + IZR s) = (1200 + s)%Z.
Proof.
  rewrite log10_100.
  replace (2 * 600 + IZR s)%R with (IZR (1200 + s)) by (rewrite plus_IZR; lra).
  apply trunc_IZR.
Qed.

Lemma priority_score_10 (s : Z) :
  trunc (log10 (IZR 10) * 600 + IZR s) = (600 + s)%Z.
Proof.
  rewrite log10_10.
  replace (1 * 600 + IZR s)%R with (IZR (600 + s)) by (rewrite plus_IZR; lra).
  apply trunc_IZR.
Qed.

Section Ranked.
Import SequencePaginator.

Lemma precedes_spec (a b : Z * Z) :
  precedes a b = true
  <-> fst b < fst a \/ (fst b = fst a /\ snd b <= snd a).
Proof.
  unfold precedes.
  rewrite orb_true_iff, andb_true_iff, Z.ltb_lt, Z.eqb_eq, Z.leb_le.
  reflexivity.
Qed.

Lemma before_total a b : before a b \/ before b a.
Proof. unfold before. rewrite !precedes_spec. lia. Qed.

Lemma before_trans a b c : before a b -> before b c -> before a c.
Proof. unfold before. rewrite !precedes_spec. lia. Qed.

Lemma before_antisym a b : before a b -> before b a -> a = b.
Proof.
  unfold before. rewrite !precedes_spec. destruct a, b; simpl.
  intros H1 H2. f_equal; lia.
Qed.

Lemma before_refl a : before a a.
Proof. unfold before. rewrite precedes_spec. lia. Qed.

Lemma insert_sorted x l :
  StronglySorted before l -> StronglySorted before (insert x l).
Proof.
  induction 1 as [|y l Hl IH Hy]; simpl.
  - repeat constructor.
  - destruct (precedes x y) eqn:Hxy.
    + constructor; [now constructor|].
      constructor; [exact Hxy|].
      rewrite List.Forall_forall in *. intros z Hz.
      eapply before_trans; [exact Hxy|now apply Hy].
    + constructor; [exact IH|].
      rewrite List.Forall_forall in *. intros z Hz.
      apply (Permutation_in z (insert_permutation x l)) in Hz.
      destruct Hz as [<-|Hz]; [|now apply Hy].
      destruct (before_total x y) as [Hb|Hb]; [|exact Hb].
      unfold before in Hb. congruence.
Qed.

Lemma ranked_sorted data : StronglySorted before (ranked data).
Proof.
  unfold ranked. induction data as [|x data IH]; simpl.
  - constructor.
  - now apply insert_sorted.
Qed.

Lemma sorted_unique (l l' : list (Z * Z)) :
  StronglySorted before l -> StronglySorted before l' ->
  Permutation l l' -> l = l'.
Proof.
  intros Hl. revert l'. induction Hl as [|x l Hl IH Hx]; intros l' Hl' Hperm.
  - apply Permutation_nil in Hperm. now subst.
  - destruct Hl' as [|y l' Hl' Hy].
    + symmetry in Hperm. apply Permutation_nil in Hperm. discriminate.
    + assert (x = y) as ->.
      { rewrite List.Forall_forall in Hx, Hy.
        assert (Hxin : In x (y :: l'))
          by (eapply Permutation_in; [exact Hperm|now left]).
        assert (Hyin : In y (x :: l))
          by (eapply Permutation_in; [symmetry; exact Hperm|now left]).
        destruct Hxin as [->|Hxin]; [reflexivity|].
        destruct Hyin as [->|Hyin]; [reflexivity|].
        apply before_antisym; auto. }
      f_equal. apply IH; [exact Hl'|].
      eapply Permutation_cons_inv; exact Hperm.
Qed.

Lemma ranked_unique data data' :
  Permutation data data' -> ranked data = ranked data'.
Proof.
  intros Hperm. apply sorted_unique; try apply ranked_sorted.
  rewrite !ranked_permutation. exact Hperm.
Qed.

(** In a ranked sequence an entry that strictly precedes another one
    stands before it. *)
Lemma sorted_order (l : list (Z * Z)) a b :
  StronglySorted before l -> In a l -> In b l -> ~ before b a ->
  exists l1 l2 l3, l = (l1 ++ a :: l2 ++ b :: l3)%list.
Proof.
  induction 1 as [|x l Hl IH Hx]; intros Ha Hb Hnot; [destruct Ha|].
  rewrite List.Forall_forall in Hx.
  destruct Ha as [->|Ha].
  - destruct Hb as [->|Hb]; [exfalso; apply Hnot, before_refl|].
    apply in_split in Hb. destruct Hb as [l2 [l3 ->]].
    exists [], l2, l3. reflexivity.
  - destruct Hb as [->|Hb]; [exfalso; now apply Hnot, Hx|].
    destruct (IH Ha Hb Hnot) as [l1 [l2 [l3 ->]]].
    exists (x :: l1), l2, l3. reflexivity.
Qed.

End Ranked.

Lemma sort_strategies_priority cfg :
  sort_strategies cfg !! "priority" = Some (priority_expression, int).
Proof. reflexivity. Qed.

Lemma eval_priority_expression (r : GroupTagValue) last_seen :
  gtv_last_seen r = Some last_seen ->
  eval_sort_expression priority_expression r
  = SqlFloat (log10 (IZR (gtv_times_seen r)) * 600
              + IZR (abstime_int last_seen)).
Proof.
  intros Hls. unfold eval_sort_expression.
  now rewrite String.eqb_refl, Hls.
Qed.

(** ** The plain backend ignores [unassigned] next to [assigned_to] *)

Lemma build_queryset_ranges_unassigned cfg db project sort_by kw qs st :
  DjangoSearchBackend._build_queryset_ranges cfg db project sort_by
    (delete "unassigned" kw) qs st
  = DjangoSearchBackend._build_queryset_ranges cfg db project sort_by kw qs st.
Proof.
  unfold DjangoSearchBackend._build_queryset_ranges. cbv zeta.
  rewrite !arg_delete_ne by discriminate. reflexivity.
Qed.

Lemma plain_assigned_to_wins cfg db project a st :
  truthy (arg (kwargs a) "assigned_to" VNone) = true ->
  DjangoSearchBackend.query cfg db project a st
  = DjangoSearchBackend.query cfg db project
      (with_kwargs a (delete "unassigned" (kwargs a))) st.
Proof.
  intros Hassigned. unfold DjangoSearchBackend.query.
  cbn [kwargs with_kwargs sort_by limit cursor count_hits paginator_options
       environment_id].
  rewrite accepts_delete by (vm_compute; reflexivity).
  destruct (DjangoSearchBackend.accepts (kwargs a)); cbn [negb];
    [|reflexivity].
  cbv zeta. unfold bind, get_tags.
  assert (Hbuild : forall tags sort_by env,
    DjangoSearchBackend._build_queryset cfg db project tags sort_by env
      (delete "unassigned" (kwargs a)) st
    = DjangoSearchBackend._build_queryset cfg db project tags sort_by env
        (kwargs a) st).
  { intros tags sort_by env. unfold DjangoSearchBackend._build_queryset.
    cbv zeta. rewrite !arg_delete_eq. rewrite !arg_delete_ne by discriminate.
    rewrite Hassigned.
    destruct (truthy _ && is_EMPTY _); [reflexivity|].
    destruct (tags_truthy tags).
    - run_monad_goal.
      destruct (get_group_ids_for_search_filter _ _ _ _); [reflexivity|].
      now rewrite build_queryset_ranges_unassigned.
    - now rewrite build_queryset_ranges_unassigned. }
  now rewrite Hbuild.
Qed.

(** * Further properties of the code *)

(** ** Project isolation *)

Lemma build_queryset_project cfg db project tags sort_by env kw st qs st' :
  DjangoSearchBackend._build_queryset cfg db project tags sort_by env kw st
  = (Ok qs, st') ->
  forall g, In g (rows qs) -> g_project g = project_id project.
Proof.
  unfold DjangoSearchBackend._build_queryset. cbv zeta.
  intros Hrun g Hg.
  set (base := qs_where (fun g => g_project g =? project_id project) _) in Hrun.
  assert (Hbase : In g (rows base)).
  { clearbody base. run_monad Hrun.
    destruct (truthy _ && is_EMPTY _).
    - inversion Hrun; subst. destruct Hg.
    - destruct (tags_truthy tags).
      + destruct (get_group_ids_for_search_filter _ _ _ _).
        * inversion Hrun; subst. destruct Hg.
        * eapply build_queryset_ranges_narrows in Hrun; [|exact Hg].
          narrow Hrun. exact Hrun.
      + eapply build_queryset_ranges_narrows in Hrun; [|exact Hg].
        narrow Hrun. exact Hrun. }
  subst base. apply in_rows_where in Hbase. now apply Z.eqb_eq.
Qed.

(** X1.  Both backends only return issues of the project searched. *)
Theorem project_isolation cfg db project a st r st' :
  List.NoDup (map g_id (groups db)) ->
  DjangoSearchBackend.query cfg db project a st = (Ok r, st')
  \/ EnvironmentDjangoSearchBackend.query cfg db project a st = (Ok r, st') ->
  forall g, In g (result_set r) -> g_project g = project_id project.
Proof.
  intros Hnd [Hrun|Hrun] g Hg.
  - unfold DjangoSearchBackend.query in Hrun.
    destruct (negb _); [discriminate|].
    cbv zeta in Hrun. run_monad Hrun.
    destruct (DjangoSearchBackend._build_queryset _ _ _ _ _ _ _ _)
      as [[qs|e] st1] eqn:Hb; [|discriminate].
    destruct (paginator_for _) as [cls clause].
    inversion Hrun; subst. simpl in Hg.
    eapply build_queryset_project; eassumption.
  - destruct (env_query_base _ _ _ _ _ _ _ Hrun Hnd) as [q1 [Hbase Hq1]].
    apply Hq1 in Hg.
    eapply build_narrows in Hg; [|apply base_conditions_selective|exact Hbase].
    unfold environment_base in Hg.
    apply in_rows_exclude in Hg. destruct Hg as [Hg _].
    apply in_rows_where in Hg. now apply Z.eqb_eq.
Qed.
Lemma sample_ids_unique : List.NoDup (map g_id (groups Sample.db)).
Proof. vm_compute. repeat (constructor; [simpl; lia|]). constructor. Qed.

Lemma project_isolation_witness :
  exists r,
    fst (DjangoSearchBackend.query Example.settings Sample.db Example.project
           (Example.args ∅) Example.no_tags) = Ok r
    /\ map g_id (result_set r) = [1; 3]
    /\ forall g, In g (result_set r) -> g_project g = 1.
Proof.
  eexists. split; [vm_compute; reflexivity|].
  split; [reflexivity|].
  apply (project_isolation Example.settings Sample.db Example.project
           (Example.args ∅) Example.no_tags _ Example.no_tags
           sample_ids_unique).
  left. vm_compute. reflexivity.
Defined.
(** ** Builders in sequence *)

(** X2.  Two builders run one after the other on the same parameters do
    what one builder with the handlers of both does: an exception of the
    first stops the run. *)
Theorem build_app {Q} (hs hs' : list (string * (callback Q * list string)))
  (qs : Q) (parameters : gmap string pyval) :
  QueryBuilder.build (hs ++ hs') qs parameters
  = bind_outcome (QueryBuilder.build hs qs parameters)
      (fun qs' => QueryBuilder.build hs' qs' parameters).
Proof.
  revert qs. induction hs as [|[parameter [handler extra]] hs IH]; intros qs.
  - reflexivity.
  - cbn [app QueryBuilder.build].
    destruct (parameters !! parameter) as [value|]; [|apply IH].
    destruct (getitems parameters extra) as [vs|e]; cbn [bind_outcome];
      [|reflexivity].
    destruct (handler qs value vs) as [qs'|e]; cbn [bind_outcome];
      [apply IH|reflexivity].
Qed.

(** ** The page of the environment branch *)

(** X3.  The page of issues is read back in the order of the ids the
    paginator returned; an id with no issue behind it is dropped. *)
Theorem hydrate_ids db (ids : list Z) :
  map g_id (EnvironmentDjangoSearchBackend.hydrate db ids)
  = List.filter (fun id => existsb (fun g => g_id g =? id) (groups db)) ids.
Proof.
  unfold EnvironmentDjangoSearchBackend.hydrate.
  induction ids as [|id ids IH]; [reflexivity|].
  cbn [omap list_omap List.filter].
  destruct (List.find (fun g => g_id g =? id) (groups db)) as [g|] eqn:Hfind.
  - assert (Hex : existsb (fun g => g_id g =? id) (groups db) = true).
    { apply existsb_exists. exists g. now apply find_some in Hfind. }
    rewrite Hex. cbn [map]. f_equal; [|exact IH].
    apply find_some in Hfind. now apply Z.eqb_eq.
  - assert (Hex : existsb (fun g => g_id g =? id) (groups db) = false).
    { apply not_true_is_false. intros Hex. apply existsb_exists in Hex.
      destruct Hex as [g [Hin Hg]].
      now rewrite (find_none _ _ Hfind g Hin) in Hg. }
    rewrite Hex. exact IH.
Qed.
(** ** The sort key *)

Lemma sort_strategies_keys cfg (s : string) :
  sort_strategies cfg !! s = None
  <-> ~ In s ["priority"; "date"; "new"; "freq"].
Proof.
  unfold sort_strategies. cbn [list_to_map foldr fst snd]. split.
  - intros Hnone [<-|[<-|[<-|[<-|[]]]]]; vm_compute in Hnone; discriminate.
  - intros Hnot.
    rewrite !lookup_insert_ne; [apply lookup_empty|..];
      intros <-; apply Hnot; simpl; auto.
Qed.

Lemma date_from_absent (kw : gmap string pyval) :
  kw !! "date_from" = None ->
  bool_decide ("date_from" ∈ dom kw) = false.
Proof.
  intros Hdate. apply bool_decide_eq_false_2. rewrite elem_of_dom, Hdate.
  intros [? ?]. discriminate.
Qed.

(** X4.  The environment backend looks the sort key up in
    [sort_strategies] before it builds any filter, also when no
    environment is given: a key other than priority, date, new and freq
    raises [KeyError] and nothing else happens. *)
Theorem environment_sort_by_unknown cfg db project a st :
  kwargs a !! "date_from" = None ->
  ~ In (default "date" (sort_by a)) ["priority"; "date"; "new"; "freq"] ->
  EnvironmentDjangoSearchBackend.query cfg db project a st
  = (Raise (KeyError (default "date" (sort_by a))), st).
Proof.
  intros Hdate Hkey. apply sort_strategies_keys with (cfg := cfg) in Hkey.
  unfold EnvironmentDjangoSearchBackend.query. cbv zeta.
  unfold bind at 1. rewrite (date_from_absent _ Hdate).
  cbn [negb andb assert_ ret].
  unfold bind at 1. unfold getitem. rewrite Hkey. reflexivity.
Qed.

Lemma environment_sort_by_unknown_witness :
  EnvironmentDjangoSearchBackend.query Example.settings Example.db
    Example.project
    {| sort_by := Some "score"; environment_id := None; cursor := None;
       limit := None; count_hits := false; paginator_options := None;
       kwargs := ∅ |}
    Example.no_tags
  = (Raise (KeyError "score"), Example.no_tags).
Proof.
  apply (environment_sort_by_unknown Example.settings Example.db
           Example.project
           {| sort_by := Some "score"; environment_id := None; cursor := None;
              limit := None; count_hits := false; paginator_options := None;
              kwargs := ∅ |} Example.no_tags).
  - reflexivity.
  - simpl. intros [H|[H|[H|[H|[]]]]]; discriminate H.
Defined.
(** ** What the plain backend hands to the paginator, and how it fails *)

Lemma stage_select {A} (c : bool) (f : QuerySet A -> QuerySet A) qs :
  (forall q, select (f q) = select q) ->
  select ((if c then f else id) qs) = select qs.
Proof. intros Hf. destruct c; [apply Hf|reflexivity]. Qed.

Lemma stage_ordering {A} (c : bool) (f : QuerySet A -> QuerySet A) qs :
  (forall q, ordering (f q) = ordering q) ->
  ordering ((if c then f else id) qs) = ordering qs.
Proof. intros Hf. destruct c; [apply Hf|reflexivity]. Qed.

Lemma build_queryset_ranges_outcome cfg db project sort_by kw qs st o st' :
  DjangoSearchBackend._build_queryset_ranges cfg db project sort_by kw qs st
  = (o, st') ->
  caller_tags st' = caller_tags st
  /\ (calls st' = calls st
      \/ exists ids, calls st' = (calls st ++ [EventGroupIds ids])%list
                     /\ (length ids <= 1000)%nat)
  /\ ((sort_clauses_for cfg !! sort_by = None
       /\ o = Raise (KeyError sort_by))
      \/ exists score_clause qs',
           sort_clauses_for cfg !! sort_by = Some score_clause
           /\ o = Ok qs'
           /\ select qs' = (select qs ++ [("sort_value", score_clause)])%list
           /\ ordering qs' = ordering qs).
Proof.
  unfold DjangoSearchBackend._build_queryset_ranges. cbv zeta.
  set (q := (if negb (is_None _) || negb (is_None _) then _ else _) _).
  assert (Hsel : select q = select qs)
    by (subst q; now rewrite !stage_select by reflexivity).
  assert (Hord : ordering q = ordering qs)
    by (subst q; now rewrite !stage_ordering by reflexivity).
  clearbody q. intros Hrun.
  assert (Hfinal : forall q' st1,
    select q' = select qs -> ordering q' = ordering qs ->
    (score_clause <- lift (getitem (sort_clauses_for cfg) sort_by) ;;
     ret (qs_extra_select "sort_value" score_clause q')) st1 = (o, st') ->
    st' = st1
    /\ ((sort_clauses_for cfg !! sort_by = None
         /\ o = Raise (KeyError sort_by))
        \/ exists score_clause qs',
             sort_clauses_for cfg !! sort_by = Some score_clause
             /\ o = Ok qs'
             /\ select qs' = (select qs ++ [("sort_value", score_clause)])%list
             /\ ordering qs' = ordering qs)).
  { intros q' st1 Hs Ho. unfold bind, lift, getitem, ret.
    destruct (sort_clauses_for cfg !! sort_by) as [sc|];
      intros Heq; injection Heq as <- <-; (split; [reflexivity|]).
    - right. exists sc. eexists. split; [reflexivity|].
      split; [reflexivity|]. cbn [qs_extra_select select ordering].
      now rewrite Hs, Ho.
    - left. auto. }
  apply bind_inv in Hrun.
  destruct Hrun as [[e [He _]]|(q' & st1 & Hdate & Hrun)].
  { exfalso. destruct (truthy _ || truthy _).
    - apply bind_inv in He.
      destruct He as [[e' [He _]]|(u & st1 & _ & He)].
      + destruct (negb _ || _);
          [apply record_call_inv in He|apply ret_inv in He];
          destruct He; discriminate.
      + apply ret_inv in He. destruct He; discriminate.
    - apply ret_inv in He. destruct He; discriminate. }
  destruct (truthy _ || truthy _).
  - apply bind_inv in Hdate.
    destruct Hdate as [[e' [_ He]]|(u & st2 & Hcall & Hret)]; [discriminate|].
    apply ret_inv in Hret. destruct Hret as [Hq' ->]. injection Hq' as ->.
    apply Hfinal in Hrun; [|exact Hsel|exact Hord].
    destruct Hrun as [-> Hout].
    destruct (negb _ || _).
    + apply record_call_inv in Hcall. destruct Hcall as [_ ->].
      cbn [caller_tags calls]. split; [reflexivity|]. split; [|exact Hout].
      right. eexists. split; [reflexivity|]. rewrite length_firstn. apply Nat.le_min_l.
    + apply ret_inv in Hcall. destruct Hcall as [_ ->]. auto.
  - apply ret_inv in Hdate. destruct Hdate as [Hq' ->]. injection Hq' as ->.
    apply Hfinal in Hrun; [|exact Hsel|exact Hord].
    destruct Hrun as [-> Hout]. auto.
Qed.
Lemma build_queryset_outcome cfg db project tags sort_by env kw st o st' :
  DjangoSearchBackend._build_queryset cfg db project tags sort_by env kw st
  = (o, st') ->
  caller_tags st' = caller_tags st
  /\ (exists log, calls st' = (calls st ++ log)%list
                  /\ plain_log project env tags log)
  /\ ((sort_clauses_for cfg !! sort_by = None
       /\ o = Raise (KeyError sort_by))
      \/ exists qs,
           o = Ok qs /\ ordering qs = []
           /\ ((rows qs = [] /\ select qs = [])
               \/ exists score_clause,
                    sort_clauses_for cfg !! sort_by = Some score_clause
                    /\ select qs = [("sort_value", score_clause)])).
Proof.
  unfold DjangoSearchBackend._build_queryset. cbv zeta.
  set (q := (if negb (is_None _) then _ else _) _).
  assert (Hsel : select q = []).
  { subst q.
    repeat match goal with
      | |- context [if ?c then _ else _] => destruct c
      end; reflexivity. }
  assert (Hord : ordering q = []).
  { subst q.
    repeat match goal with
      | |- context [if ?c then _ else _] => destruct c
      end; reflexivity. }
  clearbody q.
  assert (Hranges : forall q' st1 tag_log,
    select q' = [] -> ordering q' = [] ->
    caller_tags st1 = caller_tags st ->
    calls st1 = (calls st ++ tag_log)%list ->
    (tag_log = []
     \/ (tags_truthy tags = true
         /\ tag_log = [TagstoreSearch (project_id project) env
                         (default ∅ tags)])) ->
    DjangoSearchBackend._build_queryset_ranges cfg db project sort_by kw q' st1
    = (o, st') ->
    caller_tags st' = caller_tags st
    /\ (exists log, calls st' = (calls st ++ log)%list
                    /\ plain_log project env tags log)
    /\ ((sort_clauses_for cfg !! sort_by = None
         /\ o = Raise (KeyError sort_by))
        \/ exists qs,
             o = Ok qs /\ ordering qs = []
             /\ ((rows qs = [] /\ select qs = [])
                 \/ exists score_clause,
                      sort_clauses_for cfg !! sort_by = Some score_clause
                      /\ select qs = [("sort_value", score_clause)]))).
  { intros q' st1 tag_log Hs Ho Hct Hcalls Htag Hrun.
    apply build_queryset_ranges_outcome in Hrun.
    destruct Hrun as [Hct' [Hev Hout]].
    split; [congruence|]. split.
    - destruct Hev as [Hev|[ids [Hev Hlen]]].
      + exists tag_log. split; [congruence|].
        exists tag_log, []. rewrite app_nil_r. auto.
      + exists (tag_log ++ [EventGroupIds ids])%list.
        split; [rewrite Hev, Hcalls; now rewrite app_assoc|].
        exists tag_log, [EventGroupIds ids]. eauto 6.
    - destruct Hout as [Hout|[sc [qs' [Hsc [-> [Hsel' Hord']]]]]];
        [left; exact Hout|].
      right. exists qs'. split; [reflexivity|]. split; [congruence|].
      right. exists sc. rewrite Hsel', Hs. auto. }
  assert (Hnone : forall q' st1 tag_log,
    select q' = [] -> ordering q' = [] ->
    caller_tags st1 = caller_tags st ->
    calls st1 = (calls st ++ tag_log)%list ->
    (tag_log = []
     \/ (tags_truthy tags = true
         /\ tag_log = [TagstoreSearch (project_id project) env
                         (default ∅ tags)])) ->
    ret (qs_none q') st1 = (o, st') ->
    caller_tags st' = caller_tags st
    /\ (exists log, calls st' = (calls st ++ log)%list
                    /\ plain_log project env tags log)
    /\ ((sort_clauses_for cfg !! sort_by = None
         /\ o = Raise (KeyError sort_by))
        \/ exists qs,
             o = Ok qs /\ ordering qs = []
             /\ ((rows qs = [] /\ select qs = [])
                 \/ exists score_clause,
                      sort_clauses_for cfg !! sort_by = Some score_clause
                      /\ select qs = [("sort_value", score_clause)]))).
  { intros q' st1 tag_log Hs Ho Hct Hcalls Htag Hrun.
    apply ret_inv in Hrun. destruct Hrun as [-> ->].
    split; [exact Hct|]. split.
    - exists tag_log. split; [exact Hcalls|].
      exists tag_log, []. rewrite app_nil_r. auto.
    - right. exists (qs_none q'). split; [reflexivity|].
      split; [exact Ho|]. left. split; [reflexivity|exact Hs]. }
  destruct (truthy _ && is_EMPTY _).
  - intros Hrun.
    apply (Hnone q st []); auto; now rewrite app_nil_r.
  - set (q' := (if truthy _ then _ else _) q).
    assert (Hsel' : select q' = [])
      by (subst q'; now rewrite stage_select by reflexivity).
    assert (Hord' : ordering q' = [])
      by (subst q'; now rewrite stage_ordering by reflexivity).
    clearbody q'.
    destruct (tags_truthy tags) eqn:Htruthy.
    + intros Hrun. apply bind_inv in Hrun.
      destruct Hrun as [[e [He _]]|(u & st1 & Hcall & Hrun)].
      { apply record_call_inv in He. destruct He; discriminate. }
      apply record_call_inv in Hcall. destruct Hcall as [_ ->].
      destruct (get_group_ids_for_search_filter _ _ _ _).
      * eapply (Hnone q'); [exact Hsel'|exact Hord'| | | |exact Hrun];
          [reflexivity|reflexivity|right; auto].
      * eapply Hranges; [| | | | |exact Hrun];
          [exact Hsel'|exact Hord'|reflexivity|reflexivity|right; auto].
    + intros Hrun.
      eapply (Hranges q' st []); [exact Hsel'|exact Hord'|reflexivity| | |exact Hrun];
        [now rewrite app_nil_r|left; reflexivity].
Qed.
(** X5.  The plain backend never changes the caller's [tags]; it asks the
    tag store at most once, with the caller's [tags] and environment id
    and only when [tags] is not empty, and it fetches at most one event
    sub-query, of at most 1000 issue ids. *)
Theorem plain_query_effects cfg db project a st :
  let run := DjangoSearchBackend.query cfg db project a st in
  caller_tags (snd run) = caller_tags st
  /\ exists log,
       calls (snd run) = (calls st ++ log)%list
       /\ plain_log project (environment_id a) (caller_tags st) log.
Proof.
  cbv zeta. unfold DjangoSearchBackend.query.
  destruct (negb _).
  { split; [reflexivity|]. exists []. cbn [raise snd].
    split; [now rewrite app_nil_r|]. exists [], []. auto. }
  cbv zeta. unfold bind at 1. unfold get_tags. unfold bind.
  destruct (DjangoSearchBackend._build_queryset _ _ _ _ _ _ _ _)
    as [[qs|e] st1] eqn:Hb;
    apply build_queryset_outcome in Hb; destruct Hb as [Hct [Hlog _]].
  - destruct (paginator_for _) as [cls clause]. cbn [ret snd]. auto.
  - cbn [snd]. auto.
Qed.

(** X6.  How a call of the plain backend ends.  A keyword that is no
    parameter of [_build_queryset] raises [TypeError] before anything is
    done.  A call that returns has accepted every keyword and returns
    the call of the paginator of the sort key on a query set ordered by
    its sort clause, with limit 100 when none is given; the query set
    projects the ranking clause of the dialect as [sort_value], except
    when the search was cut short with an empty query set.  A
    [KeyError] names the sort key, missing from the table of ranking
    clauses of the dialect.  Exceptions from inside the storage layer
    are not described. *)
Theorem plain_query_endings cfg db project a st :
  let run := DjangoSearchBackend.query cfg db project a st in
  let sort_by := default "date" (sort_by a) in
  (DjangoSearchBackend.accepts (kwargs a) = false ->
   run = (Raise TypeError, st))
  /\ (forall r, fst run = Ok r ->
        DjangoSearchBackend.accepts (kwargs a) = true
        /\ exists queryset,
             r = Paginated (fst (paginator_for sort_by)) queryset
                   (snd (paginator_for sort_by))
                   (default ∅ (paginator_options a))
                   (Some (default 100%nat (limit a))) (cursor a)
                   (count_hits a)
             /\ ordering queryset = [snd (paginator_for sort_by)]
             /\ ((rows queryset = [] /\ select queryset = [])
                 \/ exists score_clause,
                      sort_clauses_for cfg !! sort_by = Some score_clause
                      /\ select queryset = [("sort_value", score_clause)]))
  /\ (forall k, fst run = Raise (KeyError k) ->
        DjangoSearchBackend.accepts (kwargs a) = true
        /\ k = sort_by
        /\ sort_clauses_for cfg !! sort_by = None).
Proof.
  cbv zeta. unfold DjangoSearchBackend.query.
  destruct (DjangoSearchBackend.accepts (kwargs a)); cbn [negb].
  2:{ split; [reflexivity|]. split; intros ? Hrun; discriminate Hrun. }
  split; [discriminate|].
  cbv zeta. unfold bind at 1. unfold get_tags. unfold bind.
  destruct (DjangoSearchBackend._build_queryset _ _ _ _ _ _ _ _)
    as [[qs|e] st1] eqn:Hb;
    apply build_queryset_outcome in Hb; destruct Hb as [_ [_ Hout]];
    destruct Hout as [[Hnone Ho]|[qs' [Ho [Hord Hsel]]]];
    try discriminate.
  - injection Ho as <-. split.
    + intros r Hr. split; [reflexivity|].
      destruct (paginator_for _) as [cls clause]. cbn [ret fst snd] in *.
      injection Hr as <-.
      exists (qs_order_by clause qs). split; [reflexivity|].
      split; [reflexivity|exact Hsel].
    + intros k Hk. destruct (paginator_for _). discriminate Hk.
  - injection Ho as ->. split.
    + intros r Hr. discriminate Hr.
    + intros k Hk. cbn [fst] in Hk. injection Hk as <-. auto.
Qed.

Lemma plain_query_endings_witness :
  let run :=
    DjangoSearchBackend.query Example.settings Example.db Example.project
      (Example.args {[ "status" := VInt GroupStatus.RESOLVED ]})
      Example.no_tags in
  exists r queryset,
    fst run = Ok r
    /\ map g_id (result_set r) = [3]
    /\ r = Paginated DateTimePaginator queryset "-last_seen" ∅
             (Some 100%nat) None false
    /\ ordering queryset = ["-last_seen"].
Proof.
  intros run.
  destruct (fst run) as [r|e] eqn:Hrun;
    [|vm_compute in Hrun; discriminate Hrun].
  destruct (proj1 (proj2 (plain_query_endings Example.settings Example.db
                            Example.project
                            (Example.args
                               {[ "status" := VInt GroupStatus.RESOLVED ]})
                            Example.no_tags)) r Hrun)
    as [_ [queryset [Hr [Hord _]]]].
  exists r, queryset. split; [reflexivity|].
  split; [vm_compute in Hrun; now injection Hrun as <-|].
  split; [exact Hr|exact Hord].
Defined.

(** X7.  On the plain backend [first_release=EMPTY] ends the search at
    once: the result set is empty and neither the tag store nor the event
    table is consulted, whatever other filters are given. *)
Theorem plain_first_release_empty cfg db project a st :
  kwargs a !! "first_release" = Some VEmpty ->
  DjangoSearchBackend.accepts (kwargs a) = true ->
  exists r,
    DjangoSearchBackend.query cfg db project a st = (Ok r, st)
    /\ result_set r = [].
Proof.
  intros Hempty Hacc. unfold DjangoSearchBackend.query.
  rewrite Hacc. cbn [negb]. cbv zeta. unfold bind at 1. unfold get_tags.
  unfold bind.
  destruct (build_queryset_first_release_empty cfg db project (caller_tags st)
              (default "date" (sort_by a)) (environment_id a) (kwargs a) st
              Hempty) as [qs [-> Hrows]].
  destruct (paginator_for _) as [cls clause]. cbn [ret].
  eexists. split; [reflexivity|]. exact Hrows.
Qed.

Lemma plain_first_release_empty_witness :
  exists r,
    DjangoSearchBackend.query Example.settings Sample.db Example.project
      (Example.args {[ "first_release" := VEmpty; "date_from" := VDate 1 ]})
      (Example.with_tags {[ "browser" := VStr "firefox" ]})
    = (Ok r, Example.with_tags {[ "browser" := VStr "firefox" ]})
    /\ result_set r = [].
Proof.
  apply (plain_first_release_empty Example.settings Sample.db Example.project
           (Example.args
              {[ "first_release" := VEmpty; "date_from" := VDate 1 ]})
           (Example.with_tags {[ "browser" := VStr "firefox" ]}));
    vm_compute; reflexivity.
Defined.
(** ** How a builder fails *)

Lemma build_raise_inv {Q} (hs : list (string * (callback Q * list string)))
  (qs : Q) (parameters : gmap string pyval) (e : exn) :
  QueryBuilder.build hs qs parameters = Raise e ->
  exists parameter handler extra value,
    In (parameter, (handler, extra)) hs
    /\ parameters !! parameter = Some value
    /\ (getitems parameters extra = Raise e
        \/ exists vs q, getitems parameters extra = Ok vs
                        /\ handler q value vs = Raise e).
Proof.
  revert qs. induction hs as [|[parameter [handler extra]] hs IH]; intros qs.
  - discriminate.
  - cbn [QueryBuilder.build].
    destruct (parameters !! parameter) as [value|] eqn:Hvalue.
    + destruct (getitems parameters extra) as [vs|e'] eqn:Hextra;
        cbn [bind_outcome].
      * destruct (handler qs value vs) as [qs'|e'] eqn:Hcall;
          cbn [bind_outcome].
        -- intros Hb. apply IH in Hb.
           destruct Hb as (p & h & x & v & Hin & Hrest).
           exists p, h, x, v. split; [now right|exact Hrest].
        -- intros Heq. injection Heq as ->.
           exists parameter, handler, extra, value.
           split; [now left|]. split; [exact Hvalue|].
           right. eauto.
      * intros Heq. injection Heq as ->.
        exists parameter, handler, extra, value.
        split; [now left|]. split; [exact Hvalue|]. now left.
    + intros Hb. apply IH in Hb.
      destruct Hb as (p & h & x & v & Hin & Hrest).
      exists p, h, x, v. split; [now right|exact Hrest].
Qed.

Lemma build_ok_inv {Q} (hs : list (string * (callback Q * list string)))
  (qs qs' : Q) (parameters : gmap string pyval) :
  QueryBuilder.build hs qs parameters = Ok qs' ->
  forall parameter handler extra value,
    In (parameter, (handler, extra)) hs ->
    parameters !! parameter = Some value ->
    exists vs, getitems parameters extra = Ok vs.
Proof.
  revert qs. induction hs as [|[parameter [handler extra]] hs IH];
    intros qs Hb p h x v Hin Hv.
  - destruct Hin.
  - cbn [QueryBuilder.build] in Hb.
    destruct Hin as [Heq|Hin].
    + injection Heq as -> -> ->. rewrite Hv in Hb.
      destruct (getitems parameters x) as [vs|e]; [eauto|discriminate].
    + destruct (parameters !! parameter) as [value|].
      * destruct (getitems parameters extra) as [vs|e]; cbn [bind_outcome] in Hb;
          [|discriminate].
        destruct (handler qs value vs) as [q1|e]; cbn [bind_outcome] in Hb;
          [|discriminate].
        eapply IH; eassumption.
      * eapply IH; eassumption.
Qed.

Lemma getitems_one (parameters : gmap string pyval) name :
  getitems parameters [name]
  = match parameters !! name with
    | Some v => Ok [v]
    | None => Raise (KeyError name)
    end.
Proof.
  cbn [getitems]. unfold getitem.
  destruct (parameters !! name); reflexivity.
Qed.

Lemma scalar_raise (parameters : gmap string pyval) parameter e :
  getitems parameters [parameter ++ "_inclusive"] = Raise e ->
  parameters !! (parameter ++ "_inclusive") = None
  /\ e = KeyError (parameter ++ "_inclusive").
Proof.
  rewrite getitems_one.
  destruct (parameters !! (parameter ++ "_inclusive")); [discriminate|].
  intros Heq. injection Heq as <-. auto.
Qed.

(** A handler registered with [condition(lambda queryset, value: ...)]
    does not raise; one registered with [scalar_condition] raises when
    its inclusive flag is missing. *)
Ltac registry_raises Hb :=
  let p := fresh "p" in
  let h := fresh "h" in
  let x := fresh "x" in
  let v := fresh "v" in
  let Hin := fresh "Hin" in
  let Hv := fresh "Hv" in
  let Hraise := fresh "Hraise" in
  let Heq := fresh "Heq" in
  let Hr := fresh "Hr" in
  let vs := fresh "vs" in
  let q := fresh "q" in
  let Hx := fresh "Hx" in
  let Hc := fresh "Hc" in
  let Hnone := fresh "Hnone" in
  apply build_raise_inv in Hb;
  destruct Hb as (p & h & x & v & Hin & Hv & Hraise);
  cbn [In] in Hin;
  repeat (destruct Hin as [Heq|Hin];
          [injection Heq as <- <- <-; cbn [default from_option] in Hraise|]);
  [..|destruct Hin];
  try (exfalso; destruct Hraise as [Hr|(vs & q & Hx & Hc)];
       [discriminate Hr|injection Hx as <-; discriminate Hc]);
  (destruct Hraise as [Hr|(vs & q & Hx & Hc)];
   [ apply scalar_raise in Hr; destruct Hr as [Hnone ->];
     eexists;
     split; [|split; [eexists; exact Hv|split; [exact Hnone|reflexivity]]];
     simpl; auto 10
   | exfalso; rewrite getitems_one in Hx;
     match type of Hx with
     | match ?l with _ => _ end = _ => destruct l
     end; [injection Hx as <-; discriminate Hc | discriminate Hx] ]).

Lemma base_conditions_raise db project qs kw e :
  QueryBuilder.build (EnvironmentDjangoSearchBackend.base_conditions db project)
    qs kw = Raise e ->
  exists p, In p scalar_parameters
            /\ is_Some (kw !! p)
            /\ kw !! (p ++ "_inclusive") = None
            /\ e = KeyError (p ++ "_inclusive").
Proof.
  intros Hb. unfold EnvironmentDjangoSearchBackend.base_conditions in Hb.
  registry_raises Hb.
Qed.

Lemma scalar_conditions_raise {A} `{Model A} (qs : QuerySet A) kw e :
  QueryBuilder.build EnvironmentDjangoSearchBackend.scalar_conditions qs kw
  = Raise e ->
  exists p, In p scalar_parameters
            /\ is_Some (kw !! p)
            /\ kw !! (p ++ "_inclusive") = None
            /\ e = KeyError (p ++ "_inclusive").
Proof.
  intros Hb. unfold EnvironmentDjangoSearchBackend.scalar_conditions in Hb.
  registry_raises Hb.
Qed.

Lemma plain_conditions_raise db project qs kw e :
  QueryBuilder.build (EnvironmentDjangoSearchBackend.plain_conditions db project)
    qs kw = Raise e ->
  exists p, In p scalar_parameters
            /\ is_Some (kw !! p)
            /\ kw !! (p ++ "_inclusive") = None
            /\ e = KeyError (p ++ "_inclusive").
Proof.
  intros Hb.
  unfold EnvironmentDjangoSearchBackend.plain_conditions,
    EnvironmentDjangoSearchBackend.scalar_conditions in Hb.
  registry_raises Hb.
Qed.

Lemma environment_conditions_ok db project qs kw :
  exists qs',
    QueryBuilder.build
      (EnvironmentDjangoSearchBackend.environment_conditions db project) qs kw
    = Ok qs'.
Proof.
  unfold EnvironmentDjangoSearchBackend.environment_conditions, condition.
  cbn [QueryBuilder.build default from_option getitems bind_outcome lambda2].
  destruct (kw !! "first_release"); eauto.
Qed.
(** ** The environment backend without environment *)

Lemma query_paginate_outcome cfg sort_by a qs st o st' :
  EnvironmentDjangoSearchBackend.query_paginate cfg sort_by a qs st = (o, st') ->
  st' = st
  /\ ((sort_clauses_for cfg !! sort_by = None /\ o = Raise (KeyError sort_by))
      \/ exists r, o = Ok r /\ result_set r = rows qs).
Proof.
  unfold EnvironmentDjangoSearchBackend.query_paginate, bind, lift, getitem.
  destruct (sort_clauses_for cfg !! sort_by) as [score_clause|].
  - destruct (paginator_for sort_by) as [cls clause]. cbn [ret].
    intros Heq. injection Heq as <- <-. split; [reflexivity|].
    right. eexists. split; reflexivity.
  - intros Heq. injection Heq as <- <-. auto.
Qed.

Lemma query_tags_outcome cfg project sort_by a qs st o st' :
  EnvironmentDjangoSearchBackend.query_tags cfg project sort_by a qs st
  = (o, st') ->
  caller_tags st' = caller_tags st
  /\ (calls st' = calls st
      \/ (tags_truthy (caller_tags st) = true
          /\ calls st'
             = (calls st ++ [TagstoreSearch (project_id project) None
                               (default ∅ (caller_tags st))])%list))
  /\ ((sort_clauses_for cfg !! sort_by = None /\ o = Raise (KeyError sort_by))
      \/ exists r, o = Ok r /\ forall g, In g (result_set r) -> In g (rows qs)).
Proof.
  unfold EnvironmentDjangoSearchBackend.query_tags. cbv zeta.
  unfold bind at 1. unfold get_tags.
  destruct (tags_truthy (caller_tags st)) eqn:Htruthy.
  - unfold bind at 1. unfold record_call.
    destruct (get_group_ids_for_search_filter _ _ _ _).
    + cbn [ret]. intros Heq. injection Heq as <- <-. cbn [caller_tags calls].
      split; [reflexivity|]. split; [right; auto|].
      right. eexists. split; [reflexivity|]. intros g [].
    + intros Hrun. apply query_paginate_outcome in Hrun.
      destruct Hrun as [-> Hout]. cbn [caller_tags calls].
      split; [reflexivity|]. split; [right; auto|].
      destruct Hout as [Hout|[r [-> Hr]]]; [left; exact Hout|].
      right. exists r. split; [reflexivity|]. intros g Hg.
      rewrite Hr in Hg. narrow Hg. exact Hg.
  - intros Hrun. apply query_paginate_outcome in Hrun.
    destruct Hrun as [-> Hout]. split; [reflexivity|]. split; [now left|].
    destruct Hout as [Hout|[r [-> Hr]]]; [left; exact Hout|].
    right. exists r. split; [reflexivity|]. intros g Hg. now rewrite Hr in Hg.
Qed.

(** X8.  Without [environment_id] the environment backend never changes
    the caller's [tags], and the only call it can make is one search of
    the tag store, with environment [None] and the caller's [tags], when
    [tags] is not empty. *)
Theorem environment_query_effects cfg db project a st :
  environment_id a = None ->
  let run := EnvironmentDjangoSearchBackend.query cfg db project a st in
  caller_tags (snd run) = caller_tags st
  /\ (calls (snd run) = calls st
      \/ (tags_truthy (caller_tags st) = true
          /\ calls (snd run)
             = (calls st ++ [TagstoreSearch (project_id project) None
                               (default ∅ (caller_tags st))])%list)).
Proof.
  intros Henv run.
  destruct (env_query_reaches_tags cfg db project a st (fst run) (snd run)
              Henv (surjective_pairing run)) as [[e [_ ->]]|[qs Hrun]].
  - auto.
  - apply query_tags_outcome in Hrun. tauto.
Qed.

Lemma environment_query_effects_witness :
  let run :=
    EnvironmentDjangoSearchBackend.query Example.settings Sample.db
      Example.project (Example.args ∅)
      (Example.with_tags {[ "browser" := VStr "firefox" ]}) in
  Example.ids run = Ok [3]
  /\ caller_tags (snd run) = Some {[ "browser" := VStr "firefox" ]}
  /\ calls (snd run) = [TagstoreSearch 1 None {[ "browser" := VStr "firefox" ]}].
Proof.
  intros run.
  destruct (environment_query_effects Example.settings Sample.db
              Example.project (Example.args ∅)
              (Example.with_tags {[ "browser" := VStr "firefox" ]}) eq_refl)
    as [Htags [Hcalls|[_ Hcalls]]].
  - exfalso. vm_compute in Hcalls. discriminate Hcalls.
  - split; [vm_compute; reflexivity|]. split; [exact Htags|exact Hcalls].
Defined.

(** X9.  What a [KeyError] of the environment backend, called without
    [environment_id], names: the sort key, when it is no sort strategy
    or is missing from the ranking clauses of the dialect, or the
    inclusive flag of a range bound that was passed without it. *)
Theorem environment_query_key_error cfg db project a st k st' :
  environment_id a = None ->
  EnvironmentDjangoSearchBackend.query cfg db project a st
  = (Raise (KeyError k), st') ->
  (k = default "date" (sort_by a)
   /\ (sort_strategies cfg !! default "date" (sort_by a) = None
       \/ sort_clauses_for cfg !! default "date" (sort_by a) = None))
  \/ (exists p, In p scalar_parameters
                /\ is_Some (kwargs a !! p)
                /\ kwargs a !! (p ++ "_inclusive") = None
                /\ k = p ++ "_inclusive").
Proof.
  intros Henv. unfold EnvironmentDjangoSearchBackend.query. cbv zeta.
  rewrite Henv. intros Hrun.
  apply bind_inv in Hrun.
  destruct Hrun as [[ex [Hassert Hex]]|(u & st1 & _ & Hrun)].
  { injection Hex as <-.
    apply assert_inv in Hassert. destruct Hassert as [_ [[_ Hx]|[_ Hx]]];
      discriminate Hx. }
  apply bind_inv in Hrun.
  destruct Hrun as [[ex [Hstrategy Hex]]|(strategy & st2 & _ & Hrun)].
  { injection Hex as <-. left.
    apply lift_inv in Hstrategy. destruct Hstrategy as [Hs _].
    unfold getitem in Hs.
    destruct (sort_strategies cfg !! default "date" (sort_by a)) eqn:Hk;
      [discriminate|].
    injection Hs as ->. auto. }
  destruct strategy as [sort_expression value_to_cursor_score].
  assert (Hflag : forall p,
            KeyError k = KeyError (p ++ "_inclusive") -> k = p ++ "_inclusive")
    by (intros p Hp; now injection Hp).
  apply bind_inv in Hrun.
  destruct Hrun as [[ex [Hbase Hex]]|(q1 & st3 & _ & Hrun)].
  { injection Hex as <-. right.
    apply lift_inv in Hbase. destruct Hbase as [Hb _]. symmetry in Hb.
    apply base_conditions_raise in Hb.
    destruct Hb as [p [Hp [Hsome [Hnone He]]]]. exists p. auto. }
  apply bind_inv in Hrun.
  destruct Hrun as [[ex [Hplain Hex]]|(q2 & st4 & _ & Hrun)].
  { injection Hex as <-. right.
    apply lift_inv in Hplain. destruct Hplain as [Hb _]. symmetry in Hb.
    apply plain_conditions_raise in Hb.
    destruct Hb as [p [Hp [Hsome [Hnone He]]]]. exists p. auto. }
  apply query_tags_outcome in Hrun.
  destruct Hrun as [_ [_ [[Hnone Heq]|[r [Heq _]]]]]; [|discriminate].
  injection Heq as ->. left. auto.
Qed.

Lemma environment_query_key_error_witness :
  let run :=
    EnvironmentDjangoSearchBackend.query Example.settings Example.db
      Example.project (Example.args {[ "age_from" := VDate 3 ]})
      Example.no_tags in
  run = (Raise (KeyError "age_from_inclusive"), Example.no_tags)
  /\ exists p, In p scalar_parameters
               /\ is_Some (kwargs (Example.args {[ "age_from" := VDate 3 ]}) !! p)
               /\ "age_from_inclusive" = p ++ "_inclusive".
Proof.
  intros run.
  assert (Hrun : run = (Raise (KeyError "age_from_inclusive"), Example.no_tags))
    by (vm_compute; reflexivity).
  split; [exact Hrun|].
  destruct (environment_query_key_error Example.settings Example.db
              Example.project (Example.args {[ "age_from" := VDate 3 ]})
              Example.no_tags _ _ eq_refl Hrun)
    as [[Hkey _]|[p [Hp [Hsome [_ He]]]]].
  - discriminate Hkey.
  - exists p. auto.
Defined.

Lemma scalar_flag_given {Q} (hs : list (string * (callback Q * list string)))
  (h : callback Q) qs qs' (kw : gmap string pyval) p :
  QueryBuilder.build hs qs kw = Ok qs' ->
  In (p, (h, [p ++ "_inclusive"])) hs ->
  is_Some (kw !! p) ->
  kw !! (p ++ "_inclusive") = None -> False.
Proof.
  intros Hb Hin [v Hv] Hnone.
  destruct (build_ok_inv hs qs qs' kw Hb _ _ _ _ Hin Hv) as [vs Hvs].
  rewrite getitems_one, Hnone in Hvs. discriminate.
Qed.

(** X10.  On the environment backend a range bound passed without its
    inclusive flag never yields a result: the handlers read the flag from
    the keyword arguments, where it has no default, and the call
    raises. *)
Theorem environment_bound_needs_inclusive cfg db project a st p :
  In p scalar_parameters ->
  is_Some (kwargs a !! p) ->
  kwargs a !! (p ++ "_inclusive") = None ->
  exists e,
    fst (EnvironmentDjangoSearchBackend.query cfg db project a st) = Raise e.
Proof.
  intros Hp Hsome Hnone.
  destruct (EnvironmentDjangoSearchBackend.query cfg db project a st)
    as [[r|e] st'] eqn:Hrun; [exfalso|eauto].
  unfold EnvironmentDjangoSearchBackend.query in Hrun. cbv zeta in Hrun.
  step_ok Hrun u Hassert. step_ok Hrun strategy Hstrategy.
  destruct strategy as [sort_expression value_to_cursor_score].
  step_ok Hrun q1 Hbase.
  assert (Hrest : forall A (M : Model A) (q q' : QuerySet A),
    QueryBuilder.build EnvironmentDjangoSearchBackend.scalar_conditions q
      (kwargs a) = Ok q' -> False).
  { intros A M q q' Hb.
    unfold EnvironmentDjangoSearchBackend.base_conditions in Hbase.
    unfold EnvironmentDjangoSearchBackend.scalar_conditions in Hb.
    unfold scalar_parameters in Hp. cbn [In] in Hp.
    repeat (destruct Hp as [<-|Hp];
      [ match type of Hnone with
        | _ !! (?p ++ _) = None =>
            first
              [ eapply (scalar_flag_given _ _ _ _ _ p Hbase);
                [unfold scalar_condition, condition;
                 cbn [In default from_option];
                 solve [repeat first [left; reflexivity|right]]
                |exact Hsome|exact Hnone]
              | eapply (scalar_flag_given _ _ _ _ _ p Hb);
                [unfold scalar_condition, condition;
                 cbn [In default from_option];
                 solve [repeat first [left; reflexivity|right]]
                |exact Hsome|exact Hnone] ]
        end |]).
    destruct Hp. }
  destruct (environment_id a) as [e|].
  - step_ok Hrun tags_ Htags.
    destruct (caller_tags st) as [tags|]; step_ok Hrun tags' Htags'.
    step_ok Hrun u1 Henv. step_ok Hrun name Hname.
    step_ok Hrun environment Hget. step_ok Hrun u2 Hid.
    step_ok Hrun q2 Hjoin. step_ok Hrun value Hvalue.
    step_ok Hrun u3 Hput. step_ok Hrun q3 Hscalar.
    exact (Hrest _ _ _ _ Hscalar).
  - step_ok Hrun q2 Hplain.
    unfold EnvironmentDjangoSearchBackend.plain_conditions in Hplain.
    rewrite build_cons in Hplain.
    destruct (QueryBuilder.build [_] q1 (kwargs a)) as [q|]; [|discriminate].
    cbn [bind_outcome] in Hplain. exact (Hrest _ _ _ _ Hplain).
Qed.

Lemma environment_bound_needs_inclusive_witness :
  exists e,
    fst (EnvironmentDjangoSearchBackend.query Example.settings Example.db
           Example.project
           (Example.env_args {[ "times_seen_lower" := VInt 3 ]})
           (Example.with_tags {[ "environment" := VStr "prod" ]}))
    = Raise e.
Proof.
  apply (environment_bound_needs_inclusive Example.settings Example.db
           Example.project
           (Example.env_args {[ "times_seen_lower" := VInt 3 ]})
           (Example.with_tags {[ "environment" := VStr "prod" ]})
           "times_seen_lower").
  - simpl. auto 10.
  - vm_compute. eauto.
  - vm_compute. reflexivity.
Defined.
(** ** Keywords the environment backend does not know *)

Lemma getitems_insert_other (kw : gmap string pyval) k v names :
  ~ In k names -> getitems (<[k := v]> kw) names = getitems kw names.
Proof.
  induction names as [|name names IH]; intros Hk; [reflexivity|].
  cbn [getitems]. rewrite IH by (intros Hin; apply Hk; now right).
  unfold getitem.
  rewrite lookup_insert_ne by (intros ->; apply Hk; now left).
  reflexivity.
Qed.

Lemma build_insert_other {Q} (hs : list (string * (callback Q * list string)))
  (qs : Q) (kw : gmap string pyval) k v :
  (forall parameter handler extra,
     In (parameter, (handler, extra)) hs -> parameter <> k /\ ~ In k extra) ->
  QueryBuilder.build hs qs (<[k := v]> kw) = QueryBuilder.build hs qs kw.
Proof.
  revert qs. induction hs as [|[parameter [handler extra]] hs IH];
    intros qs Hk; [reflexivity|].
  cbn [QueryBuilder.build].
  destruct (Hk parameter handler extra (or_introl eq_refl)) as [Hne Hextra].
  rewrite lookup_insert_ne by congruence.
  rewrite getitems_insert_other by exact Hextra.
  assert (IH' : forall q, QueryBuilder.build hs q (<[k := v]> kw)
                          = QueryBuilder.build hs q kw).
  { intros q. apply IH. intros p h x Hin. apply (Hk p h x). now right. }
  destruct (kw !! parameter) as [value|]; [|apply IH'].
  destruct (getitems kw extra) as [vs|e]; cbn [bind_outcome]; [|reflexivity].
  destruct (handler qs value vs) as [qs'|e]; cbn [bind_outcome];
    [apply IH'|reflexivity].
Qed.

(** The handlers of a registry only read keywords of
    [environment_keywords]. *)
Ltac registry_keywords :=
  let p := fresh "p" in
  let h := fresh "h" in
  let x := fresh "x" in
  let Hin := fresh "Hin" in
  let Heq := fresh "Heq" in
  let Hk := fresh "Hk" in
  intros p h x Hin; cbn [In] in Hin;
  repeat (destruct Hin as [Heq|Hin];
          [injection Heq as <- <- <-; cbn [default from_option]|]);
  [..|destruct Hin];
  (split;
   [ intros <-; match goal with Hk : ~ In _ environment_keywords |- _ =>
       apply Hk; vm_compute; solve [repeat first [left; reflexivity|right]] end
   | intros Hx; cbn [In] in Hx;
     repeat (destruct Hx as [<-|Hx];
       [match goal with Hk : ~ In _ environment_keywords |- _ =>
          apply Hk; vm_compute;
          solve [repeat first [left; reflexivity|right]] end|]);
     exact Hx ]).

Lemma bind_ext {A B} (m : M A) (k k' : A -> M B) st :
  (forall a st1, k a st1 = k' a st1) -> bind m k st = bind m k' st.
Proof.
  intros Hk. unfold bind. destruct (m st) as [[a|e] st1]; [apply Hk|reflexivity].
Qed.

(** X11.  The environment backend takes any keyword argument: one that
    none of its handlers reads is ignored without notice, where the
    plain backend raises [TypeError]. *)
Theorem environment_ignores_unknown_keyword cfg db project a st k v :
  ~ In k environment_keywords ->
  EnvironmentDjangoSearchBackend.query cfg db project
    (with_kwargs a (<[k := v]> (kwargs a))) st
  = EnvironmentDjangoSearchBackend.query cfg db project a st.
Proof.
  intros Hk. unfold EnvironmentDjangoSearchBackend.query. cbv zeta.
  cbn [kwargs with_kwargs sort_by limit cursor count_hits paginator_options
       environment_id].
  assert (Hdate : bool_decide ("date_from" ∈ dom (<[k := v]> (kwargs a)))
                  = bool_decide ("date_from" ∈ dom (kwargs a))).
  { apply bool_decide_ext. rewrite !elem_of_dom, lookup_insert_ne; [tauto|].
    intros ->. apply Hk. now left. }
  rewrite Hdate.
  assert (Hbase : forall q,
    QueryBuilder.build (EnvironmentDjangoSearchBackend.base_conditions db project)
      q (<[k := v]> (kwargs a))
    = QueryBuilder.build (EnvironmentDjangoSearchBackend.base_conditions db project)
        q (kwargs a)).
  { intros q. apply build_insert_other.
    unfold EnvironmentDjangoSearchBackend.base_conditions, scalar_condition,
      condition.
    registry_keywords. }
  assert (Hplain : forall q,
    QueryBuilder.build (EnvironmentDjangoSearchBackend.plain_conditions db project)
      q (<[k := v]> (kwargs a))
    = QueryBuilder.build (EnvironmentDjangoSearchBackend.plain_conditions db project)
        q (kwargs a)).
  { intros q. apply build_insert_other.
    unfold EnvironmentDjangoSearchBackend.plain_conditions,
      EnvironmentDjangoSearchBackend.scalar_conditions, scalar_condition,
      condition.
    registry_keywords. }
  assert (Henv : forall q,
    QueryBuilder.build
      (EnvironmentDjangoSearchBackend.environment_conditions db project)
      q (<[k := v]> (kwargs a))
    = QueryBuilder.build
        (EnvironmentDjangoSearchBackend.environment_conditions db project)
        q (kwargs a)).
  { intros q. apply build_insert_other.
    unfold EnvironmentDjangoSearchBackend.environment_conditions, condition.
    registry_keywords. }
  assert (Hscalar : forall q : QuerySet GroupTagValue,
    QueryBuilder.build EnvironmentDjangoSearchBackend.scalar_conditions
      q (<[k := v]> (kwargs a))
    = QueryBuilder.build EnvironmentDjangoSearchBackend.scalar_conditions
        q (kwargs a)).
  { intros q. apply build_insert_other.
    unfold EnvironmentDjangoSearchBackend.scalar_conditions, scalar_condition,
      condition.
    registry_keywords. }
  apply bind_ext. intros _ st1.
  apply bind_ext. intros [sort_expression value_to_cursor_score] st2.
  rewrite Hbase. apply bind_ext. intros q1 st3.
  destruct (environment_id a) as [e|].
  - apply bind_ext. intros tags_ st4.
    apply bind_ext. intros tags st5.
    apply bind_ext. intros _ st6.
    apply bind_ext. intros name st7.
    apply bind_ext. intros environment st8.
    apply bind_ext. intros _ st9.
    rewrite Henv. apply bind_ext. intros q2 st10.
    apply bind_ext. intros value st11.
    apply bind_ext. intros _ st12.
    rewrite Hscalar. reflexivity.
  - rewrite Hplain. reflexivity.
Qed.
Lemma environment_ignores_unknown_keyword_witness :
  EnvironmentDjangoSearchBackend.query Example.settings Sample.db
    Example.project
    (with_kwargs (Example.args ∅) (<[ "asigned_to" := VUser 7 ]> ∅))
    Example.no_tags
  = EnvironmentDjangoSearchBackend.query Example.settings Sample.db
      Example.project (Example.args ∅) Example.no_tags.
Proof.
  apply (environment_ignores_unknown_keyword Example.settings Sample.db
           Example.project (Example.args ∅) Example.no_tags
           "asigned_to" (VUser 7)).
  vm_compute. intros H.
  repeat (destruct H as [H|H]; [discriminate H|]). exact H.
Defined.

(** ** The page of an environment-scoped search *)

Lemma join_environment_row db e qs row :
  In row (rows (EnvironmentDjangoSearchBackend.join_environment db e qs)) ->
  In (snd row) (group_environments db)
  /\ ge_group_id (snd row) = g_id (fst row)
  /\ ge_environment_id (snd row) = e.
Proof.
  unfold EnvironmentDjangoSearchBackend.join_environment; simpl.
  rewrite in_flat_map. intros [g [Hg Hrow]].
  apply in_map_iff in Hrow. destruct Hrow as [ge [<- Hge]].
  apply filter_In in Hge. destruct Hge as [Hin Hmatch].
  apply andb_true_iff in Hmatch. destruct Hmatch as [Hid Henv].
  apply Z.eqb_eq in Hid, Henv. cbn [fst snd]. auto.
Qed.

Lemma environment_tag_row (r : GroupTagValue) pid value ids :
  matches_all [("project_id", VInt pid); ("key", VStr "environment");
               ("value", value); ("group_id__in", VIds ids)] r = true ->
  gtv_project_id r = pid
  /\ gtv_key r = "environment"
  /\ lookup_holds LExact (VStr (gtv_value r)) value = true
  /\ In (gtv_group_id r) ids.
Proof.
  rewrite matches_all_cons, andb_true_iff. intros [Hproject Hrest].
  apply tag_value_query in Hrest. split; [|exact Hrest].
  rewrite (matches_lookup_eval "project_id" "project_id" LExact
             (VInt (gtv_project_id r))) in Hproject
    by (vm_compute; reflexivity).
  cbn [lookup_holds sql_compare] in Hproject.
  rewrite <- Z.eqb_compare in Hproject. now apply Z.eqb_eq.
Qed.

Lemma env_query_page cfg db project a st e r st' :
  environment_id a = Some e ->
  EnvironmentDjangoSearchBackend.query cfg db project a st = (Ok r, st') ->
  exists tags name,
    caller_tags st = Some tags
    /\ tags !! "environment" = Some name
    /\ forall g, In g (result_set r) ->
         (exists ge, In ge (group_environments db)
                     /\ ge_group_id ge = g_id g
                     /\ ge_environment_id ge = e)
         /\ (exists tv, In tv (group_tag_values db)
                        /\ gtv_group_id tv = g_id g
                        /\ gtv_project_id tv = project_id project
                        /\ gtv_key tv = "environment"
                        /\ lookup_holds LExact (VStr (gtv_value tv)) name
                           = true)
         /\ (forall key value,
               delete "environment" tags !! key = Some value ->
               has_tag db key value (g_id g)).
Proof.
  intros Henv. unfold EnvironmentDjangoSearchBackend.query. cbv zeta.
  rewrite Henv. intros Hrun.
  step_ok Hrun u Hassert. step_ok Hrun strategy Hstrategy.
  destruct strategy as [sort_expression value_to_cursor_score].
  step_ok Hrun q1 Hbase.
  step_ok Hrun tags_ Htags.
  destruct (caller_tags st) as [tags|]; step_ok Hrun tags' Htags'.
  step_ok Hrun u1 Hin. step_ok Hrun name Hname.
  step_ok Hrun environment Hget. step_ok Hrun u2 Hid.
  step_ok Hrun q2 Hjoin. step_ok Hrun value Hvalue.
  step_ok Hrun u3 Hput. step_ok Hrun q3 Hscalar.
  step_ok Hrun data Hdata. step_ok Hrun ids Hpage.
  apply ret_inv in Hrun. destruct Hrun as [Hr _]. injection Hr as ->.
  unfold getitem in Hname, Hvalue.
  destruct (tags !! "environment") as [n|] eqn:Hn; [|discriminate].
  injection Hname as <-. injection Hvalue as <-.
  exists tags, n. split; [reflexivity|]. split; [exact Hn|].
  intros g Hg. simpl in Hg. apply hydrate_in in Hg. destruct Hg as [Hid' Hg].
  eapply get_result_in in Hid'; [|exact Hpage]. destruct Hid' as [score Hsc].
  eapply map_outcome_in in Hsc; [|exact Hdata].
  destruct Hsc as [[id s] [Hitem Hconv]]. simpl in Hconv.
  destruct (value_to_cursor_score s); simpl in Hconv; [|discriminate].
  injection Hconv as -> ->.
  apply list_elem_of_In, elem_of_map_to_list in Hitem.
  apply intersect_tags_lookup in Hitem. destruct Hitem as [Hcand Htagged].
  apply dict_lookup_in, in_map_iff in Hcand.
  destruct Hcand as [row [Heq Hrow]]. injection Heq as Hrid _.
  simpl in Hrow.
  eapply build_narrows in Hrow;
    [|apply scalar_conditions_selective|exact Hscalar].
  apply in_rows_filter in Hrow. destruct Hrow as [Hrow Hmatch].
  apply environment_tag_row in Hmatch.
  destruct Hmatch as [Hproject [Hkey [Hval Hids]]].
  rewrite Hrid in Hids.
  apply nodup_In, in_map_iff in Hids.
  destruct Hids as [[g' ge] [Hgid Hjrow]]. simpl in Hgid.
  eapply build_narrows in Hjrow;
    [|apply environment_conditions_selective|exact Hjoin].
  apply join_environment_row in Hjrow. cbn [fst snd] in Hjrow.
  destruct Hjrow as [Hge [Hge_id Hge_env]].
  split; [|split].
  - exists ge. split; [exact Hge|]. split; [congruence|exact Hge_env].
  - exists row. auto.
  - intros key v Hkv.
    rewrite List.Forall_forall in Htagged.
    apply (Htagged (key, v)).
    now apply list_elem_of_In, elem_of_map_to_list.
Qed.

(** X12.  An environment-scoped search only returns issues seen in that
    environment: each has a GroupEnvironment row for [environment_id] and
    a tag value of the project with key [environment] and the name passed
    in [tags]. *)
Theorem environment_scope cfg db project a st e r st' tags name :
  environment_id a = Some e ->
  caller_tags st = Some tags ->
  tags !! "environment" = Some name ->
  EnvironmentDjangoSearchBackend.query cfg db project a st = (Ok r, st') ->
  forall g, In g (result_set r) ->
    (exists ge, In ge (group_environments db)
                /\ ge_group_id ge = g_id g
                /\ ge_environment_id ge = e)
    /\ (exists tv, In tv (group_tag_values db)
                   /\ gtv_group_id tv = g_id g
                   /\ gtv_project_id tv = project_id project
                   /\ gtv_key tv = "environment"
                   /\ lookup_holds LExact (VStr (gtv_value tv)) name = true).
Proof.
  intros Henv Htags Hname Hrun g Hg.
  destruct (env_query_page _ _ _ _ _ _ _ _ Henv Hrun)
    as (tags' & name' & Htags' & Hname' & Hpage).
  rewrite Htags in Htags'. injection Htags' as <-.
  rewrite Hname in Hname'. injection Hname' as <-.
  destruct (Hpage g Hg) as [Hge [Htv _]]. auto.
Qed.

Lemma environment_scope_witness :
  exists r,
    fst (EnvironmentDjangoSearchBackend.query Example.settings Sample.db
           Example.project (Example.env_args ∅)
           (Example.with_tags {[ "environment" := VStr "prod" ]})) = Ok r
    /\ map g_id (result_set r) = [3; 1]
    /\ forall g, In g (result_set r) ->
         (exists ge, In ge (group_environments Sample.db)
                     /\ ge_group_id ge = g_id g
                     /\ ge_environment_id ge = 9)
         /\ (exists tv, In tv (group_tag_values Sample.db)
                        /\ gtv_group_id tv = g_id g
                        /\ gtv_project_id tv = 1
                        /\ gtv_key tv = "environment"
                        /\ lookup_holds LExact (VStr (gtv_value tv))
                             (VStr "prod") = true).
Proof.
  eexists. split; [vm_compute; reflexivity|].
  split; [reflexivity|].
  assert (Hname : ({[ "environment" := VStr "prod" ]} : gmap string pyval)
                  !! "environment" = Some (VStr "prod"))
    by (vm_compute; reflexivity).
  apply (environment_scope Example.settings Sample.db Example.project
           (Example.env_args ∅)
           (Example.with_tags {[ "environment" := VStr "prod" ]}) 9 _
           (Example.with_tags ∅) {[ "environment" := VStr "prod" ]}
           (VStr "prod") eq_refl eq_refl Hname).
  vm_compute. reflexivity.
Defined.

(** X13.  An environment-scoped search only returns issues that match
    every other tag filter passed in [tags]: a wildcard asks that the key
    exists for the issue, any other value that the issue carries that
    value. *)
Theorem environment_results_match_tags cfg db project a st e r st' tags :
  environment_id a = Some e ->
  caller_tags st = Some tags ->
  EnvironmentDjangoSearchBackend.query cfg db project a st = (Ok r, st') ->
  forall g key value,
    In g (result_set r) ->
    key <> "environment" -> tags !! key = Some value ->
    has_tag db key value (g_id g).
Proof.
  intros Henv Htags Hrun g key value Hg Hkey Hkv.
  destruct (env_query_page _ _ _ _ _ _ _ _ Henv Hrun)
    as (tags' & name & Htags' & _ & Hpage).
  rewrite Htags in Htags'. injection Htags' as <-.
  destruct (Hpage g Hg) as [_ [_ Htag]]. apply Htag.
  now rewrite lookup_delete_ne by congruence.
Qed.

Lemma environment_results_match_tags_witness :
  exists r,
    fst (EnvironmentDjangoSearchBackend.query Example.settings Sample.db
           Example.project (Example.env_args ∅)
           (Example.with_tags {[ "environment" := VStr "prod";
                                 "browser" := VAny ]})) = Ok r
    /\ map g_id (result_set r) = [3]
    /\ forall g, In g (result_set r) -> has_tag Sample.db "browser" VAny (g_id g).
Proof.
  eexists. split; [vm_compute; reflexivity|].
  split; [reflexivity|].
  intros g Hg.
  eapply (environment_results_match_tags Example.settings Sample.db
            Example.project (Example.env_args ∅)
            (Example.with_tags {[ "environment" := VStr "prod";
                                  "browser" := VAny ]}) 9);
    [reflexivity|reflexivity|vm_compute; reflexivity|exact Hg|discriminate
    |vm_compute; reflexivity].
Defined.
(** ** What the filters select *)

Lemma matches_message_icontains (g : Group) q :
  matches_lookup "message__icontains" (VStr q) g = icontains q (g_message g).
Proof.
  now rewrite (matches_lookup_eval "message__icontains" "message" LIContains
                 (VStr (g_message g))) by (vm_compute; reflexivity).
Qed.

Lemma matches_culprit_icontains (g : Group) q :
  matches_lookup "culprit__icontains" (VStr q) g = icontains q (g_culprit g).
Proof.
  now rewrite (matches_lookup_eval "culprit__icontains" "culprit" LIContains
                 (VStr (g_culprit g))) by (vm_compute; reflexivity).
Qed.

(** The rows [_build_queryset] returns have passed its first stages:
    the project, the text, the status, the bookmark, the assignee and
    the subscription. *)
Lemma build_queryset_stages cfg db project tags sort_by env kw st qs st' :
  DjangoSearchBackend._build_queryset cfg db project tags sort_by env kw st
  = (Ok qs, st') ->
  forall g, In g (rows qs) ->
    (truthy (arg kw "query" VNone) = true ->
     matches_lookup "message__icontains" (arg kw "query" VNone) g
     || matches_lookup "culprit__icontains" (arg kw "query" VNone) g = true)
    /\ (truthy (arg kw "bookmarked_by" VNone) = true ->
        has_membership (bookmarks db) project (arg kw "bookmarked_by" VNone) g
        = true)
    /\ (truthy (arg kw "assigned_to" VNone) = true ->
        has_membership (assignees db) project (arg kw "assigned_to" VNone) g
        = true)
    /\ (truthy (arg kw "assigned_to" VNone) = false ->
        in_True_False (arg kw "unassigned" VNone) = true ->
        assignee_isnull (assignees db) (arg kw "unassigned" VNone) g = true)
    /\ (is_None (arg kw "subscribed_by" VNone) = false ->
        In (g_id g)
          (subscribed_groups (subscriptions db) project
             (arg kw "subscribed_by" VNone)))
    /\ (truthy (arg kw "first_release" VNone) = true ->
        first_release_is (releases db) (organization_id project)
          (arg kw "first_release" VNone) g = true).
Proof.
  unfold DjangoSearchBackend._build_queryset. cbv zeta.
  intros Hrun g Hg.
  set (q0 := qs_where (fun g => g_project g =? project_id project) _) in Hrun.
  set (q1 := (if truthy (arg kw "query" VNone) then _ else _) q0) in Hrun.
  set (q2 := (if is_None _ then _ else _) q1) in Hrun.
  set (q3 := (if truthy (arg kw "bookmarked_by" VNone) then _ else _) q2)
    in Hrun.
  set (q4 := (if truthy (arg kw "assigned_to" VNone) then _ else _) q3)
    in Hrun.
  set (q5 := (if negb (is_None _) then _ else _) q4) in Hrun.
  run_monad Hrun.
  destruct (truthy (arg kw "first_release" VNone) && is_EMPTY _) eqn:Hempty.
  { inversion Hrun; subst. destruct Hg. }
  set (q6 := (if truthy (arg kw "first_release" VNone) then _ else _) q5)
    in Hrun.
  assert (H6 : In g (rows q6)).
  { clearbody q6. destruct (tags_truthy tags).
    - destruct (get_group_ids_for_search_filter _ _ _ _).
      + inversion Hrun; subst. destruct Hg.
      + eapply build_queryset_ranges_narrows in Hrun; [|exact Hg].
        narrow Hrun. exact Hrun.
    - eapply build_queryset_ranges_narrows in Hrun; [|exact Hg]. exact Hrun. }
  clear Hrun Hg.
  assert (H5 : In g (rows q5)) by (subst q6; narrow H6; exact H6).
  assert (H4 : In g (rows q4)) by (subst q5; narrow H5; exact H5).
  assert (H3 : In g (rows q3)) by (subst q4; narrow H4; exact H4).
  assert (H2 : In g (rows q2)) by (subst q3; narrow H3; exact H3).
  assert (H1 : In g (rows q1)) by (subst q2; narrow H2; exact H2).
  repeat split.
  - intros Ht. subst q1. rewrite Ht in H1. now apply in_rows_where in H1.
  - intros Ht. subst q3. rewrite Ht in H3. now apply in_rows_where in H3.
  - intros Ht. subst q4. rewrite Ht in H4. now apply in_rows_where in H4.
  - intros Ht Hu. subst q4. rewrite Ht, Hu in H4.
    now apply in_rows_where in H4.
  - intros Hs. subst q5. rewrite Hs in H5. cbn [negb] in H5.
    apply in_rows_filter in H5. destruct H5 as [_ H5].
    rewrite matches_id_in in H5. now apply existsb_Zeqb.
  - intros Ht. subst q6. rewrite Ht in H6. now apply in_rows_where in H6.
Qed.

Lemma plain_query_stages cfg db project a st r st' :
  DjangoSearchBackend.query cfg db project a st = (Ok r, st') ->
  exists qs st0 st1,
    DjangoSearchBackend._build_queryset cfg db project (caller_tags st0)
      (default "date" (sort_by a)) (environment_id a) (kwargs a) st0
    = (Ok qs, st1)
    /\ result_set r = rows qs.
Proof.
  unfold DjangoSearchBackend.query. intros Hrun.
  destruct (negb _); [discriminate|].
  cbv zeta in Hrun. run_monad Hrun.
  destruct (DjangoSearchBackend._build_queryset _ _ _ _ _ _ _ _)
    as [[qs|e] st1] eqn:Hb; [|discriminate].
  destruct (paginator_for _) as [cls clause].
  inversion Hrun; subst. exists qs, st, st'. split; [exact Hb|reflexivity].
Qed.

(** The rows the environment backend returns have passed the handler of
    every parameter of the first builder. *)
Lemma env_query_passes cfg db project a st r st' :
  List.NoDup (map g_id (groups db)) ->
  EnvironmentDjangoSearchBackend.query cfg db project a st = (Ok r, st') ->
  forall g, In g (result_set r) ->
    Forall (fun item => passes (kwargs a) item g)
      (EnvironmentDjangoSearchBackend.base_conditions db project).
Proof.
  intros Hnd Hrun g Hg.
  destruct (env_query_base _ _ _ _ _ _ _ Hrun Hnd) as [q1 [Hbase Hq1]].
  apply Hq1 in Hg.
  now apply (build_rows _ _ (base_conditions_selective _ _ _) _ _ Hbase) in Hg.
Qed.

Lemma passes_lambda2 {A} (kw : gmap string pyval) name
  (f : QuerySet A -> pyval -> QuerySet A) v (r : A) :
  kw !! name = Some v ->
  passes kw (name, condition (lambda2 f) None) r ->
  In r (rows (f (objects [r]) v)).
Proof.
  intros Hv [q [Hq Hin]].
  rewrite (build_lambda2 _ _ _ _ _ Hv) in Hq. now injection Hq as <-.
Qed.

(** X14.  A search for a text only returns issues whose message or
    culprit contains it, whatever the case of the letters. *)
Theorem query_text_matches cfg db project a st r st' q :
  List.NoDup (map g_id (groups db)) ->
  kwargs a !! "query" = Some (VStr q) -> q <> "" ->
  DjangoSearchBackend.query cfg db project a st = (Ok r, st')
  \/ EnvironmentDjangoSearchBackend.query cfg db project a st = (Ok r, st') ->
  forall g, In g (result_set r) ->
    icontains q (g_message g) || icontains q (g_culprit g) = true.
Proof.
  intros Hnd Hq Hne Hrun g Hg.
  assert (Htruthy : truthy (VStr q) = true).
  { cbn [truthy]. apply negb_true_iff. now apply String.eqb_neq. }
  rewrite <- matches_message_icontains, <- matches_culprit_icontains.
  destruct Hrun as [Hrun|Hrun].
  - apply plain_query_stages in Hrun.
    destruct Hrun as (qs & st0 & st1 & Hb & Hr). rewrite Hr in Hg.
    destruct (build_queryset_stages _ _ _ _ _ _ _ _ _ _ Hb g Hg) as [Htext _].
    rewrite (arg_given _ _ _ _ Hq) in Htext. now apply Htext.
  - pose proof (env_query_passes _ _ _ _ _ _ _ Hnd Hrun g Hg) as Hall.
    unfold EnvironmentDjangoSearchBackend.base_conditions in Hall.
    inversion Hall as [|? ? Hpass _]; subst. clear Hall.
    apply (passes_lambda2 _ _ _ _ _ Hq) in Hpass.
    cbv beta in Hpass. cbn [truthy] in Hpass, Htruthy.
    rewrite Htruthy in Hpass. now apply in_rows_where in Hpass.
Qed.
Lemma query_text_matches_witness :
  exists r,
    fst (DjangoSearchBackend.query Example.settings Sample.db Example.project
           (Example.args {[ "query" := VStr "WORLD" ]}) Example.no_tags)
    = Ok r
    /\ map g_id (result_set r) = [1; 3]
    /\ forall g, In g (result_set r) ->
         icontains "WORLD" (g_message g) || icontains "WORLD" (g_culprit g)
         = true.
Proof.
  eexists. split; [vm_compute; reflexivity|].
  split; [reflexivity|].
  apply (query_text_matches Example.settings Sample.db Example.project
           (Example.args {[ "query" := VStr "WORLD" ]}) Example.no_tags _
           Example.no_tags "WORLD" sample_ids_unique);
    [vm_compute; reflexivity|discriminate|].
  left. vm_compute. reflexivity.
Defined.

Lemma has_membership_user table project u g :
  has_membership table project (VUser u) g = true
  <-> exists m, In m table /\ m_group m = g_id g
                /\ m_project m = project_id project /\ m_user m = u.
Proof.
  unfold has_membership. cbn [user_pk]. rewrite existsb_exists.
  split; intros [m [Hin Hm]]; exists m; (split; [exact Hin|]).
  - apply andb_true_iff in Hm. destruct Hm as [Hm Hu].
    apply andb_true_iff in Hm. destruct Hm as [Hg Hp].
    apply Z.eqb_eq in Hg, Hp, Hu. auto.
  - destruct Hm as [-> [-> ->]]. now rewrite !Z.eqb_refl.
Qed.

Lemma subscribed_groups_user table project u id :
  In id (subscribed_groups table project (VUser u))
  <-> exists s, In s table /\ s_group s = id
                /\ s_project s = project_id project /\ s_user s = u
                /\ s_is_active s = true.
Proof.
  unfold subscribed_groups. cbn [user_pk]. rewrite in_map_iff.
  split; intros [s Hs]; exists s.
  - destruct Hs as [Hid Hin]. apply filter_In in Hin.
    destruct Hin as [Hin Hs].
    apply andb_true_iff in Hs. destruct Hs as [Hs Hactive].
    apply andb_true_iff in Hs. destruct Hs as [Hp Hu].
    apply Z.eqb_eq in Hp, Hu. auto.
  - destruct Hs as [Hin [Hid [Hp [Hu Hactive]]]]. split; [exact Hid|].
    apply filter_In. split; [exact Hin|].
    now rewrite Hp, Hu, Hactive, !Z.eqb_refl.
Qed.

(** X15.  The filters by user, on both backends: with [bookmarked_by] every
    issue returned is bookmarked by that user in the project, with
    [assigned_to] it is assigned to that user in the project, with
    [subscribed_by] the user has an active subscription to it in the
    project. *)
Theorem user_filters cfg db project a st r st' :
  List.NoDup (map g_id (groups db)) ->
  DjangoSearchBackend.query cfg db project a st = (Ok r, st')
  \/ EnvironmentDjangoSearchBackend.query cfg db project a st = (Ok r, st') ->
  forall g u, In g (result_set r) ->
    (kwargs a !! "bookmarked_by" = Some (VUser u) ->
     exists m, In m (bookmarks db) /\ m_group m = g_id g
               /\ m_project m = project_id project /\ m_user m = u)
    /\ (kwargs a !! "assigned_to" = Some (VUser u) ->
        exists m, In m (assignees db) /\ m_group m = g_id g
                  /\ m_project m = project_id project /\ m_user m = u)
    /\ (kwargs a !! "subscribed_by" = Some (VUser u) ->
        exists s, In s (subscriptions db) /\ s_group s = g_id g
                  /\ s_project s = project_id project /\ s_user s = u
                  /\ s_is_active s = true).
Proof.
  intros Hnd [Hrun|Hrun] g u Hg.
  - apply plain_query_stages in Hrun.
    destruct Hrun as (qs & st0 & st1 & Hb & Hr). rewrite Hr in Hg.
    destruct (build_queryset_stages _ _ _ _ _ _ _ _ _ _ Hb g Hg)
      as (_ & Hbook & Hassign & _ & Hsub & _).
    repeat split; intros Hu; rewrite (arg_given _ _ _ _ Hu) in *.
    + now apply has_membership_user, Hbook.
    + now apply has_membership_user, Hassign.
    + now apply subscribed_groups_user, Hsub.
  - pose proof (env_query_passes _ _ _ _ _ _ _ Hnd Hrun g Hg) as Hall.
    unfold EnvironmentDjangoSearchBackend.base_conditions in Hall.
    inversion Hall as [|? ? _ Hall1]; subst. clear Hall.
    inversion Hall1 as [|? ? _ Hall2]; subst. clear Hall1.
    inversion Hall2 as [|? ? Hbook Hall3]; subst. clear Hall2.
    inversion Hall3 as [|? ? Hassign Hall4]; subst. clear Hall3.
    inversion Hall4 as [|? ? _ Hall5]; subst. clear Hall4.
    inversion Hall5 as [|? ? Hsub _]; subst. clear Hall5.
    repeat split; intros Hu.
    + apply (passes_lambda2 _ _ _ _ _ Hu) in Hbook.
      apply in_rows_where in Hbook. now apply has_membership_user.
    + apply (passes_lambda2 _ _ _ _ _ Hu) in Hassign.
      apply in_rows_where in Hassign. now apply has_membership_user.
    + apply (passes_lambda2 _ _ _ _ _ Hu) in Hsub.
      apply in_rows_filter in Hsub. destruct Hsub as [_ Hsub].
      rewrite matches_id_in in Hsub.
      now apply subscribed_groups_user, existsb_Zeqb.
Qed.

Lemma user_filters_witness :
  exists r,
    fst (EnvironmentDjangoSearchBackend.query Example.settings Sample.db
           Example.project
           (Example.args {[ "subscribed_by" := VUser 7 ]}) Example.no_tags)
    = Ok r
    /\ map g_id (result_set r) = [1]
    /\ forall g, In g (result_set r) ->
         exists s, In s (subscriptions Sample.db) /\ s_group s = g_id g
                   /\ s_project s = 1 /\ s_user s = 7
                   /\ s_is_active s = true.
Proof.
  eexists. split; [vm_compute; reflexivity|].
  split; [reflexivity|].
  intros g Hg.
  eapply (user_filters Example.settings Sample.db Example.project
            (Example.args {[ "subscribed_by" := VUser 7 ]}) Example.no_tags
            _ _ sample_ids_unique);
    [right; vm_compute; reflexivity|exact Hg|vm_compute; reflexivity].
Defined.
(** X16.  The filter [unassigned]: with [unassigned=True] no issue returned
    has an assignee, with [unassigned=False] every issue returned has one.
    The plain backend applies the filter only when [assigned_to] is not
    given; the environment backend applies it always. *)
Theorem unassigned_filter cfg db project a st r st' b :
  List.NoDup (map g_id (groups db)) ->
  kwargs a !! "unassigned" = Some (VBool b) ->
  (truthy (arg (kwargs a) "assigned_to" VNone) = false
   /\ DjangoSearchBackend.query cfg db project a st = (Ok r, st'))
  \/ EnvironmentDjangoSearchBackend.query cfg db project a st = (Ok r, st') ->
  forall g, In g (result_set r) ->
    existsb (fun m => m_group m =? g_id g) (assignees db) = negb b.
Proof.
  intros Hnd Hu Hrun g Hg.
  assert (Hnull : assignee_isnull (assignees db) (VBool b) g = true ->
                  existsb (fun m => m_group m =? g_id g) (assignees db)
                  = negb b).
  { unfold assignee_isnull. cbn [truthy].
    destruct b, (existsb _ (assignees db)); cbn [negb]; congruence. }
  apply Hnull. clear Hnull.
  destruct Hrun as [[Hassigned Hrun]|Hrun].
  - apply plain_query_stages in Hrun.
    destruct Hrun as (qs & st0 & st1 & Hb & Hr). rewrite Hr in Hg.
    destruct (build_queryset_stages _ _ _ _ _ _ _ _ _ _ Hb g Hg)
      as (_ & _ & _ & Hun & _).
    rewrite (arg_given _ _ _ _ Hu) in Hun. now apply Hun.
  - pose proof (env_query_passes _ _ _ _ _ _ _ Hnd Hrun g Hg) as Hall.
    unfold EnvironmentDjangoSearchBackend.base_conditions in Hall.
    inversion Hall as [|? ? _ Hall1]; subst. clear Hall.
    inversion Hall1 as [|? ? _ Hall2]; subst. clear Hall1.
    inversion Hall2 as [|? ? _ Hall3]; subst. clear Hall2.
    inversion Hall3 as [|? ? _ Hall4]; subst. clear Hall3.
    inversion Hall4 as [|? ? Hun _]; subst. clear Hall4.
    apply (passes_lambda2 _ _ _ _ _ Hu) in Hun.
    now apply in_rows_where in Hun.
Qed.

Lemma unassigned_filter_witness :
  exists r,
    fst (DjangoSearchBackend.query Example.settings Sample.db Example.project
           (Example.args {[ "unassigned" := VBool true ]}) Example.no_tags)
    = Ok r
    /\ map g_id (result_set r) = [3]
    /\ forall g, In g (result_set r) ->
         existsb (fun m => m_group m =? g_id g) (assignees Sample.db) = false.
Proof.
  eexists. split; [vm_compute; reflexivity|].
  split; [reflexivity|].
  apply (unassigned_filter Example.settings Sample.db Example.project
           (Example.args {[ "unassigned" := VBool true ]}) Example.no_tags _
           Example.no_tags true sample_ids_unique);
    [vm_compute; reflexivity|].
  left. split; vm_compute; reflexivity.
Defined.

(** ** The date range of the plain backend *)

Lemma event_project (ev : Event) pid :
  matches_lookup "project_id" (VInt pid) ev = (e_project_id ev =? pid).
Proof.
  rewrite (matches_lookup_eval "project_id" "project_id" LExact
             (VInt (e_project_id ev))) by (vm_compute; reflexivity).
  cbn [lookup_holds sql_compare]. symmetry. apply Z.eqb_compare.
Qed.

Lemma event_message (ev : Event) q :
  matches_lookup "message__icontains" (VStr q) ev = icontains q (e_message ev).
Proof.
  now rewrite (matches_lookup_eval "message__icontains" "message" LIContains
                 (VStr (e_message ev))) by (vm_compute; reflexivity).
Qed.

Lemma event_range (ev : Event) from_given F from_inclusive to_given T
  to_inclusive :
  matches_all
    (range_params "datetime" from_given (VDate F) from_inclusive
       to_given (VDate T) to_inclusive) ev
  = (if from_given
     then compares true (truthy from_inclusive) F (e_datetime ev) else true)
    && (if to_given
        then compares false (truthy to_inclusive) T (e_datetime ev) else true).
Proof.
  unfold range_params.
  destruct from_given, to_given;
    repeat match goal with
      | |- context [truthy ?v] => destruct (truthy v)
      end;
    cbn [app]; rewrite ?matches_all_cons, ?matches_all_nil;
    destruct ev as [eg ep ed em]; repeat eval_lookup; cbn [e_datetime];
    cbn [lookup_holds sql_compare compares andb];
    rewrite ?compare_ge, ?compare_gt, ?compare_le, ?compare_lt, ?andb_true_r;
    reflexivity.
Qed.
Lemma build_queryset_ranges_dates cfg db project sort_by kw qs st qs' st' :
  DjangoSearchBackend._build_queryset_ranges cfg db project sort_by kw qs st
  = (Ok qs', st') ->
  truthy (arg kw "date_from" VNone) || truthy (arg kw "date_to" VNone) = true ->
  exists ids,
    (length ids <= 1000)%nat
    /\ (forall g, In g (rows qs') -> In (g_id g) ids)
    /\ (forall id, In id ids ->
        exists ev, In ev (events db) /\ e_group_id ev = id
          /\ matches_all
               (("project_id", VInt (project_id project))
                :: range_params "datetime"
                     (truthy (arg kw "date_from" VNone))
                     (arg kw "date_from" VNone)
                     (arg kw "date_from_inclusive" (VBool true))
                     (truthy (arg kw "date_to" VNone))
                     (arg kw "date_to" VNone)
                     (arg kw "date_to_inclusive" (VBool true))) ev = true
          /\ (truthy (arg kw "query" VNone) = true ->
              matches_lookup "message__icontains" (arg kw "query" VNone) ev
              = true)).
Proof.
  unfold DjangoSearchBackend._build_queryset_ranges. cbv zeta.
  intros Hrun Hdates. rewrite Hdates in Hrun.
  set (q := (if negb (is_None _) || negb (is_None _) then _ else _) _) in Hrun.
  clearbody q.
  match type of Hrun with
  | context [VIds ?l] => set (ids := l) in *
  end.
  exists ids. split; [subst ids; rewrite length_firstn; apply Nat.le_min_l|].
  split.
  - clearbody ids. run_monad Hrun.
    destruct (negb _ || _); destruct (getitem _ sort_by);
      inversion Hrun; subst; intros g Hg;
      cbn [qs_extra_select rows] in Hg;
      apply in_rows_filter in Hg; destruct Hg as [_ Hg];
      rewrite matches_id_in in Hg; now apply existsb_Zeqb.
  - clear Hrun. intros id Hid. subst ids.
    apply in_firstn, nodup_In, in_map_iff in Hid.
    destruct Hid as [ev [Hev Hin]]. exists ev.
    destruct (truthy (arg kw "query" VNone)).
    + apply in_rows_filter in Hin. destruct Hin as [Hin Hq].
      rewrite matches_all_one in Hq.
      apply in_rows_filter in Hin. destruct Hin as [Hin Hparams].
      cbn [objects rows] in Hin. auto.
    + apply in_rows_filter in Hin. destruct Hin as [Hin Hparams].
      cbn [objects rows] in Hin.
      repeat split; auto. discriminate.
Qed.

Lemma build_queryset_dates cfg db project tags sort_by env kw st qs st' :
  DjangoSearchBackend._build_queryset cfg db project tags sort_by env kw st
  = (Ok qs, st') ->
  truthy (arg kw "date_from" VNone) || truthy (arg kw "date_to" VNone) = true ->
  exists ids,
    (length ids <= 1000)%nat
    /\ (forall g, In g (rows qs) -> In (g_id g) ids)
    /\ (forall id, In id ids ->
        exists ev, In ev (events db) /\ e_group_id ev = id
          /\ matches_all
               (("project_id", VInt (project_id project))
                :: range_params "datetime"
                     (truthy (arg kw "date_from" VNone))
                     (arg kw "date_from" VNone)
                     (arg kw "date_from_inclusive" (VBool true))
                     (truthy (arg kw "date_to" VNone))
                     (arg kw "date_to" VNone)
                     (arg kw "date_to_inclusive" (VBool true))) ev = true
          /\ (truthy (arg kw "query" VNone) = true ->
              matches_lookup "message__icontains" (arg kw "query" VNone) ev
              = true)).
Proof.
  unfold DjangoSearchBackend._build_queryset. cbv zeta.
  intros Hrun Hdates.
  set (q := (if negb (is_None _) then _ else _) _) in Hrun. clearbody q.
  assert (Hnone : exists ids : list Z,
    (length ids <= 1000)%nat
    /\ (forall g : Group, In g [] -> In (g_id g) ids)
    /\ (forall id, In id ids ->
        exists ev, In ev (events db) /\ e_group_id ev = id
          /\ matches_all
               (("project_id", VInt (project_id project))
                :: range_params "datetime"
                     (truthy (arg kw "date_from" VNone))
                     (arg kw "date_from" VNone)
                     (arg kw "date_from_inclusive" (VBool true))
                     (truthy (arg kw "date_to" VNone))
                     (arg kw "date_to" VNone)
                     (arg kw "date_to_inclusive" (VBool true))) ev = true
          /\ (truthy (arg kw "query" VNone) = true ->
              matches_lookup "message__icontains" (arg kw "query" VNone) ev
              = true))).
  { exists []. split; [simpl; lia|]. split; intros ? []. }
  run_monad Hrun.
  destruct (truthy _ && is_EMPTY _).
  { inversion Hrun; subst. exact Hnone. }
  destruct (tags_truthy tags).
  - destruct (get_group_ids_for_search_filter _ _ _ _).
    + inversion Hrun; subst. exact Hnone.
    + eapply build_queryset_ranges_dates; eassumption.
  - eapply build_queryset_ranges_dates; eassumption.
Qed.

Lemma event_from_lookup (ev : Event) F inclusive :
  matches_lookup
    (if truthy inclusive then "datetime" ++ "__gte" else "datetime" ++ "__gt")
    (VDate F) ev
  = compares true (truthy inclusive) F (e_datetime ev).
Proof.
  destruct ev as [eg ep ed em]; destruct (truthy inclusive); eval_lookup;
    cbn [e_datetime lookup_holds sql_compare compares];
    [apply compare_ge|apply compare_gt].
Qed.

Lemma event_to_lookup (ev : Event) T inclusive :
  matches_lookup
    (if truthy inclusive then "datetime" ++ "__lte" else "datetime" ++ "__lt")
    (VDate T) ev
  = compares false (truthy inclusive) T (e_datetime ev).
Proof.
  destruct ev as [eg ep ed em]; destruct (truthy inclusive); eval_lookup;
    cbn [e_datetime lookup_holds sql_compare compares];
    [apply compare_le|apply compare_lt].
Qed.

Lemma event_range_bounds (ev : Event) from_ from_inclusive to_ to_inclusive :
  matches_all
    (range_params "datetime" (truthy from_) from_ from_inclusive
       (truthy to_) to_ to_inclusive) ev = true ->
  (forall F, from_ = VDate F ->
   compares true (truthy from_inclusive) F (e_datetime ev) = true)
  /\ (forall T, to_ = VDate T ->
      compares false (truthy to_inclusive) T (e_datetime ev) = true).
Proof.
  unfold range_params, matches_all. rewrite forallb_app, andb_true_iff.
  intros [Hfrom Hto]. split.
  - intros F ->. cbn [truthy forallb fst snd] in Hfrom.
    rewrite andb_true_r in Hfrom. now rewrite <- event_from_lookup.
  - intros T ->. cbn [truthy forallb fst snd] in Hto.
    rewrite andb_true_r in Hto. now rewrite <- event_to_lookup.
Qed.

Lemma nodup_length_incl (l ids : list Z) :
  incl l ids -> (length (nodup Z.eq_dec l) <= length ids)%nat.
Proof.
  intros Hincl. apply NoDup_incl_length; [apply NoDup_nodup|].
  intros x Hx. apply Hincl. now apply nodup_In in Hx.
Qed.

(** X17.  A search of the plain backend by date range returns at most
    1000 distinct issues, and each has an event of the project whose
    datetime lies in the range (bounds included or not as the flags say)
    and, when a text is searched too, whose message contains the text. *)
Theorem plain_date_range cfg db project a st r st' :
  let date_from := arg (kwargs a) "date_from" VNone in
  let date_to := arg (kwargs a) "date_to" VNone in
  let from_inclusive := arg (kwargs a) "date_from_inclusive" (VBool true) in
  let to_inclusive := arg (kwargs a) "date_to_inclusive" (VBool true) in
  truthy date_from || truthy date_to = true ->
  DjangoSearchBackend.query cfg db project a st = (Ok r, st') ->
  (length (nodup Z.eq_dec (map g_id (result_set r))) <= 1000)%nat
  /\ forall g, In g (result_set r) ->
       exists ev,
         In ev (events db)
         /\ e_group_id ev = g_id g
         /\ e_project_id ev = project_id project
         /\ (forall F, date_from = VDate F ->
             compares true (truthy from_inclusive) F (e_datetime ev) = true)
         /\ (forall T, date_to = VDate T ->
             compares false (truthy to_inclusive) T (e_datetime ev) = true)
         /\ (forall q, kwargs a !! "query" = Some (VStr q) -> q <> "" ->
             icontains q (e_message ev) = true).
Proof.
  cbv zeta. intros Hdates Hrun.
  apply plain_query_stages in Hrun.
  destruct Hrun as (qs & st0 & st1 & Hb & ->).
  destruct (build_queryset_dates _ _ _ _ _ _ _ _ _ _ Hb Hdates)
    as (ids & Hlen & Hrows & Hids).
  split.
  - etransitivity; [|exact Hlen]. apply nodup_length_incl.
    intros id Hid. apply in_map_iff in Hid. destruct Hid as [g [<- Hg]].
    now apply Hrows.
  - intros g Hg. destruct (Hids _ (Hrows g Hg)) as (ev & Hev & Hid & Hm & Hq).
    exists ev. split; [exact Hev|]. split; [exact Hid|].
    rewrite matches_all_cons, event_project in Hm.
    apply andb_true_iff in Hm. destruct Hm as [Hp Hrange].
    split; [now apply Z.eqb_eq|].
    apply event_range_bounds in Hrange. destruct Hrange as [Hfrom Hto].
    split; [exact Hfrom|]. split; [exact Hto|].
    intros q Hquery Hne. rewrite <- event_message.
    rewrite (arg_given _ _ _ _ Hquery) in Hq. apply Hq.
    cbn [truthy]. apply negb_true_iff. now apply String.eqb_neq.
Qed.
Lemma plain_date_range_witness :
  exists r,
    fst (DjangoSearchBackend.query Example.settings Sample.db Example.project
           (Example.args {[ "date_from" := VDate 100 ]}) Example.no_tags)
    = Ok r
    /\ map g_id (result_set r) = [3]
    /\ forall g, In g (result_set r) ->
         exists ev, In ev (events Sample.db)
                    /\ e_group_id ev = g_id g
                    /\ e_project_id ev = 1
                    /\ compares true true 100 (e_datetime ev) = true.
Proof.
  eexists. split; [vm_compute; reflexivity|].
  split; [reflexivity|].
  intros g Hg.
  assert (Hdates :
    truthy (arg (kwargs (Example.args {[ "date_from" := VDate 100 ]}))
              "date_from" VNone)
    || truthy (arg (kwargs (Example.args {[ "date_from" := VDate 100 ]}))
                 "date_to" VNone) = true) by (vm_compute; reflexivity).
  assert (Hfrom :
    arg (kwargs (Example.args {[ "date_from" := VDate 100 ]})) "date_from"
      VNone = VDate 100) by (vm_compute; reflexivity).
  destruct (plain_date_range Example.settings Sample.db Example.project
              (Example.args {[ "date_from" := VDate 100 ]}) Example.no_tags
              _ Example.no_tags Hdates ltac:(vm_compute; reflexivity))
    as [_ Hevents].
  destruct (Hevents g Hg) as (ev & Hev & Hid & Hproject & Hlower & _).
  exists ev. split; [exact Hev|]. split; [exact Hid|].
  split; [exact Hproject|]. exact (Hlower 100 Hfrom).
Defined.
(** ** A parameter whose value does not count as given *)

Ltac given_test H :=
  lazymatch type of H with
  | given ?k ?v = false =>
      first [ change (given k v) with (truthy v) in H
            | change (given k v) with (negb (is_None v)) in H
            | change (given k v) with (in_True_False v) in H ]
  end.

Lemma arg_delete (kw : gmap string pyval) k name d :
  arg (delete k kw) name d = if String.eqb k name then d else arg kw name d.
Proof.
  unfold arg. destruct (String.eqb_spec k name) as [->|Hne].
  - now rewrite lookup_delete_eq.
  - now rewrite lookup_delete_ne.
Qed.

Ltac eval_eqb :=
  cbv beta iota delta [String.eqb Ascii.eqb Bool.eqb].

Lemma build_queryset_ranges_not_given cfg db project sort_by kw k v qs st :
  In k filter_parameters ->
  kw !! k = Some v -> given k v = false ->
  DjangoSearchBackend._build_queryset_ranges cfg db project sort_by
    (delete k kw) qs st
  = DjangoSearchBackend._build_queryset_ranges cfg db project sort_by kw qs st.
Proof.
  intros Hk Hv Hgiven.
  unfold DjangoSearchBackend._build_queryset_ranges. cbv zeta.
  rewrite !arg_delete.
  unfold filter_parameters in Hk. cbn [In] in Hk.
  repeat (destruct Hk as [<-|Hk];
    [ eval_eqb; rewrite ?(arg_given kw _ v _ Hv);
      given_test Hgiven; rewrite ?Hgiven;
      reflexivity |]).
  destruct Hk.
Qed.

Lemma build_queryset_not_given cfg db project tags sort_by env kw k v st :
  In k filter_parameters ->
  kw !! k = Some v -> given k v = false ->
  DjangoSearchBackend._build_queryset cfg db project tags sort_by env
    (delete k kw) st
  = DjangoSearchBackend._build_queryset cfg db project tags sort_by env kw st.
Proof.
  intros Hk Hv Hgiven.
  pose proof (fun qs st =>
    build_queryset_ranges_not_given cfg db project sort_by kw k v qs st
      Hk Hv Hgiven) as Hranges.
  unfold DjangoSearchBackend._build_queryset. cbv zeta.
  rewrite !arg_delete.
  unfold filter_parameters in Hk. cbn [In] in Hk.
  repeat (destruct Hk as [<-|Hk];
    [ eval_eqb; rewrite ?(arg_given kw _ v _ Hv);
      given_test Hgiven; rewrite ?negb_false_iff in Hgiven;
      rewrite ?Hgiven; cbn [negb andb truthy is_EMPTY];
      try (destruct (truthy _ && is_EMPTY _); [reflexivity|]);
      (destruct (tags_truthy tags);
       [ run_monad_goal;
         destruct (get_group_ids_for_search_filter _ _ _ _);
         [reflexivity|now rewrite Hranges]
       | now rewrite Hranges ]) |]).
  destruct Hk.
Qed.

(** X18.  On the plain backend a filter parameter whose value fails the
    test the code applies to it ([None] for the status, the subscriber
    and the counts; a value other than [True] and [False] for
    [unassigned]; a false value such as [None], [0] or the empty string
    for the others) is the same as leaving the parameter out. *)
Theorem plain_not_given cfg db project a st k v :
  In k filter_parameters ->
  kwargs a !! k = Some v -> given k v = false ->
  DjangoSearchBackend.query cfg db project a st
  = DjangoSearchBackend.query cfg db project
      (with_kwargs a (delete k (kwargs a))) st.
Proof.
  intros Hk Hv Hgiven. unfold DjangoSearchBackend.query.
  cbn [kwargs with_kwargs sort_by limit cursor count_hits paginator_options
       environment_id].
  rewrite accepts_delete.
  2:{ unfold filter_parameters in Hk. cbn [In] in Hk.
      repeat (destruct Hk as [<-|Hk]; [vm_compute; reflexivity|]).
      destruct Hk. }
  destruct (DjangoSearchBackend.accepts (kwargs a)); cbn [negb];
    [|reflexivity].
  cbv zeta. unfold bind, get_tags.
  now rewrite (build_queryset_not_given cfg db project (caller_tags st)
                 (default "date" (sort_by a)) (environment_id a) (kwargs a)
                 k v st Hk Hv Hgiven).
Qed.

Lemma plain_not_given_witness :
  DjangoSearchBackend.query Example.settings Sample.db Example.project
    (Example.args {[ "query" := VStr ""; "times_seen" := VInt 5 ]})
    Example.no_tags
  = DjangoSearchBackend.query Example.settings Sample.db Example.project
      (with_kwargs
         (Example.args {[ "query" := VStr ""; "times_seen" := VInt 5 ]})
         (delete "query"
            (kwargs (Example.args
                       {[ "query" := VStr ""; "times_seen" := VInt 5 ]}))))
      Example.no_tags.
Proof.
  apply (plain_not_given Example.settings Sample.db Example.project
           (Example.args {[ "query" := VStr ""; "times_seen" := VInt 5 ]})
           Example.no_tags "query" (VStr "")).
  - vm_compute. auto.
  - vm_compute. reflexivity.
  - vm_compute. reflexivity.
Defined.

(** ** [None] is a value for the environment backend *)

(** X19.  The environment backend applies a handler whenever its
    parameter is passed, whatever the value: [status=None] selects the
    issues whose status is null, and there are none, where the plain
    backend takes [status=None] as no status filter. *)
Theorem environment_status_none cfg db project a st r st' :
  List.NoDup (map g_id (groups db)) ->
  kwargs a !! "status" = Some VNone ->
  EnvironmentDjangoSearchBackend.query cfg db project a st = (Ok r, st') ->
  result_set r = [].
Proof.
  intros Hnd Hstatus Hrun.
  destruct (result_set r) as [|g l] eqn:Hr; [reflexivity|exfalso].
  assert (Hg : In g (result_set r)) by (rewrite Hr; now left).
  pose proof (env_query_passes _ _ _ _ _ _ _ Hnd Hrun g Hg) as Hall.
  unfold EnvironmentDjangoSearchBackend.base_conditions in Hall.
  inversion Hall as [|? ? _ Hall1]; subst. clear Hall.
  inversion Hall1 as [|? ? Hpass _]; subst. clear Hall1.
  apply (passes_lambda2 _ _ _ _ _ Hstatus) in Hpass.
  apply in_rows_filter in Hpass. destruct Hpass as [_ Hmatch].
  rewrite matches_all_one in Hmatch.
  rewrite (matches_lookup_eval "status" "status" LExact (VInt (g_status g)))
    in Hmatch by (vm_compute; reflexivity).
  discriminate Hmatch.
Qed.

Lemma environment_status_none_witness :
  exists r,
    fst (EnvironmentDjangoSearchBackend.query Example.settings Sample.db
           Example.project (Example.args {[ "status" := VNone ]})
           Example.no_tags) = Ok r
    /\ result_set r = []
    /\ Example.ids
         (DjangoSearchBackend.query Example.settings Sample.db Example.project
            (Example.args {[ "status" := VNone ]}) Example.no_tags)
       = Ok [1; 3].
Proof.
  eexists. split; [vm_compute; reflexivity|].
  split; [|vm_compute; reflexivity].
  apply (environment_status_none Example.settings Sample.db Example.project
           (Example.args {[ "status" := VNone ]}) Example.no_tags _
           Example.no_tags sample_ids_unique);
    vm_compute; reflexivity.
Defined.
(** ** A search without filters *)

Lemma arg_empty name d : arg ∅ name d = d.
Proof. unfold arg. now rewrite lookup_empty. Qed.

Lemma default_rows db project :
  rows (environment_base db project)
  = List.filter
      (fun g => (g_project g =? project_id project)
                && negb (existsb (Z.eqb (g_status g)) status_in))
      (groups db).
Proof.
  unfold environment_base, qs_exclude, qs_where, objects. cbn [rows].
  rewrite filter_andb. apply filter_ext. intros g.
  now rewrite matches_status_in.
Qed.

(** X20.  A search without filters loses no issue: on both backends (the
    environment backend without [environment_id]) it ranges over exactly
    the issues of the project whose status is not pending deletion,
    deletion in progress or pending merge. *)
Theorem default_search_complete cfg db project a st r st' :
  kwargs a = ∅ -> tags_truthy (caller_tags st) = false ->
  DjangoSearchBackend.query cfg db project a st = (Ok r, st')
  \/ (environment_id a = None
      /\ EnvironmentDjangoSearchBackend.query cfg db project a st
         = (Ok r, st')) ->
  result_set r
  = List.filter
      (fun g => (g_project g =? project_id project)
                && negb (existsb (Z.eqb (g_status g)) status_in))
      (groups db).
Proof.
  intros Hkw Htags Hrun. rewrite <- default_rows.
  destruct Hrun as [Hrun|[Henv Hrun]].
  - unfold DjangoSearchBackend.query in Hrun. rewrite Hkw in Hrun.
    destruct (negb _); [discriminate|].
    cbv zeta in Hrun. unfold bind at 1 in Hrun. unfold get_tags in Hrun.
    unfold DjangoSearchBackend._build_queryset,
      DjangoSearchBackend._build_queryset_ranges in Hrun.
    cbv zeta in Hrun. rewrite !arg_empty, Htags in Hrun.
    cbn [truthy is_None is_EMPTY in_True_False negb andb orb id] in Hrun.
    run_monad Hrun.
    destruct (getitem _ _) as [score_clause|]; [|discriminate].
    destruct (paginator_for _) as [cls clause].
    injection Hrun as <- _. reflexivity.
  - unfold EnvironmentDjangoSearchBackend.query in Hrun. cbv zeta in Hrun.
    rewrite Henv, Hkw in Hrun.
    step_ok Hrun u Hassert. step_ok Hrun strategy Hstrategy.
    destruct strategy as [sort_expression value_to_cursor_score].
    step_ok Hrun q1 Hbase. step_ok Hrun q2 Hplain.
    rewrite build_absent in Hbase by (intros; apply lookup_empty).
    rewrite build_absent in Hplain by (intros; apply lookup_empty).
    injection Hbase as <-. injection Hplain as <-.
    unfold EnvironmentDjangoSearchBackend.query_tags in Hrun.
    cbv zeta in Hrun. step_ok Hrun tags Hget. rewrite Htags in Hrun.
    apply query_paginate_rows in Hrun. destruct Hrun as [-> _]. reflexivity.
Qed.

Lemma default_search_complete_witness :
  exists r,
    fst (EnvironmentDjangoSearchBackend.query Example.settings Sample.db
           Example.project (Example.args ∅) Example.no_tags) = Ok r
    /\ map g_id (result_set r) = [1; 3]
    /\ result_set r
       = List.filter
           (fun g => (g_project g =? 1)
                     && negb (existsb (Z.eqb (g_status g)) status_in))
           (groups Sample.db).
Proof.
  eexists. split; [vm_compute; reflexivity|].
  split; [reflexivity|].
  apply (default_search_complete Example.settings Sample.db Example.project
           (Example.args ∅) Example.no_tags _ Example.no_tags
           eq_refl eq_refl).
  right. split; [reflexivity|vm_compute; reflexivity].
Defined.
(** ** Counts and dates of an environment-scoped search *)

Lemma env_query_rows cfg db project a st e r st' :
  environment_id a = Some e ->
  EnvironmentDjangoSearchBackend.query cfg db project a st = (Ok r, st') ->
  forall g, In g (result_set r) ->
    exists tv, In tv (group_tag_values db)
      /\ gtv_group_id tv = g_id g
      /\ gtv_key tv = "environment"
      /\ Forall (fun item => passes (kwargs a) item tv)
           EnvironmentDjangoSearchBackend.scalar_conditions.
Proof.
  intros Henv. unfold EnvironmentDjangoSearchBackend.query. cbv zeta.
  rewrite Henv. intros Hrun.
  step_ok Hrun u Hassert. step_ok Hrun strategy Hstrategy.
  destruct strategy as [sort_expression value_to_cursor_score].
  step_ok Hrun q1 Hbase.
  step_ok Hrun tags_ Htags.
  destruct (caller_tags st) as [tags|]; step_ok Hrun tags' Htags'.
  step_ok Hrun u1 Hin. step_ok Hrun name Hname.
  step_ok Hrun environment Hget. step_ok Hrun u2 Hid.
  step_ok Hrun q2 Hjoin. step_ok Hrun value Hvalue.
  step_ok Hrun u3 Hput. step_ok Hrun q3 Hscalar.
  step_ok Hrun data Hdata. step_ok Hrun ids Hpage.
  apply ret_inv in Hrun. destruct Hrun as [Hr _]. injection Hr as ->.
  intros g Hg. simpl in Hg. apply hydrate_in in Hg. destruct Hg as [Hid' Hg].
  eapply get_result_in in Hid'; [|exact Hpage]. destruct Hid' as [score Hsc].
  eapply map_outcome_in in Hsc; [|exact Hdata].
  destruct Hsc as [[id s] [Hitem Hconv]]. simpl in Hconv.
  destruct (value_to_cursor_score s); simpl in Hconv; [|discriminate].
  injection Hconv as -> ->.
  apply list_elem_of_In, elem_of_map_to_list in Hitem.
  apply intersect_tags_lookup in Hitem. destruct Hitem as [Hcand _].
  apply dict_lookup_in, in_map_iff in Hcand.
  destruct Hcand as [row [Heq Hrow]]. injection Heq as Hrid _.
  simpl in Hrow. exists row.
  apply (build_rows _ _ (scalar_conditions_selective _) _ _ Hscalar) in Hrow.
  destruct Hrow as [Hrow Hpasses].
  apply in_rows_filter in Hrow. destruct Hrow as [Hrow Hmatch].
  apply environment_tag_row in Hmatch.
  destruct Hmatch as [_ [Hkey _]]. cbn [objects rows] in Hrow. auto.
Qed.

Lemma tag_value_times_seen (tv : GroupTagValue) n :
  matches_all [("times_seen", VInt n)] tv = (gtv_times_seen tv =? n).
Proof.
  rewrite matches_all_one.
  rewrite (matches_lookup_eval "times_seen" "times_seen" LExact
             (VInt (gtv_times_seen tv))) by (vm_compute; reflexivity).
  cbn [lookup_holds sql_compare]. symmetry. apply Z.eqb_compare.
Qed.

(** X21.  In an environment-scoped search the counts and the dates
    filtered on are those of the environment: every issue returned has a
    tag value row for the environment whose [times_seen] equals the
    [times_seen] asked for and whose [first_seen], [last_seen] and
    [times_seen] lie within the bounds passed, where the other path
    compares the columns of the issue itself. *)
Theorem environment_scalars_on_tag_value cfg db project a st e r st' :
  environment_id a = Some e ->
  EnvironmentDjangoSearchBackend.query cfg db project a st = (Ok r, st') ->
  forall g, In g (result_set r) ->
    exists tv, In tv (group_tag_values db)
      /\ gtv_group_id tv = g_id g
      /\ gtv_key tv = "environment"
      /\ (forall n, kwargs a !! "times_seen" = Some (VInt n) ->
          gtv_times_seen tv = n)
      /\ (forall f T inclusive,
            In f tag_value_scalar_filters ->
            kwargs a !! sf_parameter f = Some (sf_bound f T) ->
            kwargs a !! (sf_parameter f ++ "_inclusive") = Some inclusive ->
            compares_column (sf_lower f) (truthy inclusive) T (sf_column f tv)
            = true).
Proof.
  intros Henv Hrun g Hg.
  destruct (env_query_rows _ _ _ _ _ _ _ _ Henv Hrun g Hg)
    as (tv & Htv & Hid & Hkey & Hpasses).
  exists tv. split; [exact Htv|]. split; [exact Hid|]. split; [exact Hkey|].
  split.
  - intros n Hn.
    unfold EnvironmentDjangoSearchBackend.scalar_conditions in Hpasses.
    do 4 (inversion Hpasses as [|? ? _ Hrest]; subst; clear Hpasses;
          rename Hrest into Hpasses).
    inversion Hpasses as [|? ? Hpass _]; subst. clear Hpasses.
    apply (passes_lambda2 _ _ _ _ _ Hn) in Hpass.
    apply in_rows_filter in Hpass. destruct Hpass as [_ Hmatch].
    rewrite tag_value_times_seen in Hmatch. now apply Z.eqb_eq.
  - intros f T inclusive Hf Hbound Hflag.
    pose proof tag_value_scalar_filters_registered as Hreg.
    pose proof tag_value_scalar_filters_keep as Hkeep.
    rewrite List.Forall_forall in Hreg, Hkeep, Hpasses.
    specialize (Hpasses _ (Hreg f Hf)).
    destruct Hpasses as [q [Hq Hin]].
    destruct (Hkeep f Hf (objects [tv]) (kwargs a) T inclusive Hbound Hflag)
      as [q' [Hq' Hrows]].
    rewrite Hq in Hq'. injection Hq' as <-.
    rewrite Hrows in Hin. apply filter_In in Hin. tauto.
Qed.
Lemma environment_scalars_on_tag_value_witness :
  exists r,
    fst (EnvironmentDjangoSearchBackend.query Example.settings Sample.db
           Example.project (Example.env_args {[ "times_seen" := VInt 8 ]})
           (Example.with_tags {[ "environment" := VStr "prod" ]})) = Ok r
    /\ map g_id (result_set r) = [3]
    /\ map g_times_seen (result_set r) = [5]
    /\ forall g, In g (result_set r) ->
         exists tv, In tv (group_tag_values Sample.db)
                    /\ gtv_group_id tv = g_id g
                    /\ gtv_key tv = "environment"
                    /\ gtv_times_seen tv = 8.
Proof.
  eexists. split; [vm_compute; reflexivity|].
  split; [reflexivity|]. split; [reflexivity|].
  intros g Hg.
  match type of Hg with
  | In g (result_set ?r) =>
      assert (Hrun :
        EnvironmentDjangoSearchBackend.query Example.settings Sample.db
          Example.project (Example.env_args {[ "times_seen" := VInt 8 ]})
          (Example.with_tags {[ "environment" := VStr "prod" ]})
        = (Ok r, Example.with_tags ∅)) by (vm_compute; reflexivity)
  end.
  destruct (environment_scalars_on_tag_value Example.settings Sample.db
              Example.project (Example.env_args {[ "times_seen" := VInt 8 ]})
              (Example.with_tags {[ "environment" := VStr "prod" ]}) 9 _
              (Example.with_tags ∅) eq_refl Hrun g Hg)
    as (tv & Htv & Hid & Hkey & Htimes & _).
  exists tv. split; [exact Htv|]. split; [exact Hid|]. split; [exact Hkey|].
  apply Htimes. vm_compute. reflexivity.
Defined.

(** ** The two backends on common ground *)

Lemma qs_where_where {A} (p p' : A -> bool) (qs : QuerySet A) :
  qs_where p (qs_where p' qs) = qs_where (fun r => p' r && p r) qs.
Proof. unfold qs_where. cbn [rows select ordering]. now rewrite filter_andb. Qed.

Lemma qs_where_ext {A} (p p' : A -> bool) (qs : QuerySet A) :
  (forall r, p r = p' r) -> qs_where p qs = qs_where p' qs.
Proof.
  intros Hp. unfold qs_where. f_equal. now apply filter_ext.
Qed.

Lemma stage_pred {A} (c : bool) (p : A -> bool) (qs : QuerySet A) :
  (if c then qs_where p else id) qs
  = qs_where (fun r => if c then p r else true) qs.
Proof. destruct c; [reflexivity|]. symmetry. apply qs_where_all. Qed.

(** A handler [lambda queryset, value: F(value, queryset)] whose value
    passes [test] whenever it is passed does what the stage
    [if test(value): queryset = F(value, queryset)] of the plain backend
    does. *)
Lemma build_lambda2_stage {Q} (kw : gmap string pyval) name
  (test : pyval -> bool) (F : pyval -> Q -> Q) (qs : Q) :
  test VNone = false ->
  (forall v, kw !! name = Some v -> test v = true) ->
  QueryBuilder.build [(name, condition (lambda2 (fun q v => F v q)) None)]
    qs kw
  = Ok ((if test (arg kw name VNone) then F (arg kw name VNone) else id) qs).
Proof.
  intros Hnone Htest. unfold condition, arg.
  cbn [QueryBuilder.build default from_option getitems bind_outcome lambda2].
  destruct (kw !! name) as [v|].
  - now rewrite (Htest v eq_refl).
  - now rewrite Hnone.
Qed.

Lemma build_scalar_stage {A} `{Model A} (kw : gmap string pyval)
  parameter field operator (test : pyval -> bool) (qs : QuerySet A) :
  test VNone = false ->
  (forall v, kw !! parameter = Some v ->
             test v = true /\ is_Some (kw !! (parameter ++ "_inclusive"))) ->
  QueryBuilder.build [(parameter, scalar_condition parameter field operator)]
    qs kw
  = Ok ((if test (arg kw parameter VNone)
         then qs_filter
                [(field ++ "__" ++ operator
                  ++ (if truthy (arg kw (parameter ++ "_inclusive")
                                   (VBool true))
                      then "e" else ""),
                  arg kw parameter VNone)]
         else id) qs).
Proof.
  intros Hnone Htest.
  destruct (kw !! parameter) as [v|] eqn:Hv.
  - destruct (Htest v eq_refl) as [Ht [i Hi]].
    rewrite (build_scalar _ _ _ _ _ _ _ Hv Hi).
    unfold arg. now rewrite Hv, Hi, Ht.
  - unfold scalar_condition, condition, arg.
    cbn [QueryBuilder.build]. now rewrite Hv, Hnone.
Qed.

Lemma build_lambda2_arg {Q} (kw : gmap string pyval) name (F : pyval -> Q -> Q)
  (qs : Q) :
  QueryBuilder.build [(name, condition (lambda2 (fun q v => F v q)) None)]
    qs kw
  = Ok (match kw !! name with Some v => F v qs | None => qs end).
Proof.
  unfold condition.
  cbn [QueryBuilder.build default from_option getitems bind_outcome lambda2].
  destruct (kw !! name); reflexivity.
Qed.

Lemma portable_given (kw : gmap string pyval) k :
  portable kw ->
  In k ["bookmarked_by"; "assigned_to"; "subscribed_by"; "first_release";
        "times_seen"] ->
  forall v, kw !! k = Some v -> given k v = true.
Proof. intros (_ & _ & _ & _ & H & _) Hk v Hv. exact (H k v Hk Hv). Qed.

Lemma portable_scalar (kw : gmap string pyval) p :
  portable kw -> In p scalar_parameters ->
  forall v, kw !! p = Some v ->
    given p v = true /\ is_Some (kw !! (p ++ "_inclusive")).
Proof. intros (_ & _ & _ & _ & _ & _ & _ & H) Hp v Hv. exact (H p v Hp Hv). Qed.

Ltac in_list := cbn [In]; solve [repeat first [left; reflexivity|right]].

Lemma build_query_stage {Q} (kw : gmap string pyval) name
  (F : pyval -> Q -> Q) (qs : Q) :
  QueryBuilder.build
    [(name, condition (lambda2 (fun q v => if truthy v then F v q else q))
              None)] qs kw
  = Ok ((if truthy (arg kw name VNone) then F (arg kw name VNone) else id) qs).
Proof.
  unfold condition, arg.
  cbn [QueryBuilder.build default from_option getitems bind_outcome lambda2].
  destruct (kw !! name) as [v|]; [|reflexivity].
  now destruct (truthy v).
Qed.

Lemma build_nil {Q} (qs : Q) (kw : gmap string pyval) :
  QueryBuilder.build [] qs kw = Ok qs.
Proof. reflexivity. Qed.

Ltac lambda_stage kw name test H :=
  first [ rewrite (build_cons kw (name, _)) | idtac ];
  rewrite (build_lambda2_stage kw name test) by (reflexivity || exact H);
  cbn [bind_outcome].

Ltac scalar_stage kw name test H :=
  first [ rewrite (build_cons kw (name, _)) | idtac ];
  rewrite (build_scalar_stage kw name _ _ test)
    by (reflexivity || (apply H; in_list));
  cbn [bind_outcome].

Lemma arg_absent (kw : gmap string pyval) name d :
  kw !! name = None -> arg kw name d = d.
Proof. intros Hn. unfold arg. now rewrite Hn. Qed.

Lemma portable_not_empty (kw : gmap string pyval) :
  portable kw ->
  truthy (arg kw "first_release" VNone)
  && is_EMPTY (arg kw "first_release" VNone) = false.
Proof.
  intros (_ & _ & _ & _ & _ & Hempty & _). unfold arg.
  destruct (kw !! "first_release") as [v|]; [|reflexivity].
  destruct v; cbn [truthy is_EMPTY]; rewrite ?andb_false_r; try reflexivity.
  now destruct Hempty.
Qed.

Lemma range_stage {A} `{Model A} field (fg : bool) from_ fi (tg : bool) to_ ti
  (qs : QuerySet A) :
  (if fg || tg then qs_filter (range_params field fg from_ fi tg to_ ti)
   else id) qs
  = (if tg
     then qs_filter
            [(field ++ "__" ++ "lt" ++ (if truthy ti then "e" else ""), to_)]
     else id)
      ((if fg
        then qs_filter
               [(field ++ "__" ++ "gt" ++ (if truthy fi then "e" else ""),
                 from_)]
        else id) qs).
Proof.
  unfold range_params.
  destruct fg, tg, (truthy fi), (truthy ti); cbn [orb app id];
    rewrite ?qs_filter_cons, ?qs_filter_nil; try reflexivity;
    unfold qs_filter; (apply qs_where_ext; intros r; symmetry;
                       apply matches_all_one).
Qed.

Lemma assign_stage {A} (a u : bool) (p p' : A -> bool) (qs : QuerySet A) :
  (u = true -> a = false) ->
  (if a then qs_where p else if u then qs_where p' else id) qs
  = (if u then qs_where p' else id) ((if a then qs_where p else id) qs).
Proof.
  intros Hu. destruct a; [|reflexivity].
  destruct u; [|reflexivity]. discriminate (Hu eq_refl).
Qed.

Lemma status_stage {A} (c : bool) (p p' : A -> bool) (qs : QuerySet A) :
  (if c then qs_where p else qs_where p') qs
  = qs_where (fun r => if c then p r else p' r) qs.
Proof. now destruct c. Qed.

(** The leaves of a conjunction, each replaced by a variable. *)
Ltac gen_leaves t :=
  lazymatch t with
  | ?a && ?b => gen_leaves a; gen_leaves b
  | _ => tryif is_var t then idtac
         else (let x := fresh "b" in set (x := t) in *; clearbody x)
  end.

Lemma backends_filters cfg db project kw sort_by env st :
  portable kw ->
  exists q,
    bind_outcome
      (QueryBuilder.build
         (EnvironmentDjangoSearchBackend.base_conditions db project)
         (environment_base db project) kw)
      (fun q1 =>
         QueryBuilder.build
           (EnvironmentDjangoSearchBackend.plain_conditions db project) q1 kw)
    = Ok q
    /\ DjangoSearchBackend._build_queryset cfg db project None sort_by env kw st
       = (score_clause <- lift (getitem (sort_clauses_for cfg) sort_by) ;;
          ret (qs_extra_select "sort_value" score_clause q)) st.
Proof.
  intros Hkw.
  pose proof (portable_given kw "bookmarked_by" Hkw ltac:(in_list)) as Hbook.
  pose proof (portable_given kw "assigned_to" Hkw ltac:(in_list)) as Hassign.
  pose proof (portable_given kw "subscribed_by" Hkw ltac:(in_list)) as Hsub.
  pose proof (portable_given kw "first_release" Hkw ltac:(in_list)) as Hrelease.
  pose proof (portable_given kw "times_seen" Hkw ltac:(in_list)) as Htimes.
  pose proof (fun p Hp => portable_scalar kw p Hkw Hp) as Hscalar.
  pose proof (portable_not_empty kw Hkw) as Hempty.
  destruct Hkw as (_ & Hfrom & Hto & Hstatus & _ & _ & Hun & _).
  assert (Hstatus' : forall v, kw !! "status" = Some v ->
                               negb (is_None v) = true).
  { intros v Hv. destruct (Hstatus v Hv) as [X [-> _]]. reflexivity. }
  assert (Hun' : forall v, kw !! "unassigned" = Some v ->
                           in_True_False v = true).
  { intros v Hv. now destruct (Hun v Hv). }
  eexists. split.
  { unfold EnvironmentDjangoSearchBackend.base_conditions,
      EnvironmentDjangoSearchBackend.plain_conditions,
      EnvironmentDjangoSearchBackend.scalar_conditions.
    rewrite (build_cons kw ("query", _)), build_query_stage.
    cbn [bind_outcome].
    lambda_stage kw "status" (fun v => negb (is_None v)) Hstatus'.
    lambda_stage kw "bookmarked_by" truthy Hbook.
    lambda_stage kw "assigned_to" truthy Hassign.
    lambda_stage kw "unassigned" in_True_False Hun'.
    lambda_stage kw "subscribed_by" (fun v => negb (is_None v)) Hsub.
    scalar_stage kw "active_at_from" truthy Hscalar.
    scalar_stage kw "active_at_to" truthy Hscalar.
    rewrite build_nil. cbn [bind_outcome].
    unfold EnvironmentDjangoSearchBackend.scalar_conditions.
    lambda_stage kw "first_release" truthy Hrelease.
    scalar_stage kw "age_from" truthy Hscalar.
    scalar_stage kw "age_to" truthy Hscalar.
    scalar_stage kw "last_seen_from" truthy Hscalar.
    scalar_stage kw "last_seen_to" truthy Hscalar.
    lambda_stage kw "times_seen" (fun v => negb (is_None v)) Htimes.
    scalar_stage kw "times_seen_lower" (fun v => negb (is_None v)) Hscalar.
    scalar_stage kw "times_seen_upper" (fun v => negb (is_None v)) Hscalar.
    rewrite build_nil. reflexivity. }
  unfold DjangoSearchBackend._build_queryset,
    DjangoSearchBackend._build_queryset_ranges. cbv zeta.
  rewrite Hempty. cbn [tags_truthy].
  rewrite (arg_absent kw "date_from" VNone Hfrom),
    (arg_absent kw "date_to" VNone Hto).
  cbn [truthy orb].
  run_monad_goal.
  assert (Hunassigned :
    in_True_False (arg kw "unassigned" VNone) = true ->
    truthy (arg kw "assigned_to" VNone) = false).
  { unfold arg. destruct (kw !! "unassigned") as [v|] eqn:Hv; [|discriminate].
    intros _. destruct (Hun v eq_refl) as [_ ->]. reflexivity. }
  rewrite !range_stage.
  rewrite (assign_stage _ _ _ _ _ Hunassigned).
  unfold environment_base. unfold qs_filter, qs_exclude.
  rewrite status_stage, !stage_pred, !qs_where_where.
  destruct (getitem (sort_clauses_for cfg) sort_by) as [score_clause|];
    [|reflexivity].
  do 3 f_equal. apply qs_where_ext. intros r.
  assert (Hst :
    (if is_None (arg kw "status" VNone)
     then negb (matches_all [("status__in", VIds status_in)] r)
     else matches_all [("status", arg kw "status" VNone)] r)
    = negb (matches_all [("status__in", VIds status_in)] r)
      && (if negb (is_None (arg kw "status" VNone))
          then matches_all [("status", arg kw "status" VNone)] r
          else true)).
  { unfold arg. destruct (kw !! "status") as [v|] eqn:Hv.
    - destruct (Hstatus v eq_refl) as [X [-> HX]]. cbn [is_None negb].
      rewrite matches_status_exact, matches_status_in.
      destruct (Z.eqb_spec (g_status r) X) as [->|Hne]; [|now rewrite andb_false_r].
      rewrite andb_true_r. symmetry. apply negb_true_iff.
      apply not_true_is_false. intros Hex. apply HX. now apply existsb_Zeqb.
    - cbn [is_None negb]. now rewrite andb_true_r. }
  rewrite Hst. clear.
  repeat match goal with
    | |- context [arg kw (String.append ?a ?b) ?d] =>
        let s := eval vm_compute in (String.append a b) in
        change (String.append a b) with s
    end.
  match goal with |- ?l = ?r => gen_leaves l; gen_leaves r end.
  repeat match goal with
    | b : bool |- _ =>
        destruct b; [|cbn [andb]; rewrite ?andb_false_r; reflexivity]
    end.
  reflexivity.
Qed.



Lemma build_queryset_no_tags cfg db project tags sort_by env kw st :
  tags_truthy tags = false ->
  DjangoSearchBackend._build_queryset cfg db project tags sort_by env kw st
  = DjangoSearchBackend._build_queryset cfg db project None sort_by env kw st.
Proof.
  intros Htags. unfold DjangoSearchBackend._build_queryset. cbv zeta.
  rewrite Htags. reflexivity.
Qed.

Lemma build_queryset_with_tags cfg db project tags sort_by env kw st :
  tags_truthy tags = true ->
  truthy (arg kw "first_release" VNone)
  && is_EMPTY (arg kw "first_release" VNone) = false ->
  let st1 :=
    mkState (caller_tags st)
      (calls st ++ [TagstoreSearch (project_id project) env (default ∅ tags)]) in
  match get_group_ids_for_search_filter cfg (project_id project) env
          (default ∅ tags) with
  | [] =>
      exists q,
        DjangoSearchBackend._build_queryset cfg db project tags sort_by env kw st
        = (Ok q, st1) /\ rows q = []
  | matches =>
      DjangoSearchBackend._build_queryset cfg db project tags sort_by env kw st
      = map_outcome_state (qs_where (matches_all [("id__in", VIds matches)]))
          (DjangoSearchBackend._build_queryset cfg db project None sort_by env
             kw st1)
  end.
Proof.
  intros Htags Hempty. cbv zeta.
  unfold DjangoSearchBackend._build_queryset. cbv zeta.
  rewrite Htags, Hempty. cbn [tags_truthy].
  unfold bind at 1. unfold record_call.
  destruct (get_group_ids_for_search_filter _ _ _ _) as [|m ms].
  - eexists. split; reflexivity.
  - now rewrite <- (build_queryset_ranges_where cfg db project sort_by kw
                      (matches_all [("id__in", VIds (m :: ms))])).
Qed.

Lemma sort_strategy_known cfg s :
  In s ["priority"; "date"; "new"; "freq"] ->
  exists strategy, sort_strategies cfg !! s = Some strategy.
Proof.
  intros Hs. destruct (sort_strategies cfg !! s) as [strategy|] eqn:Hk;
    [eauto|].
  now apply sort_strategies_keys in Hk.
Qed.

Lemma env_query_reaches_query_tags cfg db project a st strategy q1 q :
  environment_id a = None ->
  kwargs a !! "date_from" = None ->
  sort_strategies cfg !! default "date" (sort_by a) = Some strategy ->
  QueryBuilder.build (EnvironmentDjangoSearchBackend.base_conditions db project)
    (environment_base db project) (kwargs a) = Ok q1 ->
  QueryBuilder.build (EnvironmentDjangoSearchBackend.plain_conditions db project)
    q1 (kwargs a) = Ok q ->
  EnvironmentDjangoSearchBackend.query cfg db project a st
  = EnvironmentDjangoSearchBackend.query_tags cfg project
      (default "date" (sort_by a)) a q st.
Proof.
  intros Henv Hfrom Hstrategy Hbase Hplain.
  unfold EnvironmentDjangoSearchBackend.query. cbv zeta.
  rewrite Henv. unfold environment_base in Hbase.
  unfold bind at 1. rewrite (date_from_absent _ Hfrom).
  cbn [negb andb assert_ ret].
  unfold bind at 1. unfold getitem. rewrite Hstrategy. cbn [lift].
  destruct strategy as [sort_expression value_to_cursor_score].
  unfold bind at 1. rewrite Hbase. cbn [lift].
  unfold bind at 1. rewrite Hplain. cbn [lift]. reflexivity.
Qed.

Lemma query_tags_run cfg project sort_by a q st :
  EnvironmentDjangoSearchBackend.query_tags cfg project sort_by a q st
  = if tags_truthy (caller_tags st) then
      let st1 :=
        mkState (caller_tags st)
          (calls st ++ [TagstoreSearch (project_id project) None
                          (default ∅ (caller_tags st))]) in
      match get_group_ids_for_search_filter cfg (project_id project) None
              (default ∅ (caller_tags st)) with
      | [] => (Ok (BareQuerySet (qs_none q)), st1)
      | matches =>
          EnvironmentDjangoSearchBackend.query_paginate cfg sort_by a
            (qs_filter [("id__in", VIds matches)] q) st1
      end
    else EnvironmentDjangoSearchBackend.query_paginate cfg sort_by a q st.
Proof.
  unfold EnvironmentDjangoSearchBackend.query_tags. cbv zeta.
  unfold bind at 1. unfold get_tags.
  destruct (tags_truthy (caller_tags st)); [|reflexivity].
  unfold bind at 1. unfold record_call.
  destruct (get_group_ids_for_search_filter _ _ _ _); reflexivity.
Qed.

Lemma plain_query_run cfg db project a st :
  DjangoSearchBackend.accepts (kwargs a) = true ->
  DjangoSearchBackend.query cfg db project a st
  = match DjangoSearchBackend._build_queryset cfg db project (caller_tags st)
            (default "date" (sort_by a)) (environment_id a) (kwargs a) st with
    | (Ok queryset, st') =>
        (Ok (Paginated (fst (paginator_for (default "date" (sort_by a))))
               (qs_order_by (snd (paginator_for (default "date" (sort_by a))))
                  queryset)
               (snd (paginator_for (default "date" (sort_by a))))
               (default ∅ (paginator_options a))
               (Some (default 100%nat (limit a))) (cursor a) (count_hits a)),
         st')
    | (Raise e, st') => (Raise e, st')
    end.
Proof.
  intros Hacc. unfold DjangoSearchBackend.query. rewrite Hacc. cbn [negb].
  cbv zeta. unfold bind at 1. unfold get_tags. unfold bind.
  destruct (DjangoSearchBackend._build_queryset _ _ _ _ _ _ _ _)
    as [[qs|e] st1]; [|reflexivity].
  now destruct (paginator_for _).
Qed.

(** X22.  On common ground the two backends agree.  For a search without
    [environment_id], with a sort key that is a sort strategy and keyword
    arguments that mean the same to both (see [portable]), the plain
    backend and the environment backend leave the same state and either
    raise the same exception or range over the same issues. *)
Theorem backends_agree cfg db project a st :
  environment_id a = None ->
  In (default "date" (sort_by a)) ["priority"; "date"; "new"; "freq"] ->
  portable (kwargs a) ->
  same_results
    (DjangoSearchBackend.query cfg db project a st)
    (EnvironmentDjangoSearchBackend.query cfg db project a st).
Proof.
  intros Henv Hsort Hkw.
  destruct (sort_strategy_known cfg _ Hsort) as [strategy Hstrategy].
  pose proof (portable_not_empty _ Hkw) as Hempty.
  assert (Hfilters := fun st1 =>
    backends_filters cfg db project (kwargs a) (default "date" (sort_by a))
      None st1 Hkw).
  destruct (Hfilters st) as [q [Hbuilds _]].
  assert (Hplain : forall st1,
    DjangoSearchBackend._build_queryset cfg db project None
      (default "date" (sort_by a)) None (kwargs a) st1
    = (score_clause <- lift (getitem (sort_clauses_for cfg)
                               (default "date" (sort_by a))) ;;
       ret (qs_extra_select "sort_value" score_clause q)) st1).
  { intros st1. destruct (Hfilters st1) as [q' [Hbuilds' Hq']].
    rewrite Hbuilds in Hbuilds'. injection Hbuilds' as <-. exact Hq'. }
  clear Hfilters.
  destruct (QueryBuilder.build
              (EnvironmentDjangoSearchBackend.base_conditions db project) _ _)
    as [q1|] eqn:Hbase; [|discriminate]. cbn [bind_outcome] in Hbuilds.
  destruct Hkw as (Hacc & Hfrom & _).
  unfold same_results.
  rewrite (env_query_reaches_query_tags _ _ _ _ _ _ _ _ Henv Hfrom Hstrategy
             Hbase Hbuilds).
  rewrite (plain_query_run _ _ _ _ _ Hacc), Henv, query_tags_run.
  destruct (tags_truthy (caller_tags st)) eqn:Htags.
  - pose proof (build_queryset_with_tags cfg db project (caller_tags st)
                  (default "date" (sort_by a)) None (kwargs a) st Htags Hempty)
      as Hsplit.
    cbv zeta in Hsplit. cbv zeta.
    destruct (get_group_ids_for_search_filter _ _ _ _) as [|m ms].
    + destruct Hsplit as [q' [-> Hrows]]. cbn [fst snd].
      split; [reflexivity|]. exact Hrows.
    + rewrite Hsplit, Hplain.
      unfold EnvironmentDjangoSearchBackend.query_paginate.
      unfold bind, lift.
      destruct (getitem _ _) as [score_clause|]; cbn [map_outcome_state ret].
      * destruct (paginator_for _) as [cls clause]. cbn [fst snd].
        split; reflexivity.
      * split; reflexivity.
  - rewrite (build_queryset_no_tags _ _ _ _ _ _ _ _ Htags), Hplain.
    unfold EnvironmentDjangoSearchBackend.query_paginate.
    unfold bind, lift.
    destruct (getitem _ _) as [score_clause|]; cbn [ret].
    + destruct (paginator_for _) as [cls clause]. cbn [fst snd].
      split; reflexivity.
    + split; reflexivity.
Qed.

Lemma backends_agree_witness :
  let a :=
    Example.args {[ "query" := VStr "world"; "status" := VInt 1;
                    "age_from" := VDate 100;
                    "age_from_inclusive" := VBool false ]} in
  Example.ids
    (DjangoSearchBackend.query Example.settings Sample.db Example.project a
       Example.no_tags) = Ok [3]
  /\ same_results
       (DjangoSearchBackend.query Example.settings Sample.db Example.project a
          Example.no_tags)
       (EnvironmentDjangoSearchBackend.query Example.settings Sample.db
          Example.project a Example.no_tags).
Proof.
  intros a. split; [vm_compute; reflexivity|].
  apply (backends_agree Example.settings Sample.db Example.project a
           Example.no_tags).
  - reflexivity.
  - simpl. auto.
  - unfold portable.
    split; [vm_compute; reflexivity|].
    split; [vm_compute; reflexivity|].
    split; [vm_compute; reflexivity|].
    split.
    { intros v Hv. vm_compute in Hv. injection Hv as <-. exists 1.
      split; [reflexivity|]. vm_compute. intros H.
      repeat (destruct H as [H|H]; [discriminate H|]). exact H. }
    split.
    { intros k v Hk Hv. cbn [In] in Hk.
      repeat (destruct Hk as [Hk|Hk];
              [subst k; vm_compute in Hv; discriminate Hv|]).
      destruct Hk. }
    split; [vm_compute; discriminate|].
    split.
    { intros v Hv. vm_compute in Hv. discriminate Hv. }
    intros p v Hp Hv. unfold scalar_parameters in Hp. cbn [In] in Hp.
    repeat (destruct Hp as [Hp|Hp];
            [subst p; vm_compute in Hv;
             first [discriminate Hv
                   |injection Hv as <-;
                    split; [reflexivity|vm_compute; eauto]]|]).
    destruct Hp.
Defined.

(** ** C5: a [tags] filter that matches nothing *)

Lemma plain_query_no_matches cfg db project a st tags :
  caller_tags st = Some tags -> tags <> ∅ ->
  DjangoSearchBackend.accepts (kwargs a) = true ->
  get_group_ids_for_search_filter cfg (project_id project)
    (environment_id a) tags = [] ->
  exists queryset st',
    DjangoSearchBackend.query cfg db project a st
    = (Ok (Paginated (fst (paginator_for (default "date" (sort_by a))))
             queryset
             (snd (paginator_for (default "date" (sort_by a))))
             (default ∅ (paginator_options a))
             (Some (default 100%nat (limit a))) (cursor a) (count_hits a)),
       st')
    /\ rows queryset = []
    /\ caller_tags st' = caller_tags st
    /\ (calls st' = calls st
        \/ calls st'
           = (calls st ++ [TagstoreSearch (project_id project)
                             (environment_id a) tags])%list).
Proof.
  intros Htags Hne Hacc Hm.
  rewrite (plain_query_run _ _ _ _ _ Hacc). rewrite Htags.
  destruct (DjangoSearchBackend._build_queryset cfg db project (Some tags)
              (default "date" (sort_by a)) (environment_id a) (kwargs a) st)
    as [o st'] eqn:Hbuild.
  destruct (build_queryset_tags _ _ _ _ _ _ _ _ _ _ Hne Hbuild) as [Hnone _].
  destruct (Hnone Hm) as [qs [-> [Hrows [Hct Hcalls]]]].
  eexists _, st'. split; [reflexivity|].
  split; [exact Hrows|]. split; [congruence|exact Hcalls].
Qed.

Lemma plain_query_matches cfg db project a st tags r st' :
  caller_tags st = Some tags -> tags <> ∅ ->
  DjangoSearchBackend.query cfg db project a st = (Ok r, st') ->
  forall g, In g (result_set r) ->
    In (g_id g)
      (get_group_ids_for_search_filter cfg (project_id project)
         (environment_id a) tags).
Proof.
  intros Htags Hne. unfold DjangoSearchBackend.query.
  destruct (DjangoSearchBackend.accepts (kwargs a)); cbn [negb].
  2:{ intros Hrun. apply raise_inv in Hrun. destruct Hrun. discriminate. }
  cbv zeta. unfold bind at 1. unfold get_tags. rewrite Htags.
  intros Hrun. apply bind_ok in Hrun.
  destruct Hrun as (qs & st1 & Hbuild & Hrun).
  destruct (build_queryset_tags _ _ _ _ _ _ _ _ _ _ Hne Hbuild) as [_ Hsome].
  destruct (paginator_for _) as [cls clause].
  apply ret_inv in Hrun. destruct Hrun as [Hr _]. injection Hr as ->.
  intros g Hg. simpl in Hg. now apply (Hsome qs eq_refl).
Qed.

Lemma env_query_no_matches cfg db project a st tags strategy q1 q :
  environment_id a = None ->
  kwargs a !! "date_from" = None ->
  sort_strategies cfg !! default "date" (sort_by a) = Some strategy ->
  QueryBuilder.build (EnvironmentDjangoSearchBackend.base_conditions db project)
    (environment_base db project) (kwargs a) = Ok q1 ->
  QueryBuilder.build (EnvironmentDjangoSearchBackend.plain_conditions db project)
    q1 (kwargs a) = Ok q ->
  caller_tags st = Some tags -> tags <> ∅ ->
  get_group_ids_for_search_filter cfg (project_id project) None tags = [] ->
  EnvironmentDjangoSearchBackend.query cfg db project a st
  = (Ok (BareQuerySet (qs_none q)),
     mkState (Some tags)
       (calls st ++ [TagstoreSearch (project_id project) None tags])).
Proof.
  intros Henv Hdate Hstrategy Hbase Hplain Htags Hne Hm.
  rewrite (env_query_reaches_query_tags _ _ _ _ _ _ _ _
             Henv Hdate Hstrategy Hbase Hplain).
  rewrite query_tags_run, Htags, (tags_truthy_nonempty tags Hne).
  cbn [default from_option id]. cbv zeta. now rewrite Hm.
Qed.

Lemma env_query_tags_page cfg db project a st tags r st' :
  environment_id a = None ->
  caller_tags st = Some tags -> tags <> ∅ ->
  EnvironmentDjangoSearchBackend.query cfg db project a st = (Ok r, st') ->
  (is_page r = false
   <-> get_group_ids_for_search_filter cfg (project_id project) None tags = [])
  /\ forall g, In g (result_set r) ->
       In (g_id g)
         (get_group_ids_for_search_filter cfg (project_id project) None tags).
Proof.
  intros Henv Htags Hne Hrun.
  apply env_query_reaches_tags in Hrun; [|exact Henv].
  destruct Hrun as [[e [He _]]|[qs Hrun]]; [discriminate|].
  destruct (query_tags_inv _ _ _ _ _ _ _ _ _ Htags Hne Hrun) as [_ Hsome].
  split; [|exact (Hsome r eq_refl)].
  rewrite query_tags_run, Htags, (tags_truthy_nonempty tags Hne) in Hrun.
  cbn [default from_option id] in Hrun. cbv zeta in Hrun.
  destruct (get_group_ids_for_search_filter cfg (project_id project) None tags)
    as [|m ms].
  - injection Hrun as <- _. split; reflexivity.
  - unfold EnvironmentDjangoSearchBackend.query_paginate, bind, lift, getitem
      in Hrun.
    destruct (sort_clauses_for cfg !! default "date" (sort_by a));
      [|discriminate].
    destruct (paginator_for _) as [cls clause]. cbn [ret] in Hrun.
    injection Hrun as <- _. split; discriminate.
Qed.

(** C5.  A non-empty [tags] filter for which the tag store adapter
    returns no issue id ends the search at once on both backends, with
    the call to the adapter as the only call it can have made, and a
    search that returns only returns issues whose ids the adapter
    returned.  What is
    returned differs.  The plain backend hands the empty query set to
    the paginator and returns its page.  The environment backend,
    called without environment, returns the empty query set itself
    ([return queryset.none()]), which is no page, where all its other
    paths return the result of a paginator: with a [tags] filter it
    returns a page exactly when the adapter returned some id.  On the
    example database a search for the tag os=linux, which no issue
    carries, returns a page of the date paginator from the plain backend
    (with [date_from] passed, and no event sub-query fetched) and a bare
    query set from the environment backend, each after the one call to
    the adapter. *)
Theorem tags_short_circuit_no_page :
  (forall cfg db project a st tags,
     caller_tags st = Some tags -> tags <> ∅ ->
     (DjangoSearchBackend.accepts (kwargs a) = true ->
      get_group_ids_for_search_filter cfg (project_id project)
        (environment_id a) tags = [] ->
      exists queryset st',
        DjangoSearchBackend.query cfg db project a st
        = (Ok (Paginated (fst (paginator_for (default "date" (sort_by a))))
                 queryset
                 (snd (paginator_for (default "date" (sort_by a))))
                 (default ∅ (paginator_options a))
                 (Some (default 100%nat (limit a))) (cursor a) (count_hits a)),
           st')
        /\ rows queryset = []
        /\ caller_tags st' = caller_tags st
        /\ (calls st' = calls st
            \/ calls st'
               = (calls st ++ [TagstoreSearch (project_id project)
                                 (environment_id a) tags])%list))
     /\ (forall r st',
           DjangoSearchBackend.query cfg db project a st = (Ok r, st') ->
           is_page r = true
           /\ forall g, In g (result_set r) ->
                In (g_id g)
                  (get_group_ids_for_search_filter cfg (project_id project)
                     (environment_id a) tags)))
  /\ (forall cfg db project a st tags,
        environment_id a = None ->
        caller_tags st = Some tags -> tags <> ∅ ->
        (forall strategy q1 q,
           kwargs a !! "date_from" = None ->
           sort_strategies cfg !! default "date" (sort_by a) = Some strategy ->
           QueryBuilder.build
             (EnvironmentDjangoSearchBackend.base_conditions db project)
             (environment_base db project) (kwargs a) = Ok q1 ->
           QueryBuilder.build
             (EnvironmentDjangoSearchBackend.plain_conditions db project)
             q1 (kwargs a) = Ok q ->
           get_group_ids_for_search_filter cfg (project_id project) None tags
           = [] ->
           EnvironmentDjangoSearchBackend.query cfg db project a st
           = (Ok (BareQuerySet (qs_none q)),
              mkState (Some tags)
                (calls st ++ [TagstoreSearch (project_id project) None tags])))
        /\ (forall r st',
              EnvironmentDjangoSearchBackend.query cfg db project a st
              = (Ok r, st') ->
              (is_page r = false
               <-> get_group_ids_for_search_filter cfg (project_id project)
                     None tags = [])
              /\ forall g, In g (result_set r) ->
                   In (g_id g)
                     (get_group_ids_for_search_filter cfg (project_id project)
                        None tags)))
  /\ (let st := Example.with_tags {[ "os" := VStr "linux" ]} in
      let st' :=
        mkState (Some {[ "os" := VStr "linux" ]})
          [TagstoreSearch 1 None {[ "os" := VStr "linux" ]}] in
      DjangoSearchBackend.query Example.settings Example.db Example.project
        (Example.args {[ "date_from" := VDate 1 ]}) st
      = (Ok (Paginated DateTimePaginator (mkQuerySet [] [] ["-last_seen"])
               "-last_seen" ∅ (Some 100%nat) None false), st')
      /\ EnvironmentDjangoSearchBackend.query Example.settings Example.db
           Example.project (Example.args ∅) st
         = (Ok (BareQuerySet (mkQuerySet [] [] [])), st')).
Proof.
  split; [|split].
  - intros cfg db project a st tags Htags Hne. split.
    + now apply plain_query_no_matches.
    + intros r st' Hrun. split.
      * revert Hrun. unfold DjangoSearchBackend.query.
        destruct (DjangoSearchBackend.accepts (kwargs a)); cbn [negb].
        2:{ intros Hrun. apply raise_inv in Hrun. destruct Hrun. discriminate. }
        cbv zeta. intros Hrun. run_ok Hrun.
        destruct (paginator_for _) as [cls clause].
        apply ret_inv in Hrun. destruct Hrun as [Hr _]. now injection Hr as ->.
      * now apply (plain_query_matches cfg db project a st tags r st').
  - intros cfg db project a st tags Henv Htags Hne. split.
    + intros strategy q1 q Hdate Hstrategy Hbase Hplain Hm.
      now apply (env_query_no_matches cfg db project a st tags strategy q1 q).
    + intros r st' Hrun.
      now apply (env_query_tags_page cfg db project a st tags r st').
  - cbv zeta. split; vm_compute; reflexivity.
Qed.

(** ** C9: the page of a search by priority *)

Lemma hydrate_find db ids g :
  In g (EnvironmentDjangoSearchBackend.hydrate db ids) ->
  List.find (fun x => g_id x =? g_id g) (groups db) = Some g.
Proof.
  unfold EnvironmentDjangoSearchBackend.hydrate. intros Hg.
  apply list_elem_of_In, list_elem_of_omap in Hg.
  destruct Hg as [id [_ Hfind]].
  assert (Hid : g_id g = id).
  { apply find_some in Hfind. destruct Hfind as [_ Heq].
    now apply Z.eqb_eq in Heq. }
  now rewrite Hid.
Qed.

Lemma sorted_firstn {A} (R : A -> A -> Prop) n (l : list A) :
  StronglySorted R l -> StronglySorted R (firstn n l).
Proof.
  intros Hl. revert n. induction Hl as [|x l Hl IH Hx]; intros [|n];
    cbn [firstn]; try constructor.
  - apply IH.
  - rewrite List.Forall_forall in *. intros y Hy. apply Hx.
    now apply in_firstn in Hy.
Qed.

Lemma sorted_skipn {A} (R : A -> A -> Prop) n (l : list A) :
  StronglySorted R l -> StronglySorted R (skipn n l).
Proof.
  intros Hl. revert n. induction Hl as [|x l Hl IH Hx]; intros [|n];
    cbn [skipn]; try constructor; auto.
Qed.

Lemma sorted_filter {A} (R : A -> A -> Prop) (p : A -> bool) (l : list A) :
  StronglySorted R l -> StronglySorted R (List.filter p l).
Proof.
  induction 1 as [|x l Hl IH Hx]; cbn [List.filter]; [constructor|].
  destruct (p x); [|exact IH]. constructor; [exact IH|].
  rewrite List.Forall_forall in *. intros y Hy. apply Hx.
  now apply filter_In in Hy.
Qed.

(** In a sorted sequence an entry stands before the entries after it. *)
Lemma sorted_before {A} (R : A -> A -> Prop) (l l1 l2 l3 : list A) x y :
  StronglySorted R l -> l = (l1 ++ x :: l2 ++ y :: l3)%list -> R x y.
Proof.
  intros Hl ->. revert Hl. induction l1 as [|z l1 IH]; intros Hl.
  - inversion Hl as [|? ? _ Hall]; subst.
    rewrite List.Forall_forall in Hall. apply Hall.
    apply in_or_app. right. now left.
  - inversion Hl; subst. now apply IH.
Qed.

(** The entries of the page that have an issue behind them, with their
    scores. *)
Lemma hydrate_scored db (page : list (Z * Z)) :
  map snd
    (List.filter (fun p => existsb (fun g => g_id g =? snd p) (groups db)) page)
  = map g_id (EnvironmentDjangoSearchBackend.hydrate db (map snd page)).
Proof.
  unfold EnvironmentDjangoSearchBackend.hydrate.
  induction page as [|[score id] page IH]; [reflexivity|].
  cbn [map snd omap list_omap List.filter].
  destruct (List.find (fun g => g_id g =? id) (groups db)) as [g|] eqn:Hfind.
  - assert (Hex : existsb (fun g => g_id g =? id) (groups db) = true).
    { apply existsb_exists. exists g. now apply find_some in Hfind. }
    rewrite Hex. cbn [map snd]. f_equal; [|exact IH].
    apply find_some in Hfind. destruct Hfind as [_ Heq].
    symmetry. now apply Z.eqb_eq.
  - assert (Hex : existsb (fun g => g_id g =? id) (groups db) = false).
    { apply not_true_is_false. intros Hex. apply existsb_exists in Hex.
      destruct Hex as [g [Hin Hg]].
      now rewrite (find_none _ _ Hfind g Hin) in Hg. }
    rewrite Hex. exact IH.
Qed.

(** The page of an environment-scoped search, with the score the
    paginator ranked each issue by: the entries stand in the order of
    the ranked sequence, and the score of an entry is the sort
    expression of the strategy on a tag value row that counts the issue
    in the environment, converted by the strategy. *)
Lemma env_query_scored cfg db project a st e results st' :
  environment_id a = Some e ->
  EnvironmentDjangoSearchBackend.query cfg db project a st
  = (Ok (SequencePage results), st') ->
  exists expr conv tags name (scored : list (Z * Z)),
    sort_strategies cfg !! default "date" (sort_by a) = Some (expr, conv)
    /\ caller_tags st = Some tags
    /\ tags !! "environment" = Some name
    /\ map snd scored = map g_id results
    /\ StronglySorted before scored
    /\ forall score id, In (score, id) scored ->
         exists r, In r (group_tag_values db)
                   /\ environment_row project name id r
                   /\ conv (eval_sort_expression expr r) = Ok score.
Proof.
  intros Henv. unfold EnvironmentDjangoSearchBackend.query. cbv zeta.
  rewrite Henv. intros Hrun.
  step_ok Hrun u Hassert. step_ok Hrun strategy Hstrategy.
  destruct strategy as [sort_expression value_to_cursor_score].
  step_ok Hrun q1 Hbase.
  step_ok Hrun tags_ Htags.
  destruct (caller_tags st) as [tags|]; step_ok Hrun tags' Htags'.
  step_ok Hrun u1 Hin. step_ok Hrun name Hname.
  step_ok Hrun environment Hget. step_ok Hrun u2 Hid.
  step_ok Hrun q2 Hjoin. step_ok Hrun value Hvalue.
  step_ok Hrun u3 Hput. step_ok Hrun q3 Hscalar.
  step_ok Hrun data Hdata. step_ok Hrun ids Hpage.
  apply ret_inv in Hrun. destruct Hrun as [Hr _]. injection Hr as ->.
  unfold getitem in Hname, Hvalue, Hstrategy.
  destruct (tags !! "environment") as [n|] eqn:Hn; [|discriminate].
  injection Hname as <-. injection Hvalue as <-.
  destruct (sort_strategies cfg !! default "date" (sort_by a))
    as [strategy|] eqn:Hs; [|discriminate].
  injection Hstrategy as ->.
  unfold SequencePaginator.get_result in Hpage.
  destruct (limit a) as [size|]; [|discriminate].
  cbv zeta in Hpage. injection Hpage as <-.
  set (page := firstn (Nat.min size SequencePaginator.max_limit)
                 (skipn (default 0%nat (cursor a))
                    (SequencePaginator.ranked data))).
  exists sort_expression, value_to_cursor_score, tags, n,
    (List.filter (fun p => existsb (fun g => g_id g =? snd p) (groups db))
       page).
  split; [reflexivity|]. split; [reflexivity|]. split; [exact Hn|].
  split; [apply hydrate_scored|].
  split.
  { apply sorted_filter, sorted_firstn, sorted_skipn, ranked_sorted. }
  intros score id Hsc.
  apply filter_In in Hsc. destruct Hsc as [Hsc _].
  apply in_firstn, in_skipn in Hsc.
  apply (Permutation_in _ (ranked_permutation data)) in Hsc.
  eapply map_outcome_in in Hsc; [|exact Hdata].
  destruct Hsc as [[id' s] [Hitem Hconv]]. cbn [fst snd] in Hconv.
  destruct (value_to_cursor_score s) as [z|] eqn:Hz; simpl in Hconv;
    [|discriminate].
  injection Hconv as -> ->.
  apply list_elem_of_In, elem_of_map_to_list in Hitem.
  apply intersect_tags_lookup in Hitem. destruct Hitem as [Hcand _].
  apply dict_lookup_in, in_map_iff in Hcand.
  destruct Hcand as [row [Heq Hrow]]. injection Heq as Hrid Hval.
  simpl in Hrow.
  eapply build_narrows in Hrow;
    [|apply scalar_conditions_selective|exact Hscalar].
  apply in_rows_filter in Hrow. destruct Hrow as [Hrow Hmatch].
  apply environment_tag_row in Hmatch.
  destruct Hmatch as [Hproject [Hkey [Hvalue _]]].
  exists row. split; [exact Hrow|]. split.
  - unfold environment_row. auto.
  - now rewrite Hval.
Qed.

Lemma int_priority_expression (r : GroupTagValue) score :
  int (eval_sort_expression priority_expression r) = Ok score ->
  exists last_seen,
    gtv_last_seen r = Some last_seen
    /\ score = priority_score (gtv_times_seen r) last_seen.
Proof.
  unfold eval_sort_expression. rewrite String.eqb_refl.
  destruct (gtv_last_seen r) as [t|]; cbn [int]; [|discriminate].
  intros Hs. injection Hs as <-. exists t. split; reflexivity.
Qed.

Lemma map_eq_two {A B} (f : A -> B) (l : list A) m1 a m2 b m3 :
  map f l = (m1 ++ a :: m2 ++ b :: m3)%list ->
  exists l1 x l2 y l3,
    l = (l1 ++ x :: l2 ++ y :: l3)%list /\ f x = a /\ f y = b.
Proof.
  intros Hmap.
  apply map_eq_app in Hmap. destruct Hmap as [l1 [r1 [-> [_ Hr1]]]].
  destruct r1 as [|x r1]; [discriminate|].
  cbn [map] in Hr1. injection Hr1 as Hx Hr1.
  apply map_eq_app in Hr1. destruct Hr1 as [l2 [r2 [-> [_ Hr2]]]].
  destruct r2 as [|y l3]; [discriminate|].
  cbn [map] in Hr2. injection Hr2 as Hy _.
  exists l1, x, l2, y, l3. auto.
Qed.

(** C9.  An environment-scoped search with [sort_by='priority'] returns
    its page in descending order of priority score, where the score of
    an issue is the integer part of [log(times_seen) * 600 + last_seen]
    (the date in whole seconds), taken from a tag value row that counts
    the issue in the environment; the counts are at least 1, so the
    logarithm is defined.  Of two issues on the page, the one standing
    first has the greater score, or the same score and the greater id:
    the order of the page is fixed by scores and ids alone.  Hence an
    issue seen 100 times stands before an issue seen 10 times and last
    seen at the same instant, wherever both are on the page.  The
    paginator returns the same ids in whatever order the candidates are
    handed to it. *)
Theorem priority_ranking cfg db project a st e results st' :
  environment_id a = Some e ->
  sort_by a = Some "priority" ->
  (forall r, In r (group_tag_values db) -> 0 < gtv_times_seen r) ->
  EnvironmentDjangoSearchBackend.query cfg db project a st
  = (Ok (SequencePage results), st') ->
  exists tags name (scored : list (Z * Z)),
    caller_tags st = Some tags
    /\ tags !! "environment" = Some name
    /\ map snd scored = map g_id results
    /\ (forall score id, In (score, id) scored ->
          exists r last_seen,
            In r (group_tag_values db)
            /\ environment_row project name id r
            /\ gtv_last_seen r = Some last_seen
            /\ score = priority_score (gtv_times_seen r) last_seen)
    /\ (forall l1 x l2 y l3,
          scored = (l1 ++ x :: l2 ++ y :: l3)%list ->
          fst y < fst x \/ (fst y = fst x /\ snd y <= snd x))
    /\ (forall gA gB last_seen,
          In gA results -> In gB results ->
          (forall r, In r (group_tag_values db) ->
             environment_row project name (g_id gA) r ->
             gtv_times_seen r = 100 /\ gtv_last_seen r = Some last_seen) ->
          (forall r, In r (group_tag_values db) ->
             environment_row project name (g_id gB) r ->
             gtv_times_seen r = 10 /\ gtv_last_seen r = Some last_seen) ->
          exists l1 l2 l3, results = (l1 ++ gA :: l2 ++ gB :: l3)%list)
    /\ (forall data data' limit cursor,
          Permutation data data' ->
          SequencePaginator.get_result data limit cursor
          = SequencePaginator.get_result data' limit cursor).
Proof.
  intros Henv Hsort _ Hrun.
  assert (Hpage : exists ids,
            results = EnvironmentDjangoSearchBackend.hydrate db ids).
  { revert Hrun. unfold EnvironmentDjangoSearchBackend.query. cbv zeta.
    rewrite Henv. intros Hrun.
    step_ok Hrun u Hassert. step_ok Hrun strategy Hstrategy.
    destruct strategy as [sort_expression value_to_cursor_score].
    step_ok Hrun q1 Hbase. step_ok Hrun tags_ Htags.
    destruct (caller_tags st) as [tags|]; step_ok Hrun tags' Htags'.
    step_ok Hrun u1 Hin. step_ok Hrun name Hname.
    step_ok Hrun environment Hget. step_ok Hrun u2 Hid.
    step_ok Hrun q2 Hjoin. step_ok Hrun value Hvalue.
    step_ok Hrun u3 Hput. step_ok Hrun q3 Hscalar.
    step_ok Hrun data Hdata. step_ok Hrun ids Hids.
    apply ret_inv in Hrun. destruct Hrun as [Hr _]. injection Hr as ->.
    now exists ids. }
  destruct (env_query_scored _ _ _ _ _ _ _ _ Henv Hrun)
    as (expr & conv & tags & name & scored & Hstrategy & Htags & Hname
        & Hids & Hsorted & Hscore).
  rewrite Hsort in Hstrategy. cbn [default from_option id] in Hstrategy.
  rewrite sort_strategies_priority in Hstrategy.
  injection Hstrategy as <- <-.
  assert (Hscored : forall score id, In (score, id) scored ->
            exists r last_seen,
              In r (group_tag_values db)
              /\ environment_row project name id r
              /\ gtv_last_seen r = Some last_seen
              /\ score = priority_score (gtv_times_seen r) last_seen).
  { intros score id Hin.
    destruct (Hscore score id Hin) as [r [Hr [Hrow Hconv]]].
    apply int_priority_expression in Hconv.
    destruct Hconv as [last_seen [Hls Hs]]. exists r, last_seen. auto. }
  exists tags, name, scored.
  split; [exact Htags|]. split; [exact Hname|]. split; [exact Hids|].
  split; [exact Hscored|]. split; [|split].
  - intros l1 x l2 y l3 Heq.
    apply precedes_spec.
    exact (sorted_before before scored l1 l2 l3 x y Hsorted Heq).
  - intros gA gB last_seen HgA HgB HA HB.
    assert (Hentry : forall g n,
              In g results ->
              (forall r, In r (group_tag_values db) ->
                 environment_row project name (g_id g) r ->
                 gtv_times_seen r = n /\ gtv_last_seen r = Some last_seen) ->
              In (priority_score n last_seen, g_id g) scored).
    { intros g n Hg Hrows.
      assert (Hid : In (g_id g) (map snd scored))
        by (rewrite Hids; now apply in_map).
      apply in_map_iff in Hid. destruct Hid as [[score id] [Heq Hin]].
      cbn [snd] in Heq. subst id.
      destruct (Hscored score (g_id g) Hin) as [r [ls [Hr [Hrow [Hls ->]]]]].
      destruct (Hrows r Hr Hrow) as [Hn Hls'].
      rewrite Hls in Hls'. injection Hls' as ->.
      rewrite Hn in Hin. exact Hin. }
    pose proof (Hentry gA 100 HgA HA) as HinA.
    pose proof (Hentry gB 10 HgB HB) as HinB.
    unfold priority_score in HinA, HinB.
    rewrite priority_score_100 in HinA. rewrite priority_score_10 in HinB.
    destruct (sorted_order scored _ _ Hsorted HinA HinB) as [s1 [s2 [s3 Heq]]].
    { unfold before. rewrite precedes_spec. cbn [fst snd]. lia. }
    rewrite Heq, !List.map_app in Hids. cbn [map snd] in Hids.
    rewrite List.map_app in Hids. cbn [map snd] in Hids.
    symmetry in Hids. apply map_eq_two in Hids.
    destruct Hids as (l1 & x & l2 & y & l3 & Hres & Hx & Hy).
    destruct Hpage as [ids Hpage].
    assert (Hsame : forall g g', In g results -> In g' results ->
              g_id g' = g_id g -> g' = g).
    { intros g g' Hg Hg' Hid. rewrite Hpage in Hg, Hg'.
      apply hydrate_find in Hg, Hg'. rewrite Hid in Hg'.
      rewrite Hg in Hg'. now injection Hg'. }
    assert (x = gA) as ->.
    { apply Hsame; [exact HgA| |exact Hx].
      rewrite Hres. apply in_or_app. right. now left. }
    assert (y = gB) as ->.
    { apply Hsame; [exact HgB| |exact Hy].
      rewrite Hres. apply in_or_app. right. right.
      apply in_or_app. right. now left. }
    exists l1, l2, l3. exact Hres.
  - intros data data' limit cursor Hperm.
    unfold SequencePaginator.get_result.
    now rewrite (ranked_unique data data' Hperm).
Qed.

(** A run of the environment-scoped branch that returns: each stage of
    the code yields its value. *)
Lemma env_query_scoped_run cfg db project a st e expr conv q1 tags name
  environment q2 q3 data ids :
  environment_id a = Some e ->
  kwargs a !! "date_from" = None ->
  sort_strategies cfg !! default "date" (sort_by a) = Some (expr, conv) ->
  QueryBuilder.build (EnvironmentDjangoSearchBackend.base_conditions db project)
    (environment_base db project) (kwargs a) = Ok q1 ->
  caller_tags st = Some tags ->
  tags !! "environment" = Some name ->
  EnvironmentDjangoSearchBackend.get_environment db project name
  = Ok environment ->
  env_id environment = e ->
  QueryBuilder.build
    (EnvironmentDjangoSearchBackend.environment_conditions db project)
    (EnvironmentDjangoSearchBackend.join_environment db e q1) (kwargs a)
  = Ok q2 ->
  QueryBuilder.build EnvironmentDjangoSearchBackend.scalar_conditions
    (qs_filter
       [("project_id", VInt (project_id project));
        ("key", VStr "environment"); ("value", name);
        ("group_id__in",
         VIds (nodup Z.eq_dec (map (fun row => g_id (fst row)) (rows q2))))]
       (objects (group_tag_values db)))
    (kwargs a) = Ok q3 ->
  map_outcome
    (fun item => bind_outcome (conv (snd item))
                   (fun score => Ok (score, fst item)))
    (map_to_list
       (fold_left (EnvironmentDjangoSearchBackend.intersect_tag db)
          (map_to_list (delete "environment" tags))
          (dict (map (fun r => (gtv_group_id r, eval_sort_expression expr r))
                   (rows q3))))) = Ok data ->
  SequencePaginator.get_result data (limit a) (cursor a) = Ok ids ->
  EnvironmentDjangoSearchBackend.query cfg db project a st
  = (Ok (SequencePage (EnvironmentDjangoSearchBackend.hydrate db ids)),
     mkState (Some (delete "environment" tags)) (calls st)).
Proof.
  intros Henv Hdate Hstrategy Hbase Htags Hname Hget Hid Hjoin Hscalar Hdata
    Hpage.
  unfold EnvironmentDjangoSearchBackend.query. cbv zeta.
  rewrite Henv. unfold environment_base in Hbase.
  assert (Hnot : bool_decide ("date_from" ∈ dom (kwargs a)) = false).
  { apply bool_decide_eq_false_2. rewrite elem_of_dom, Hdate.
    intros [? ?]. discriminate. }
  unfold bind at 1. rewrite Hnot. cbn [negb andb assert_ ret].
  unfold bind at 1. unfold getitem. rewrite Hstrategy. cbn [lift].
  unfold bind at 1. rewrite Hbase. cbn [lift].
  unfold bind at 1. unfold get_tags. rewrite Htags.
  unfold bind at 1. cbn [ret].
  unfold bind at 1.
  rewrite (bool_decide_eq_true_2 ("environment" ∈ dom tags))
    by (rewrite elem_of_dom, Hname; eauto).
  cbn [assert_ ret]. unfold bind at 1. rewrite Hname. cbn [lift].
  unfold bind at 1. rewrite Hget. cbn [lift].
  unfold bind at 1. rewrite (proj2 (Z.eqb_eq _ _) Hid). cbn [assert_ ret].
  unfold bind at 1. rewrite Hjoin. cbn [lift].
  unfold bind at 1. cbn [lift].
  unfold bind at 1. cbn [put_tags].
  unfold bind at 1. cbn [caller_tags calls]. rewrite Hscalar. cbn [lift].
  unfold bind at 1.
  unfold qs_extra_select at 1. cbn [rows]. rewrite Hdata. cbn [lift].
  unfold bind at 1. rewrite Hpage. cbn [lift ret]. reflexivity.
Qed.

Lemma priority_example_run :
  EnvironmentDjangoSearchBackend.query Example.settings PriorityExample.db
    Example.project PriorityExample.args
    (Example.with_tags {[ "environment" := VStr "prod" ]})
  = (Ok (SequencePage
           (EnvironmentDjangoSearchBackend.hydrate PriorityExample.db
              [1; 3; 2])),
     mkState (Some (delete "environment" {[ "environment" := VStr "prod" ]}))
       []).
Proof.
  assert (Hrest : map_to_list
            (delete "environment"
               ({[ "environment" := VStr "prod" ]} : gmap string pyval)) = [])
    by (vm_compute; reflexivity).
  assert (Hitems : forall v1 v2 v3 : sqlval,
            map_to_list (<[3 := v3]> (<[1 := v1]> (<[2 := v2]>
                           (∅ : gmap Z sqlval))))
            = [(3, v3); (2, v2); (1, v1)])
    by (intros; vm_compute; reflexivity).
  eapply (env_query_scoped_run Example.settings PriorityExample.db
            Example.project PriorityExample.args
            (Example.with_tags {[ "environment" := VStr "prod" ]})
            9 priority_expression int).
  - reflexivity.
  - vm_compute; reflexivity.
  - apply sort_strategies_priority.
  - vm_compute; reflexivity.
  - reflexivity.
  - vm_compute; reflexivity.
  - vm_compute; reflexivity.
  - reflexivity.
  - vm_compute; reflexivity.
  - vm_compute; reflexivity.
  - rewrite Hrest. cbn [fold_left rows map].
    rewrite !(eval_priority_expression _ 500) by reflexivity.
    unfold dict. cbn [fold_left fst snd gtv_group_id gtv_times_seen].
    rewrite Hitems. cbn [map_outcome bind_outcome int fst snd].
    rewrite priority_score_100, !priority_score_10. reflexivity.
  - vm_compute; reflexivity.
Qed.

Lemma priority_ranking_witness :
  let st := Example.with_tags {[ "environment" := VStr "prod" ]} in
  let A := Example.group 1 GroupStatus.UNRESOLVED 100 in
  let B := Example.group 2 GroupStatus.UNRESOLVED 100 in
  exists results st',
    EnvironmentDjangoSearchBackend.query Example.settings PriorityExample.db
      Example.project PriorityExample.args st
    = (Ok (SequencePage results), st')
    /\ map g_id results = [1; 3; 2]
    /\ exists l1 l2 l3, results = (l1 ++ A :: l2 ++ B :: l3)%list.
Proof.
  intros st A B.
  pose proof priority_example_run as Hrun.
  eexists _, _. split; [exact Hrun|]. split; [vm_compute; reflexivity|].
  assert (Hpositive : forall r, In r (group_tag_values PriorityExample.db) ->
                        0 < gtv_times_seen r).
  { intros r [<-|[<-|[<-|[]]]]; reflexivity. }
  destruct (priority_ranking Example.settings PriorityExample.db
              Example.project PriorityExample.args st 9 _ _
              eq_refl eq_refl Hpositive Hrun)
    as (tags & name & scored & Htags & Hname & _ & _ & _ & Horder & _).
  injection Htags as <-. vm_compute in Hname. injection Hname as <-.
  apply (Horder A B 500).
  - vm_compute. auto.
  - vm_compute. auto.
  - intros r [<-|[<-|[<-|[]]]] (_ & _ & _ & Hid);
      try discriminate Hid; split; reflexivity.
  - intros r [<-|[<-|[<-|[]]]] (_ & _ & _ & Hid);
      try discriminate Hid; split; reflexivity.
Defined.

(** ** Quoted column names *)

Lemma quoted_prefix (t t' r r' : string) :
  quote_free t = true -> quote_free t' = true ->
  (t ++ String double_quote r = t' ++ String double_quote r')%string ->
  t = t' /\ r = r'.
Proof.
  revert t'. induction t as [|c t IH]; intros [|c' t'] Ht Ht' Heq;
    cbn [String.append] in Heq.
  - injection Heq as ->. auto.
  - injection Heq as <- _. cbn [quote_free] in Ht'.
    rewrite Ascii.eqb_refl in Ht'. discriminate Ht'.
  - injection Heq as -> _. cbn [quote_free] in Ht.
    rewrite Ascii.eqb_refl in Ht. discriminate Ht.
  - injection Heq as -> Heq. cbn [quote_free] in Ht, Ht'.
    apply andb_true_iff in Ht, Ht'.
    destruct (IH t' (proj2 Ht) (proj2 Ht') Heq) as [-> ->]. auto.
Qed.

(** X23.  [Column.__str__] renders the table and the column of a field of
    the model, each in double quotes, and fails on a name that is no
    field.  Rendering is unambiguous: two fields that differ in their
    table or in their column, the names holding no double quote, render to
    different texts. *)
Theorem column_str_unambiguous (c c' : Column) (column column' : string) :
  get_field_by_name (column_model c) (column_field c) = Some column ->
  get_field_by_name (column_model c') (column_field c') = Some column' ->
  quote_free (db_table (column_model c)) = true ->
  quote_free (db_table (column_model c')) = true ->
  quote_free column = true -> quote_free column' = true ->
  db_table (column_model c) <> db_table (column_model c')
  \/ column <> column' ->
  Column_str c <> Column_str c'
  /\ Column_str c
     = Some (String double_quote
               (db_table (column_model c)
                ++ String double_quote
                     ("." ++ String double_quote
                               (column ++ String double_quote "")))).
Proof.
  intros Hc Hc' Ht Ht' Hq Hq' Hne. unfold Column_str. rewrite Hc, Hc'.
  split; [|reflexivity].
  intros Hs. injection Hs as Hs.
  apply quoted_prefix in Hs; [|assumption..].
  destruct Hs as [Htable Hrest].
  cbn [String.append] in Hrest. injection Hrest as Hrest.
  apply quoted_prefix in Hrest; [|assumption..]. tauto.
Qed.

Lemma column_str_unambiguous_witness :
  Column_str {| column_model := ColumnExample.group_meta;
                column_field := "first_release" |}
  <> Column_str {| column_model := ColumnExample.group_environment_meta;
                   column_field := "first_release_id" |}
  /\ Column_str {| column_model := ColumnExample.group_meta;
                   column_field := "first_release" |}
     = Some (String double_quote
               ("sentry_groupedmessage"
                ++ String double_quote
                     ("." ++ String double_quote
                               ("first_release_id"
                                ++ String double_quote "")))).
Proof.
  apply (column_str_unambiguous
           {| column_model := ColumnExample.group_meta;
              column_field := "first_release" |}
           {| column_model := ColumnExample.group_environment_meta;
              column_field := "first_release_id" |}
           "first_release_id" "first_release_id");
    try reflexivity.
  left. discriminate.
Defined.
